(** * UCSB baseball WAR pipeline: a shallow embedding of
      [UCSB_Baseball_Stats.py] and the properties of its core.

    The scraper's computational core is embedded function by function:
    [is_california_state], [normalize_position], [calculate_war], the
    metric-extraction loop and the row loop of [get_player_data],
    [get_player_hometown], [process_all_years] and
    [analyze_war_by_position].

    Conventions of the embedding.
    - Python text is a [string]; the model covers ASCII text, on which
      [str.upper] touches the letters a-z only and [str.strip] removes
      the ASCII white space characters.
    - A Python [float] is a binary64 number, Rocq's primitive [float];
      a Python [int] is a [Z].  Mixed arithmetic follows Python's numeric
      tower: an [int] operand is converted (correctly rounded, with
      [OverflowError] when out of range) before a float operation, and
      [/] is true division.
    - A [dict] with string keys is a [gmap string pyval].
    - A call that can raise returns a [result]: [Ok v] or [Raise e].
    - The built-ins [int(text)] and [float(text)] are an interface,
      [Builtins]; every theorem holds for any implementation of it, and
      [ascii_builtins] is an executable one used in the examples.
    - The network and the HTML locator are an interface too, [Web]:
      [get_page] gives the body found at a URL, if the request succeeds,
      and a page or a table row is given by the fields the scraper
      selects from it.
    - A pandas table is reduced to the three columns the analysis reads;
      the mean of a group is a parameter of the analysis. *)

From Stdlib Require Import ZArith QArith Qabs Floats Ascii String List Lia.
From Stdlib Require Import Decimal DecimalString.
From stdpp Require Import base option list gmap strings.
Import ListNotations.

Local Open Scope string_scope.
Local Open Scope Z_scope.

(* ===================================================================== *)
(** ** Text: the [str] methods the scraper calls *)
(* ===================================================================== *)

Module PyStr.

(** [str.isspace] on ASCII: tab, line feed, vertical tab, form feed,
    carriage return, the four separators 0x1c-0x1f and the space. *)
Definition is_space (c : ascii) : bool :=
  let n := nat_of_ascii c in
  ((9 <=? n)%nat && (n <=? 13)%nat) || ((28 <=? n)%nat && (n <=? 32)%nat).

Fixpoint lstrip (s : string) : string :=
  match s with
  | String c r => if is_space c then lstrip r else s
  | EmptyString => EmptyString
  end.

Fixpoint rstrip (s : string) : string :=
  match s with
  | String c r =>
      match rstrip r with
      | EmptyString => if is_space c then EmptyString else String c EmptyString
      | r' => String c r'
      end
  | EmptyString => EmptyString
  end.

(** [s.strip()] *)
Definition strip (s : string) : string := rstrip (lstrip s).

Definition upper_char (c : ascii) : ascii :=
  let n := nat_of_ascii c in
  if ((97 <=? n)%nat && (n <=? 122)%nat)%bool then ascii_of_nat (n - 32) else c.

Definition lower_char (c : ascii) : ascii :=
  let n := nat_of_ascii c in
  if ((65 <=? n)%nat && (n <=? 90)%nat)%bool then ascii_of_nat (n + 32) else c.

(** [s.upper()] *)
Fixpoint upper (s : string) : string :=
  match s with
  | String c r => String (upper_char c) (upper r)
  | EmptyString => EmptyString
  end.

Fixpoint lower (s : string) : string :=
  match s with
  | String c r => String (lower_char c) (lower r)
  | EmptyString => EmptyString
  end.

(** [sub in s] for text: [sub] occurs in [s] as a contiguous run. *)
Fixpoint contains (sub s : string) : bool :=
  String.prefix sub s ||
  match s with
  | String _ r => contains sub r
  | EmptyString => false
  end.

(** [c in s] for a one-character [c]. *)
Fixpoint has_char (c : ascii) (s : string) : bool :=
  match s with
  | String d r => Ascii.eqb c d || has_char c r
  | EmptyString => false
  end.

(** [s.split(c)[0]]: the text before the first [c] (all of [s] when
    [c] does not occur). *)
Fixpoint before_first (c : ascii) (s : string) : string :=
  match s with
  | String d r => if Ascii.eqb c d then EmptyString else String d (before_first c r)
  | EmptyString => EmptyString
  end.

(** The text after the first [c]. *)
Fixpoint after_first (c : ascii) (s : string) : string :=
  match s with
  | String d r => if Ascii.eqb c d then r else after_first c r
  | EmptyString => EmptyString
  end.

(** [s.split(c)]: all the pieces between occurrences of [c]. *)
Fixpoint split (c : ascii) (s : string) : list string :=
  match s with
  | String d r =>
      if Ascii.eqb c d then EmptyString :: split c r
      else match split c r with
           | p :: ps => String d p :: ps
           | [] => [String d EmptyString]
           end
  | EmptyString => [EmptyString]
  end.

(** [not s] for text. *)
Definition is_empty (s : string) : bool :=
  match s with EmptyString => true | _ => false end.

(** [s.startswith(p)] *)
Definition startswith (p s : string) : bool := String.prefix p s.

(** [s * n]: repetition, empty for [n <= 0]. *)
Fixpoint repeat_nat (s : string) (n : nat) : string :=
  match n with
  | O => EmptyString
  | S k => s ++ repeat_nat s k
  end.

Definition repeat (s : string) (n : Z) : string := repeat_nat s (Z.to_nat n).

End PyStr.

(* ===================================================================== *)
(** ** Python values, exceptions and arithmetic *)
(* ===================================================================== *)

Module Py.

(** The exceptions the embedded code can raise. *)
Inductive exn : Type :=
| TypeError
| ValueError
| KeyError (key : string)
| AttributeError
| OverflowError
| ZeroDivisionError.

(** The outcome of a call: a value, or a raised exception. *)
Inductive result (A : Type) : Type :=
| Ok (a : A)
| Raise (e : exn).
Arguments Ok {A} a.
Arguments Raise {A} e.

#[export] Instance result_ret : MRet result := fun A a => Ok a.
#[export] Instance result_bind : MBind result := fun A B k m =>
  match m with
  | Ok a => k a
  | Raise e => Raise e
  end.

#[export] Instance result_fmap : FMap result := fun A B g m =>
  match m with
  | Ok a => Ok (g a)
  | Raise e => Raise e
  end.

Definition is_ok {A} (m : result A) : bool :=
  match m with Ok _ => true | Raise _ => false end.

(** The values held by a player record. *)
Inductive pyval : Type :=
| VNone
| VBool (b : bool)
| VInt (z : Z)
| VFloat (f : float)
| VStr (s : string).

(** Python's numbers: [int] and [float] ([bool] counts as the ints 0 and 1). *)
Inductive num : Type :=
| NInt (z : Z)
| NFloat (f : float).

Definition as_num (v : pyval) : option num :=
  match v with
  | VBool b => Some (NInt (if b then 1 else 0))
  | VInt z => Some (NInt z)
  | VFloat f => Some (NFloat f)
  | VNone | VStr _ => None
  end.

Definition of_num (n : num) : pyval :=
  match n with
  | NInt z => VInt z
  | NFloat f => VFloat f
  end.

(** [float(z)] for an int: the nearest binary64 number, ties to even;
    [OverflowError] when the rounded value is out of range. *)
Definition float_of_int (z : Z) : result float :=
  let f := SF2Prim (binary_normalize prec emax z 0 false) in
  if PrimFloat.is_infinity f then Raise OverflowError else Ok f.

Definition to_float (n : num) : result float :=
  match n with
  | NInt z => float_of_int z
  | NFloat f => Ok f
  end.

(** [a / b] on two ints: the correctly rounded quotient. *)
Definition int_true_div (a b : Z) : result float :=
  if b =? 0 then Raise ZeroDivisionError
  else if a =? 0 then Ok (if b <? 0 then (-0)%float else 0%float)
  else
    let f := SF2Prim (SFdiv prec emax
                        (S754_finite (a <? 0) (Z.to_pos (Z.abs a)) 0)
                        (S754_finite (b <? 0) (Z.to_pos (Z.abs b)) 0)) in
    if PrimFloat.is_infinity f then Raise OverflowError else Ok f.

(** [x / y] on two floats. *)
Definition float_div (x y : float) : result float :=
  if (y =? 0)%float then Raise ZeroDivisionError else Ok (x / y)%float.

Definition num_add (a b : num) : result num :=
  match a, b with
  | NInt x, NInt y => Ok (NInt (x + y))
  | _, _ => x ← to_float a; y ← to_float b; Ok (NFloat (x + y)%float)
  end.

Definition num_sub (a b : num) : result num :=
  match a, b with
  | NInt x, NInt y => Ok (NInt (x - y))
  | _, _ => x ← to_float a; y ← to_float b; Ok (NFloat (x - y)%float)
  end.

Definition num_mul (a b : num) : result num :=
  match a, b with
  | NInt x, NInt y => Ok (NInt (x * y))
  | _, _ => x ← to_float a; y ← to_float b; Ok (NFloat (x * y)%float)
  end.

Definition num_truediv (a b : num) : result num :=
  match a, b with
  | NInt x, NInt y => NFloat <$> int_true_div x y
  | _, _ => x ← to_float a; y ← to_float b; NFloat <$> float_div x y
  end.

(** *** Operators on values *)

(** [a + b]: numbers add; two texts concatenate. *)
Definition py_add (a b : pyval) : result pyval :=
  match as_num a, as_num b with
  | Some x, Some y => of_num <$> num_add x y
  | _, _ =>
      match a, b with
      | VStr s, VStr t => Ok (VStr (s ++ t))
      | _, _ => Raise TypeError
      end
  end.

(** [a - b] *)
Definition py_sub (a b : pyval) : result pyval :=
  match as_num a, as_num b with
  | Some x, Some y => of_num <$> num_sub x y
  | _, _ => Raise TypeError
  end.

(** [a * b]: numbers multiply; a text times an int is a repetition. *)
Definition py_mul (a b : pyval) : result pyval :=
  match as_num a, as_num b with
  | Some x, Some y => of_num <$> num_mul x y
  | Some (NInt n), None =>
      match b with VStr s => Ok (VStr (PyStr.repeat s n)) | _ => Raise TypeError end
  | None, Some (NInt n) =>
      match a with VStr s => Ok (VStr (PyStr.repeat s n)) | _ => Raise TypeError end
  | _, _ => Raise TypeError
  end.

(** [a / b] *)
Definition py_truediv (a b : pyval) : result pyval :=
  match as_num a, as_num b with
  | Some x, Some y => of_num <$> num_truediv x y
  | _, _ => Raise TypeError
  end.

(** [v > 0], the right operand being the int literal. *)
Definition py_gt0 (v : pyval) : result bool :=
  match v with
  | VBool b => Ok b
  | VInt z => Ok (0 <? z)
  | VFloat f => Ok (0 <? f)%float
  | VNone | VStr _ => Raise TypeError
  end.

(** Truth value of [v] in a condition. *)
Definition truthy (v : pyval) : bool :=
  match v with
  | VNone => false
  | VBool b => b
  | VInt z => negb (z =? 0)
  | VFloat f => negb (f =? 0)%float
  | VStr s => negb (PyStr.is_empty s)
  end.

(** [v is None] *)
Definition is_none (v : pyval) : bool :=
  match v with VNone => true | _ => false end.

(** [v == s] for a text literal [s]. *)
Definition eq_str (v : pyval) (s : string) : bool :=
  match v with VStr t => String.eqb t s | _ => false end.

(** [d.get(k)] and [d.get(k, default)] *)
Definition dict_get (d : gmap string pyval) (k : string) : pyval :=
  default VNone (d !! k).

Definition dict_get_or (d : gmap string pyval) (k : string) (dflt : pyval) : pyval :=
  default dflt (d !! k).

(** [d[k]] *)
Definition dict_item (d : gmap string pyval) (k : string) : result pyval :=
  match d !! k with
  | Some v => Ok v
  | None => Raise (KeyError k)
  end.

(** *** Reading a float as an exact rational *)

Definition pow2 (e : Z) : Q :=
  match e with
  | Zpos p => inject_Z (2 ^ Zpos p)
  | Z0 => 1%Q
  | Zneg p => Qmake 1 (2 ^ p)%positive
  end.

(** The exact value of a finite float; [None] for infinities and NaN. *)
Definition float_exact (f : float) : option Q :=
  match Prim2SF f with
  | S754_zero _ => Some 0%Q
  | S754_finite s m e => Some (Qmult (inject_Z (cond_Zopp s (Zpos m))) (pow2 e))
  | S754_infinity _ | S754_nan => None
  end.

(** [f] is finite and within [tol] of the rational [target]. *)
Definition within (tol target : Q) (f : float) : bool :=
  match float_exact f with
  | Some q => Qle_bool (Qabs (q - target)) tol
  | None => false
  end.

(** Python's [==] on floats, extended so that NaN matches NaN: the two
    floats are the same, or are the two zeros. *)
Definition float_same (x y : float) : Prop :=
  x = y \/ (x =? y)%float = true.

End Py.

(* ===================================================================== *)
(** ** The built-in conversions [int(text)] and [float(text)] *)
(* ===================================================================== *)

(** The two conversions are Python's, not the scraper's: the embedding
    takes them as an interface.  On text they either return a number or
    raise [ValueError], which is the [None] of the interface. *)
Class Builtins : Type := {
  int_of_text : string -> option Z;
  float_of_text : string -> option float
}.

Section BuiltinCalls.
Context `{builtins : Builtins}.
Import Py.

(** [int(s)] *)
Definition py_int (s : string) : result Z :=
  match int_of_text s with
  | Some z => Ok z
  | None => Raise ValueError
  end.

(** [float(s)] *)
Definition py_float (s : string) : result float :=
  match float_of_text s with
  | Some f => Ok f
  | None => Raise ValueError
  end.
End BuiltinCalls.

(** An executable implementation for ASCII text, following the grammar
    of the Python language reference: optional sign, decimal digits with
    single underscores between digits, and for floats an optional
    fraction and exponent or one of the words inf, infinity, nan. *)
Module PyParse.

Definition digit_val (c : ascii) : option Z :=
  let n := nat_of_ascii c in
  if ((48 <=? n)%nat && (n <=? 57)%nat)%bool then Some (Z.of_nat (n - 48)) else None.

Definition starts_with_digit (s : string) : bool :=
  match s with
  | String c _ => bool_decide (is_Some (digit_val c))
  | EmptyString => false
  end.

(** A digit part: the value read so far and the number of digits. *)
Fixpoint digitpart (s : string) (acc n : Z) (after_digit : bool) : option (Z * Z) :=
  match s with
  | EmptyString => if after_digit then Some (acc, n) else None
  | String c r =>
      match digit_val c with
      | Some d => digitpart r (10 * acc + d) (n + 1) true
      | None =>
          if (Ascii.eqb c "_" && after_digit && starts_with_digit r)%bool
          then digitpart r acc n false
          else None
      end
  end.

(** Splits an optional leading sign off: [(negative, rest)]. *)
Definition sign_split (s : string) : bool * string :=
  match s with
  | String "-" r => (true, r)
  | String "+" r => (false, r)
  | _ => (false, s)
  end.

Definition parse_int (s : string) : option Z :=
  let '(neg, body) := sign_split (PyStr.strip s) in
  '(v, _) ← digitpart body 0 0 false;
  Some (if neg then - v else v).

(** The binary64 number nearest to [m * 10^e], for [m >= 0]. *)
Definition decimal_to_float (neg : bool) (m e : Z) : float :=
  if m =? 0 then (if neg then (-0)%float else 0%float)
  else if 0 <=? e then
    SF2Prim (binary_normalize prec emax (cond_Zopp neg (m * 10 ^ e)) 0 false)
  else
    SF2Prim (SFdiv prec emax
               (S754_finite neg (Z.to_pos m) 0)
               (S754_finite false (Z.to_pos (10 ^ (- e))) 0)).

(** An optional digit part: absent text counts as no digits. *)
Definition opt_digitpart (s : string) (acc : Z) : option (Z * Z) :=
  if PyStr.is_empty s then Some (acc, 0) else digitpart s acc 0 false.

(** The mantissa [intpart [. fracpart]], at least one part present:
    its digits as one integer, and the number of fraction digits. *)
Definition parse_mantissa (s : string) : option (Z * Z) :=
  let ip := PyStr.before_first "." s in
  let fp := PyStr.after_first "." s in
  if (PyStr.is_empty ip && PyStr.is_empty fp)%bool then None
  else
    '(i, _) ← opt_digitpart ip 0;
    '(m, k) ← opt_digitpart fp i;
    Some (m, k).

Definition parse_exponent (s : string) : option Z :=
  let '(neg, body) := sign_split s in
  '(v, _) ← digitpart body 0 0 false;
  Some (if neg then - v else v).

Definition parse_float (s : string) : option float :=
  let '(neg, body) := sign_split (PyStr.strip s) in
  let body := PyStr.lower body in
  if (String.eqb body "inf" || String.eqb body "infinity")%bool
  then Some (if neg then neg_infinity else infinity)
  else if String.eqb body "nan" then Some nan
  else
    '(m, k) ← parse_mantissa (PyStr.before_first "e" body);
    e ← (if PyStr.has_char "e" body
         then parse_exponent (PyStr.after_first "e" body)
         else Some 0);
    Some (decimal_to_float neg m (e - k)).

End PyParse.

#[export] Instance ascii_builtins : Builtins := {|
  int_of_text := PyParse.parse_int;
  float_of_text := PyParse.parse_float
|}.

(* ===================================================================== *)
(** ** The scraper *)
(* ===================================================================== *)

(* ------------------------------------------------------------------- *)
(** *** State classifier and position normalizer *)

Set Warnings "-inexact-float".

Module Scraper.
Import Py.

(** [self.position_adjustments], the table built by [__init__]. *)
Definition position_adjustments : gmap string pyval :=
  list_to_map
    [ ("C", VFloat 12.5); ("1B", VFloat (-12.5)); ("2B", VFloat 2.5);
      ("3B", VFloat 2.5); ("SS", VFloat 7.5); ("LF", VFloat (-7.5));
      ("CF", VFloat 2.5); ("RF", VFloat (-7.5)); ("DH", VFloat (-17.5));
      ("P", VInt 0); ("RP", VInt 0); ("SP", VInt 0); ("OF", VFloat (-2.5));
      ("IF", VInt 0); ("UTL", VInt 0); ("UTIL", VInt 0); ("INF", VInt 0);
      ("OF/IF", VInt 0); ("Unknown", VInt 0) ].

(** [california_states] of [is_california_state]. *)
Definition california_states : list string :=
  ["CA"; "California"; "Calif."; "Calif"; "Calf."; "Calf"].

(** [x in l] for a list of texts. *)
Definition str_in (x : string) (l : list string) : bool :=
  existsb (String.eqb x) l.

Definition is_california_state (state : string) : bool :=
  str_in (PyStr.strip state) california_states.

Definition normalize_position (position_str : string) : string :=
  if PyStr.is_empty position_str then "Unknown"
  else
    let position_str := PyStr.upper (PyStr.strip position_str) in
    let position_str :=
      if PyStr.has_char "/" position_str
      then PyStr.strip (PyStr.before_first "/" position_str)
      else position_str in
    if String.eqb "C" position_str then "C"
    else if PyStr.contains "CATCHER" position_str then "C"
    else if PyStr.contains "1B" position_str then "1B"
    else if PyStr.contains "2B" position_str then "2B"
    else if PyStr.contains "3B" position_str then "3B"
    else if PyStr.contains "SS" position_str then "SS"
    else if PyStr.contains "LF" position_str then "LF"
    else if PyStr.contains "CF" position_str then "CF"
    else if PyStr.contains "RF" position_str then "RF"
    else if PyStr.contains "OF" position_str then "OF"
    else if PyStr.contains "OUTFIELDER" position_str then "OF"
    else if PyStr.contains "OUFIELD" position_str then "OF"
    else if PyStr.contains "INF" position_str then "IF"
    else if PyStr.contains "DH" position_str then "DH"
    else if String.eqb "P" position_str then "P"
    else if PyStr.contains "PITCHER" position_str then "P"
    else if PyStr.contains "RHP" position_str || PyStr.contains "LHP" position_str then "P"
    else if PyStr.contains "SP" position_str then "SP"
    else if PyStr.contains "RP" position_str then "RP"
    else if PyStr.contains "UTIL" position_str then "UTIL"
    else if PyStr.contains "UT" position_str then "UTIL"
    else "Unknown".

(* ------------------------------------------------------------------- *)
(** *** The WAR calculator *)

(** [position in ['P', 'SP', 'RP']] *)
Definition in_pitcher_family (position : pyval) : bool :=
  eq_str position "P" || eq_str position "SP" || eq_str position "RP".

(** [self.position_adjustments.get(position, 0)] *)
Definition adjustment_of (position : pyval) : pyval :=
  match position with
  | VStr s => default (VInt 0) (position_adjustments !! s)
  | _ => VInt 0
  end.

Section WithBuiltins.
Context `{builtins : Builtins}.

(** Lines 338-342: innings kept as raw text are converted on the fly. *)
Definition innings_value (ip : pyval) : result pyval :=
  match ip with
  | VStr s =>
      match py_float s with
      | Ok f => Ok (VFloat f)
      | Raise ValueError => Ok (VInt 0)
      | Raise e => Raise e
      end
  | _ => Ok ip
  end.

Definition calculate_war (player_data : gmap string pyval) : result pyval :=
  let runs_per_win := VFloat 10.0 in
  let replacement_level := VFloat 0.0 in
  let league_avg_woba := VFloat 0.320 in
  let woba_scale := VFloat 1.2 in
  let position := dict_get player_data "position" in
  let war_value := VFloat 0.0 in
  let pos_adjustment := adjustment_of position in
  if in_pitcher_family position then
    let era := dict_get_or player_data "pitching_ERA" VNone in
    let ip := dict_get_or player_data "pitching_IP" (VInt 0) in
    ip ← innings_value ip;
    test ← (if is_none era then Ok false else py_gt0 ip);
    if test : bool then
      let league_avg_era := VFloat 4.0 in
      era_difference ← py_sub league_avg_era era;
      innings ← py_truediv ip (VInt 9);
      product ← py_mul era_difference innings;
      war_value ← py_truediv product runs_per_win;
      if eq_str position "RP" && truthy (dict_get player_data "pitching_SV")
      then py_mul war_value (VFloat 1.5)
      else Ok war_value
    else Ok war_value
  else
    let obp := dict_get player_data "batting_OBP" in
    let slg := dict_get player_data "batting_SLG" in
    let ab := dict_get player_data "batting_AB" in
    if negb (is_none obp) && negb (is_none slg) && negb (is_none ab) then
      on_base ← py_mul obp (VFloat 1.75);
      slugging ← py_mul slg (VFloat 0.7);
      woba ← py_add on_base slugging;
      let bb := dict_get_or player_data "batting_BB" (VInt 0) in
      let hbp := dict_get_or player_data "batting_HBP" (VInt 0) in
      ab_bb ← py_add ab bb;
      pa ← py_add ab_bb hbp;
      above ← py_sub woba league_avg_woba;
      scaled ← py_mul above woba_scale;
      weighted ← py_mul scaled pa;
      offensive_runs ← py_truediv weighted (VInt 100);
      adjusted ← py_mul pos_adjustment pa;
      position_runs ← py_truediv adjusted (VInt 600);
      total ← py_add offensive_runs position_runs;
      wins ← py_truediv total runs_per_win;
      war_value ← py_add wins replacement_level;
      if eq_str position "C" then py_add war_value (VFloat 0.5)
      else if eq_str position "SS" || eq_str position "2B"
           then py_add war_value (VFloat 0.3)
      else Ok war_value
    else Ok war_value.

  
(* ----------------------------------------------------------------- *)
(** *** What the scraper selects from the pages it fetches *)

(** A statistics table row: the cells [get_player_data] looks for. *)
Record Row : Type := {
  row_jersey : option string;
    (* td.text-center.hide-on-medium-down: its text *)
  row_name_cell : option (option (string * option string));
    (* th.text-no-wrap, and inside it a.hide-on-medium-down:
       its text and its data-player-id attribute *)
  row_bio_href : option string;
    (* the first a[href*="/roster/"]: its href *)
  row_cells : list (string * string)
    (* the td cells carrying a data-label, in document order:
       label and text *)
}.

(** A biography page: the elements the scraper selects from it. *)
Record Page : Type := {
  page_text : string;
    (* soup.get_text() *)
  page_field_labels : list (string * option string);
    (* each span.sidearm-roster-player-field-label: its text and the
       text of the next span, if there is one *)
  page_position_elem : option string
    (* .sidearm-roster-player-position: its text *)
}.

(** The site: [get_page] gives a URL's body or [None] on a request
    error; the two parsers stand for BeautifulSoup and the
    selections made on its result. *)
Class Web : Type := {
  get_page : string -> option string;
  roster_rows : string -> list Row;
  bio_page : string -> Page
}.

Context `{web : Web}.

(** [row.find('td', attrs={'data-label': label})]: the first such cell. *)
Fixpoint find_cell (label : string) (cells : list (string * string)) : option string :=
  match cells with
  | (l, text) :: rest => if String.eqb l label then Some text else find_cell label rest
  | [] => None
  end.

(** A dict display [{k1: v1, k2: v2, ...}]: a key written twice
    keeps its first place and its last value. *)
Fixpoint dict_set {V} (k : string) (v : V) (d : list (string * V)) : list (string * V) :=
  match d with
  | (k', v') :: rest =>
      if String.eqb k' k then (k', v) :: rest else (k', v') :: dict_set k v rest
  | [] => [(k, v)]
  end.

Definition dict_display {V} (entries : list (string * V)) : list (string * V) :=
  fold_left (fun d kv => dict_set (fst kv) (snd kv) d) entries [].

Record MetricInfo : Type := { data_label : string; key : string }.

(** The entries of the [metrics] display, as written (lines 121-160). *)
Definition metrics_entries : list (string * MetricInfo) :=
  [ ("AVG", {| data_label := "AVG"; key := "batting_AVG" |});
    ("OBP", {| data_label := "OB%"; key := "batting_OBP" |});
    ("SLG", {| data_label := "SLG%"; key := "batting_SLG" |});
    ("OPS", {| data_label := "OPS"; key := "batting_OPS" |});
    ("RBI", {| data_label := "RBI"; key := "batting_RBI" |});
    ("R", {| data_label := "R"; key := "batting_R" |});
    ("H", {| data_label := "H"; key := "batting_H" |});
    ("2B", {| data_label := "2B"; key := "batting_2B" |});
    ("3B", {| data_label := "3B"; key := "batting_3B" |});
    ("HR", {| data_label := "HR"; key := "batting_HR" |});
    ("BB", {| data_label := "BB"; key := "batting_BB" |});
    ("SO", {| data_label := "SO"; key := "batting_SO" |});
    ("AB", {| data_label := "AB"; key := "batting_AB" |});
    ("SB", {| data_label := "SB"; key := "batting_SB" |});
    ("ERA", {| data_label := "ERA"; key := "pitching_ERA" |});
    ("WHIP", {| data_label := "WHIP"; key := "pitching_WHIP" |});
    ("W-L", {| data_label := "W-L"; key := "pitching_WL" |});
    ("APP-GS", {| data_label := "APP-GS"; key := "pitching_APP_GS" |});
    ("CG", {| data_label := "CG"; key := "pitching_CG" |});
    ("SHO", {| data_label := "SHO"; key := "pitching_SHO" |});
    ("SV", {| data_label := "SV"; key := "pitching_SV" |});
    ("IP", {| data_label := "IP"; key := "pitching_IP" |});
    ("H", {| data_label := "H"; key := "pitching_H" |});
    ("R", {| data_label := "R"; key := "pitching_R" |});
    ("ER", {| data_label := "ER"; key := "pitching_ER" |});
    ("BB", {| data_label := "BB"; key := "pitching_BB" |});
    ("SO", {| data_label := "SO"; key := "pitching_SO" |});
    ("2B", {| data_label := "2B"; key := "pitching_2B" |});
    ("3B", {| data_label := "3B"; key := "pitching_3B" |});
    ("HR", {| data_label := "HR"; key := "pitching_HR" |});
    ("B/AVG", {| data_label := "B/AVG"; key := "pitching_BAVG" |});
    ("WP", {| data_label := "WP"; key := "pitching_WP" |});
    ("HBP", {| data_label := "HBP"; key := "pitching_HBP" |});
    ("BK", {| data_label := "BK"; key := "pitching_BK" |});
    ("SFA", {| data_label := "SFA"; key := "pitching_SFA" |});
    ("SHA", {| data_label := "SHA"; key := "pitching_SHA" |}) ].

(** The dict [metrics] that the display evaluates to. *)
Definition metrics : list (string * MetricInfo) := dict_display metrics_entries.

Definition rate_stats : list string :=
  ["AVG"; "OBP"; "SLG"; "OPS"; "ERA"; "WHIP"; "B/AVG"].

Definition count_stats : list string :=
  ["RBI"; "R"; "H"; "2B"; "3B"; "HR"; "BB"; "SO"; "AB"; "IP"; "HBP"; "WP";
   "BK"; "SFA"; "SHA"; "SV"].

(** [try: d[k] = conv(value) except ValueError: d[k] = value] *)
Definition store_converted {A} (conv : string -> result A) (inj : A -> pyval)
    (k value : string) (player_data : gmap string pyval) : result (gmap string pyval) :=
  match conv value with
  | Ok a => Ok (<[k := inj a]> player_data)
  | Raise ValueError => Ok (<[k := VStr value]> player_data)
  | Raise e => Raise e
  end.

(** Lines 168-177: the stolen-base cell, "successful-attempted". *)
Definition store_stolen_bases (k value : string) (player_data : gmap string pyval)
    : result (gmap string pyval) :=
  match PyStr.split "-" value with
  | [first; second] =>
      match py_int first with
      | Ok a =>
          let player_data := <["batting_SB_successful" := VInt a]> player_data in
          match py_int second with
          | Ok b =>
              let player_data := <["batting_SB_attempted" := VInt b]> player_data in
              Ok (<[k := VStr value]> player_data)
          | Raise ValueError => Ok (<[k := VStr value]> player_data)
          | Raise e => Raise e
          end
      | Raise ValueError => Ok (<[k := VStr value]> player_data)
      | Raise e => Raise e
      end
  | _ => Ok player_data
  end.

(** One turn of the loop over [metrics.items()] (lines 163-191). *)
Definition extract_metric (row : Row) (entry : string * MetricInfo)
    (player_data : gmap string pyval) : result (gmap string pyval) :=
  let '(metric_key, metric_info) := entry in
  match find_cell (data_label metric_info) (row_cells row) with
  | Some text =>
      let value := PyStr.strip text in
      if String.eqb metric_key "SB" && PyStr.has_char "-" value then
        store_stolen_bases (key metric_info) value player_data
      else if str_in metric_key rate_stats then
        store_converted py_float VFloat (key metric_info) value player_data
      else if str_in metric_key count_stats then
        store_converted py_int VInt (key metric_info) value player_data
      else Ok (<[key metric_info := VStr value]> player_data)
  | None => Ok player_data
  end.

Fixpoint extract_metrics (row : Row) (entries : list (string * MetricInfo))
    (player_data : gmap string pyval) : result (gmap string pyval) :=
  match entries with
  | entry :: rest =>
      player_data ← extract_metric row entry player_data;
      extract_metrics row rest player_data
  | [] => Ok player_data
  end.

(* ------------------------------------------------------------------- *)
(** *** [get_player_data]: one record per table row *)

Definition base_url : string := "https://ucsbgauchos.com/sports/baseball/stats".

(** [str(n)] for an int. *)
Definition str_of_int (n : Z) : string := NilZero.string_of_int (Z.to_int n).

(** [self.get_page(url)] for a value taken from a record: the request
    library turns a URL that is not text into text and rejects it with a
    request error, which [get_page] reports as [None]. *)
Definition self_get_page (url : pyval) : option string :=
  match url with
  | VStr url => get_page url
  | _ => None
  end.

(** Lines 114-118: the first field label reading "Position" decides. *)
Fixpoint position_from_labels (labels : list (string * option string))
    (player_data : gmap string pyval) : result (gmap string pyval) :=
  match labels with
  | (text, next_span) :: rest =>
      if String.eqb (PyStr.strip text) "Position" then
        match next_span with
        | Some position =>
            Ok (<["position" := VStr (normalize_position (PyStr.strip position))]> player_data)
        | None => Raise AttributeError
        end
      else position_from_labels rest player_data
  | [] => Ok player_data
  end.

(** Lines 93-118: name, id, biography link and position. *)
Definition read_identity (row : Row) (player_data : gmap string pyval)
    : result (gmap string pyval) :=
  match row_name_cell row with
  | Some (Some (text, player_id)) =>
      let player_data := <["name" := VStr (PyStr.strip text)]> player_data in
      let player_data :=
        <["id" := from_option VStr VNone player_id]> player_data in
      let player_data :=
        match row_bio_href row with
        | Some href =>
            if negb (PyStr.is_empty href) && PyStr.startswith "/" href
            then <["bio_url" := VStr ("https://ucsbgauchos.com" ++ href)]> player_data
            else <["bio_url" := VStr href]> player_data
        | None => player_data
        end in
      bio_url ← dict_item player_data "bio_url";
      match self_get_page bio_url with
      | Some html_content =>
          (* BeautifulSoup(html_content, 'html.parser') *)
          position_from_labels (page_field_labels (bio_page html_content)) player_data
      | None =>
          (* BeautifulSoup(None, 'html.parser') *)
          Raise TypeError
      end
  | _ => Ok player_data
  end.

(** The body of the [try] block (lines 80-191) for one row. *)
Definition player_of_row (year : Z) (row : Row) : result (gmap string pyval) :=
  let player_data : gmap string pyval :=
    <["is_in_state" := VBool false]>
      (<["position" := VStr "Unknown"]> (<["year" := VInt year]> ∅)) in
  let player_data :=
    match row_jersey row with
    | Some text => <["jersey" := VStr (PyStr.strip text)]> player_data
    | None => player_data
    end in
  player_data ← read_identity row player_data;
  extract_metrics row metrics player_data.

(** Lines 78-196: a row whose processing raises is skipped. *)
Fixpoint players_of_rows (year : Z) (player_rows : list Row) : list (gmap string pyval) :=
  match player_rows with
  | row :: rest =>
      match player_of_row year row with
      | Ok player_data => player_data :: players_of_rows year rest
      | Raise _ => players_of_rows year rest
      end
  | [] => []
  end.

Definition get_player_data (year : Z) : list (gmap string pyval) :=
  let roster_url := base_url ++ "/" ++ str_of_int year in
  match get_page roster_url with
  | Some html_content =>
      if PyStr.is_empty html_content then []
      else players_of_rows year (roster_rows html_content)
  | None => []
  end.

(* ------------------------------------------------------------------- *)
(** *** [get_player_hometown]: the enrichment step *)

(** [extract_hometown_state]: the first "Hometown" field holding a comma
    is split at it; without one the result is [(None, None)]. *)
Fixpoint extract_hometown_state (labels : list (string * option string))
    : result (option string * option string) :=
  match labels with
  | (text, next_span) :: rest =>
      if String.eqb (PyStr.strip text) "Hometown" then
        match next_span with
        | Some span_text =>
            let location := PyStr.strip span_text in
            if PyStr.has_char "," location then
              Ok (Some (PyStr.strip (PyStr.before_first "," location)),
                  Some (PyStr.strip (PyStr.after_first "," location)))
            else extract_hometown_state rest
        | None => Raise AttributeError
        end
      else extract_hometown_state rest
  | [] => Ok (None, None)
  end.

(** [x if x else fallback] for an optional text. *)
Definition text_or (x : option string) (fallback : string) : string :=
  match x with
  | Some s => if PyStr.is_empty s then fallback else s
  | None => fallback
  end.

(** The three assignments made when no state can be looked up. *)
Definition california_default (player_data : gmap string pyval) : gmap string pyval :=
  <["is_in_state" := VBool true]>
    (<["state" := VStr "California"]> (<["hometown" := VStr "Unknown"]> player_data)).

Definition get_player_hometown (player_data : gmap string pyval)
    : result (gmap string pyval) :=
  let bio_url := dict_get player_data "bio_url" in
  if negb (truthy bio_url) then Ok (california_default player_data)
  else
    match self_get_page bio_url with
    | None => Ok (california_default player_data)
    | Some html_content =>
        if PyStr.is_empty html_content then Ok (california_default player_data)
        else
          let soup := bio_page html_content in
          player_data ←
            (if negb (PyStr.is_empty (page_text soup)) then
               '(hometown, state) ← extract_hometown_state (page_field_labels soup);
               Ok (<["state" := VStr (text_or state "California")]>
                     (<["hometown" := VStr (text_or hometown "Unknown")]> player_data))
             else Ok player_data);
          position ← dict_item player_data "position";
          let player_data :=
            if eq_str position "Unknown" then
              match page_position_elem soup with
              | Some text =>
                  <["position" := VStr (normalize_position (PyStr.strip text))]> player_data
              | None => player_data
              end
            else player_data in
          if truthy (dict_get player_data "state") then
            state ← dict_item player_data "state";
            match state with
            | VStr state =>
                Ok (<["is_in_state" := VBool (is_california_state state)]> player_data)
            | _ => Raise AttributeError
            end
          else
            Ok (<["state" := VStr "California"]>
                  (<["is_in_state" := VBool true]> player_data))
    end.

(* ------------------------------------------------------------------- *)
(** *** [process_all_years] *)

(** Lines 395-401: enrich each player, attach the WAR, collect. *)
Fixpoint process_players (players all_players : list (gmap string pyval))
    : result (list (gmap string pyval)) :=
  match players with
  | player :: rest =>
      player ← get_player_hometown player;
      war ← calculate_war player;
      let player := <["WAR" := war]> player in
      process_players rest (all_players ++ [player])
  | [] => Ok all_players
  end.

Fixpoint process_years (years : list Z) (all_players : list (gmap string pyval))
    : result (list (gmap string pyval)) :=
  match years with
  | year :: rest =>
      all_players ← process_players (get_player_data year) all_players;
      process_years rest all_players
  | [] => Ok all_players
  end.

(** The records collected by [process_all_years] for
    [range(start_year, end_year + 1)], before they are put in a table. *)
Definition collect_all_years (start_year end_year : Z)
    : result (list (gmap string pyval)) :=
  process_years (seqZ start_year (end_year + 1 - start_year)) [].

(* ------------------------------------------------------------------- *)
(** *** The player table and [analyze_war_by_position] *)

(** A row of the player table, reduced to the three columns the analysis
    reads, with the types the pipeline gives them: [position] a text,
    [is_in_state] a bool, [WAR] a float.  A missing cell is [None], and
    NaN in the float column. *)
Record PlayerRow : Type := {
  position : option string;
  is_in_state : option bool;
  WAR : float
}.

(** A pandas DataFrame: its column labels and its rows. *)
Record DataFrame : Type := {
  df_columns : gset string;
  df_rows : list PlayerRow
}.

Definition row_of_record (player : gmap string pyval) : PlayerRow :=
  {| position := match player !! "position" with Some (VStr s) => Some s | _ => None end;
     is_in_state := match player !! "is_in_state" with Some (VBool b) => Some b | _ => None end;
     WAR := match player !! "WAR" with Some (VFloat f) => f | _ => nan end |}.

(** [pd.DataFrame(all_players)]: the columns are the keys that occur. *)
Definition frame_of_records (all_players : list (gmap string pyval)) : DataFrame :=
  {| df_columns := ⋃ (dom <$> all_players);
     df_rows := row_of_record <$> all_players |}.

(** [if 'is_in_state' not in df.columns: df['is_in_state'] = True] *)
Definition ensure_is_in_state (df : DataFrame) : DataFrame :=
  if bool_decide ("is_in_state" ∈ df_columns df) then df
  else
    {| df_columns := {["is_in_state"]} ∪ df_columns df;
       df_rows := (fun r => {| position := position r; is_in_state := Some true; WAR := WAR r |})
                    <$> df_rows df |}.

Definition process_all_years (start_year end_year : Z) : result DataFrame :=
  all_players ← collect_all_years start_year end_year;
  Ok (ensure_is_in_state (frame_of_records all_players)).

(** [data[label]]: selecting a column that is not there raises. *)
Definition require_column (data : DataFrame) (label : string) : result unit :=
  if bool_decide (label ∈ df_columns data) then Ok tt else Raise (KeyError label).

(** One row of the summary table. *)
Record PositionStatSummary : Type := {
  Position : string;
  In_State_WAR : float;
  In_State_Count : float;
  Out_of_State_WAR : num;
  Out_of_State_Count : num;
  WAR_Difference : float;
  Pct_Difference : float
}.

(** One group of [groupby(['position', 'is_in_state'])], with the mean
    and the count of its WAR values. *)
Record GroupStat : Type := {
  g_position : string;
  g_in_state : bool;
  g_mean : float;
  g_count : Z
}.

(** A column value as a float64 (an int64 cell converts without error). *)
Definition cell_float (n : num) : float :=
  match n with
  | NInt z => SF2Prim (binary_normalize prec emax z 0 false)
  | NFloat f => f
  end.

(** [series.replace(0, np.nan)] on one cell. *)
Definition replace_zero_with_nan (n : num) : float :=
  let x := cell_float n in
  if (x =? 0)%float then nan else x.

(** Lines 447-448 for one row. *)
Definition war_difference (in_state_war : float) (out_of_state_war : num) : float :=
  (in_state_war - cell_float out_of_state_war)%float.

Definition pct_difference (difference : float) (out_of_state_war : num) : float :=
  (100 * difference / replace_zero_with_nan out_of_state_war)%float.

Fixpoint insert_sorted {A} (before : A -> A -> bool) (x : A) (l : list A) : list A :=
  match l with
  | y :: rest => if before x y then x :: l else y :: insert_sorted before x rest
  | [] => [x]
  end.

Definition sort_by {A} (before : A -> A -> bool) (l : list A) : list A :=
  foldr (insert_sorted before) [] l.

Fixpoint dedup_str (l : list string) : list string :=
  match l with
  | x :: rest => if str_in x rest then dedup_str rest else x :: dedup_str rest
  | [] => []
  end.

(** [sort_values(by='WAR Difference', ascending=False)]: larger
    differences first, NaN last. *)
Definition difference_before (a b : PositionStatSummary) : bool :=
  (WAR_Difference b <=? WAR_Difference a)%float || PrimFloat.is_nan (WAR_Difference b).

(** Line 428: the rows whose WAR and position are both present. *)
Definition rows_with_war_and_position (data : DataFrame) : list PlayerRow :=
  List.filter (fun r => negb (PrimFloat.is_nan (WAR r)) && bool_decide (is_Some (position r)))
    (df_rows data).

Section Analysis.
(** The mean of a group's values as pandas computes it. *)
Variable mean : list float -> float.

Definition same_group (pos : string) (flag : bool) (r : PlayerRow) : bool :=
  match position r, is_in_state r with
  | Some p, Some b => String.eqb p pos && Bool.eqb b flag
  | _, _ => false
  end.

(** The group of [pos] and [flag], when it has rows. *)
Definition group_stat (rows : list PlayerRow) (pos : string) (flag : bool)
    : option GroupStat :=
  match List.filter (same_group pos flag) rows with
  | [] => None
  | members =>
      Some {| g_position := pos; g_in_state := flag;
              g_mean := mean (WAR <$> members);
              g_count := Z.of_nat (length members) |}
  end.

(** Lines 431-432: [position_stats], one row per group. *)
Definition position_stats (rows : list PlayerRow) : list GroupStat :=
  let positions := sort_by String.leb (dedup_str (omap position rows)) in
  mjoin ((fun pos => omap (group_stat rows pos) [false; true]) <$> positions).

(** The pivot table has the column [(stat, flag)] when some group with
    that flag has a value for the statistic that is not NaN. *)
Definition has_mean_column (stats : list GroupStat) (flag : bool) : bool :=
  existsb (fun g => Bool.eqb (g_in_state g) flag && negb (PrimFloat.is_nan (g_mean g))) stats.

Definition has_count_column (stats : list GroupStat) (flag : bool) : bool :=
  existsb (fun g => Bool.eqb (g_in_state g) flag) stats.

Definition pivot_lookup (stats : list GroupStat) (pos : string) (flag : bool)
    : option GroupStat :=
  List.find (fun g => String.eqb (g_position g) pos && Bool.eqb (g_in_state g) flag) stats.

(** A cell of the pivot table: NaN where the group does not exist. *)
Definition pivot_mean (stats : list GroupStat) (flag : bool) (pos : string) : float :=
  from_option g_mean nan (pivot_lookup stats pos flag).

Definition pivot_count (stats : list GroupStat) (flag : bool) (pos : string) : float :=
  from_option (fun g => SF2Prim (binary_normalize prec emax (g_count g) 0 false)) nan
    (pivot_lookup stats pos flag).

Definition summary_row (stats : list GroupStat) (pos : string) : PositionStatSummary :=
  let in_war := pivot_mean stats true pos in
  let out_war :=
    if has_mean_column stats false then NFloat (pivot_mean stats false pos) else NInt 0 in
  let out_count :=
    if has_count_column stats false then NFloat (pivot_count stats false pos) else NInt 0 in
  let difference := war_difference in_war out_war in
  {| Position := pos;
     In_State_WAR := in_war;
     In_State_Count := pivot_count stats true pos;
     Out_of_State_WAR := out_war;
     Out_of_State_Count := out_count;
     WAR_Difference := difference;
     Pct_Difference := pct_difference difference out_war |}.

Definition analyze_war_by_position (data : DataFrame) : result (list PositionStatSummary) :=
  let data := ensure_is_in_state data in
  (* line 428 *)
  _ ← require_column data "WAR";
  _ ← require_column data "position";
  let rows := rows_with_war_and_position data in
  (* lines 431-435 *)
  let stats := position_stats rows in
  let index := sort_by String.leb (dedup_str (g_position <$> stats)) in
  (* lines 438-444 *)
  _ ← (if has_mean_column stats true then Ok tt else Raise (KeyError "('mean', True)"));
  _ ← (if has_count_column stats true then Ok tt else Raise (KeyError "('count', True)"));
  (* lines 447-451 *)
  Ok (sort_by difference_before (summary_row stats <$> index)).

End Analysis.

(** A plain mean: the sum from left to right, divided by the count. *)
Definition plain_mean (values : list float) : float :=
  (fold_left PrimFloat.add values 0 / SF2Prim (binary_normalize prec emax (Z.of_nat (length values)) 0 false))%float.

End WithBuiltins.
End Scraper.


(* ===================================================================== *)
(** ** The specification's side: rule list and closed formulas *)
(* ===================================================================== *)

Module Claimed.
Import Py.

(** *** Section 4.1: the ordered rule list of the position normalizer *)

Inductive rule : Type :=
| Exact (code : string)
| Contains (fragment : string).

Definition rule_matches (r : rule) (text : string) : bool :=
  match r with
  | Exact code => String.eqb code text
  | Contains fragment => PyStr.contains fragment text
  end.

(** Rules 3 to 11, in order; rule 12 is the fallback of [first_match]. *)
Definition position_rules : list (rule * string) :=
  [ (Exact "C", "C"); (Contains "CATCHER", "C");
    (Contains "1B", "1B"); (Contains "2B", "2B"); (Contains "3B", "3B");
    (Contains "SS", "SS");
    (Contains "LF", "LF"); (Contains "CF", "CF"); (Contains "RF", "RF");
    (Contains "OF", "OF"); (Contains "OUTFIELDER", "OF"); (Contains "OUFIELD", "OF");
    (Contains "INF", "IF");
    (Contains "DH", "DH");
    (Exact "P", "P"); (Contains "PITCHER", "P"); (Contains "RHP", "P");
    (Contains "LHP", "P");
    (Contains "SP", "SP"); (Contains "RP", "RP");
    (Contains "UTIL", "UTIL"); (Contains "UT", "UTIL") ].

Fixpoint first_match (rules : list (rule * string)) (text : string) : string :=
  match rules with
  | (r, code) :: rest => if rule_matches r text then code else first_match rest text
  | [] => "Unknown"
  end.

(** The text the rules read: what stands before the first slash,
    upper-cased and trimmed. *)
Definition primary_position (raw : string) : string :=
  PyStr.strip (PyStr.upper (PyStr.before_first "/" raw)).

Definition normalize_by_rules (raw : string) : string :=
  first_match position_rules (primary_position raw).

Definition canonical_codes : list string :=
  ["C"; "1B"; "2B"; "3B"; "SS"; "LF"; "CF"; "RF"; "OF"; "DH"; "P"; "SP"; "RP";
   "IF"; "UTIL"; "Unknown"].

(** *** Section 4.4: the WAR formulas, written as the specification
    writes them *)

(** Arithmetic on outcomes: the left operand first, then the right. *)
Definition lift2 (op : num -> num -> result num) (a b : result num) : result num :=
  x ← a; y ← b; op x y.

Declare Scope war_scope.
Delimit Scope war_scope with war.
Notation "a +! b" := (lift2 num_add a b) (at level 50, left associativity) : war_scope.
Notation "a -! b" := (lift2 num_sub a b) (at level 50, left associativity) : war_scope.
Notation "a *! b" := (lift2 num_mul a b) (at level 40, left associativity) : war_scope.
Notation "a /! b" := (lift2 num_truediv a b) (at level 40, left associativity) : war_scope.

Definition flt (f : float) : result num := Ok (NFloat f).
Definition int (z : Z) : result num := Ok (NInt z).

(** The position adjustment table of the glossary; every other code,
    and a missing position, counts 0. *)
Definition position_adjustment (position : pyval) : num :=
  match position with
  | VStr code =>
      if String.eqb code "C" then NFloat 12.5
      else if String.eqb code "1B" then NFloat (-12.5)
      else if String.eqb code "2B" then NFloat 2.5
      else if String.eqb code "3B" then NFloat 2.5
      else if String.eqb code "SS" then NFloat 7.5
      else if String.eqb code "LF" then NFloat (-7.5)
      else if String.eqb code "CF" then NFloat 2.5
      else if String.eqb code "RF" then NFloat (-7.5)
      else if String.eqb code "DH" then NFloat (-17.5)
      else if String.eqb code "OF" then NFloat (-2.5)
      else NInt 0
  | _ => NInt 0
  end.

(** The flat bonus: 0.5 for a catcher, 0.3 for a shortstop or second
    baseman. *)
Definition flat_bonus (position : pyval) : option float :=
  if eq_str position "C" then Some 0.5%float
  else if eq_str position "SS" || eq_str position "2B" then Some 0.3%float
  else None.

(** [((obp*1.75 + slg*0.7 - 0.320) * 1.2 * pa / 100
      + position_adjustment[position] * pa / 600) / 10], plus the bonus,
    with [pa = ab + bb + hbp]. *)
Definition position_player_war (position : pyval) (obp slg ab bb hbp : num) : result num :=
  let pa := (Ok ab +! Ok bb +! Ok hbp)%war in
  let war :=
    (((Ok obp *! flt 1.75 +! Ok slg *! flt 0.7 -! flt 0.320) *! flt 1.2 *! pa /! int 100
      +! Ok (position_adjustment position) *! pa /! int 600) /! int 10)%war in
  match flat_bonus position with
  | Some bonus => (war +! flt bonus)%war
  | None => war
  end.

(** [(4.0 - era) * (ip / 9) / 10.0], times 1.5 with the reliever boost. *)
Definition pitcher_war (era ip : num) (boost : bool) : result num :=
  let war := ((flt 4.0 -! Ok era) *! (Ok ip /! int 9) /! flt 10.0)%war in
  if boost then (war *! flt 1.5)%war else war.

(** The record holds a save total, an int, that is greater than 0. *)
Definition recorded_saves_positive (player_data : gmap string pyval) : bool :=
  match player_data !! "pitching_SV" with
  | Some (VInt saves) => 0 <? saves
  | _ => false
  end.

(** The calculator returned a float within [tol] of [target]. *)
Definition returns_within (tol target : Q) (returned : result pyval) : bool :=
  match returned with
  | Ok (VFloat war) => within tol target war
  | _ => false
  end.

(** The calculator returned what the formula gives: the same float (up
    to Python's [==], which does not tell the two zeros apart), or the
    same exception where the formula's arithmetic raises. *)
Definition war_matches (returned : result pyval) (formula : result num) : Prop :=
  match formula with
  | Ok (NFloat expected) =>
      exists war, returned = Ok (VFloat war) /\ float_same war expected
  | Ok (NInt _) => False
  | Raise e => returned = Raise e
  end.

(** *** Section 4.3: the labels written twice in the schema *)

(** The batting keys of the labels the schema lists under both the
    batting and the pitching statistics. *)
Definition shared_batting_keys : list string :=
  ["batting_H"; "batting_R"; "batting_BB"; "batting_SO"; "batting_2B";
   "batting_3B"; "batting_HR"].

(** *** Section 7: a record that raises is left out *)

(** What a loop that skips failures keeps of one outcome. *)
Definition kept_record (outcome : result (gmap string pyval)) : option (gmap string pyval) :=
  match outcome with
  | Ok player_data => Some player_data
  | Raise _ => None
  end.

(** *** Sections 4.2 and 7: the assume-local fallback *)

Section Fallback.
Context `{web : Scraper.Web}.
Import Scraper.

(** A field of the page names a state: it is a Hometown field whose
    text has a comma with something after it. *)
Definition field_names_state (field : string * option string) : bool :=
  String.eqb (PyStr.strip (fst field)) "Hometown"
  && match snd field with
     | Some span_text =>
         let location := PyStr.strip span_text in
         PyStr.has_char "," location
         && negb (PyStr.is_empty (PyStr.strip (PyStr.after_first "," location)))
     | None => false
     end.

Definition page_names_no_state (soup : Page) : Prop :=
  Forall (fun field => field_names_state field = false) (page_field_labels soup).

(** No state is to be had for the record: it has no biography URL, the
    page cannot be fetched or comes back empty, or the page that was
    fetched names no state (for a page without any text: the record
    brought none along either). *)
Definition state_undetermined (player_data : gmap string pyval) : Prop :=
  let bio_url := dict_get player_data "bio_url" in
  truthy bio_url = false
  \/ self_get_page bio_url = None
  \/ self_get_page bio_url = Some ""
  \/ exists html_content,
       self_get_page bio_url = Some html_content
       /\ is_Some (player_data !! "position")
       /\ (if PyStr.is_empty (page_text (bio_page html_content))
           then truthy (dict_get player_data "state") = false
           else page_names_no_state (bio_page html_content)).

(** Every Hometown label of the record's page has a span after it. *)
Definition hometown_labels_have_spans (soup : Page) : Prop :=
  Forall (fun field : string * option string =>
            String.eqb (PyStr.strip (fst field)) "Hometown" = true -> is_Some (snd field))
    (page_field_labels soup).

Definition hometown_fields_complete (player_data : gmap string pyval) : Prop :=
  forall html_content,
    self_get_page (dict_get player_data "bio_url") = Some html_content ->
    hometown_labels_have_spans (bio_page html_content).

End Fallback.

(** The record is classified as a California player. *)
Definition assumed_local (player_data : gmap string pyval) : Prop :=
  player_data !! "state" = Some (VStr "California")
  /\ player_data !! "is_in_state" = Some (VBool true).

Definition returns_local (outcome : result (gmap string pyval)) : Prop :=
  match outcome with
  | Ok enriched => assumed_local enriched
  | Raise _ => False
  end.

(** *** Section 4.5: the out-of-state group of a position *)

(** The out-of-state rows of a position among the rows analysed. *)
Definition out_of_state_members (data : Scraper.DataFrame) (pos : string)
    : list Scraper.PlayerRow :=
  List.filter (Scraper.same_group pos false)
    (Scraper.rows_with_war_and_position (Scraper.ensure_is_in_state data)).

End Claimed.

(* ===================================================================== *)
(** ** Example inputs *)
(* ===================================================================== *)

Module Examples.
Import Py Scraper.

(** The shortstop of the specification's example. *)
Definition ss_player : gmap string pyval :=
  list_to_map
    [ ("position", VStr "SS"); ("batting_OBP", VFloat 0.400);
      ("batting_SLG", VFloat 0.500); ("batting_AB", VInt 200);
      ("batting_BB", VInt 30); ("batting_HBP", VInt 5) ].

(** The starting pitcher of the specification's example. *)
Definition sp_player : gmap string pyval :=
  list_to_map
    [ ("position", VStr "SP"); ("pitching_ERA", VFloat 3.0);
      ("pitching_IP", VInt 50) ].

(** A reliever whose save total was kept as the raw text of a dash. *)
Definition rp_raw_saves : gmap string pyval :=
  list_to_map
    [ ("position", VStr "RP"); ("pitching_ERA", VFloat 3.0);
      ("pitching_IP", VInt 9); ("pitching_SV", VStr "-") ].

(** A starter whose innings were kept as raw text. *)
Definition sp_raw_innings : gmap string pyval :=
  list_to_map
    [ ("position", VStr "SP"); ("pitching_ERA", VFloat 3.0);
      ("pitching_IP", VStr "50.1") ].

(** A row of a two-way player: the hits he made as a batter in the
    first cell labelled H, the hits he allowed as a pitcher in the
    second. *)
Definition two_way_row : Row :=
  {| row_jersey := Some "12";
     row_name_cell := Some (Some ("Doe, John", Some "77"));
     row_bio_href := Some "/sports/baseball/roster/john-doe/77";
     row_cells :=
       [ ("AVG", ".300"); ("OB%", ".400"); ("SLG%", ".500"); ("AB", "200");
         ("H", "60"); ("BB", "30"); ("SB", "5-6");
         ("ERA", "3.00"); ("IP", "50.1"); ("H", "44"); ("BB", "12") ] |}.

(** A row whose on-base cell holds a dash instead of a number. *)
Definition dash_row : Row :=
  {| row_jersey := Some "7";
     row_name_cell := Some (Some ("Roe, Rick", Some "78"));
     row_bio_href := Some "/sports/baseball/roster/rick-roe/78";
     row_cells := [ ("OB%", "-"); ("SLG%", ".500"); ("AB", "10") ] |}.

Definition doe_page : Page :=
  {| page_text := "John Doe Position OF Hometown Austin, Texas";
     page_field_labels := [("Position", Some "OF"); ("Hometown", Some "Austin, Texas")];
     page_position_elem := None |}.

Definition roe_page : Page :=
  {| page_text := "Rick Roe Position SS Hometown Goleta";
     page_field_labels := [("Position", Some "SS"); ("Hometown", Some "Goleta")];
     page_position_elem := None |}.

(** A site with one season: the roster of 2015 lists Roe, then Doe. *)
Definition example_site : Web :=
  {| get_page := fun url =>
       if String.eqb url "https://ucsbgauchos.com/sports/baseball/stats/2015"
       then Some "roster 2015"
       else if String.eqb url "https://ucsbgauchos.com/sports/baseball/roster/john-doe/77"
       then Some "bio doe"
       else if String.eqb url "https://ucsbgauchos.com/sports/baseball/roster/rick-roe/78"
       then Some "bio roe"
       else None;
     roster_rows := fun _ => [dash_row; two_way_row];
     bio_page := fun html_content =>
       if String.eqb html_content "bio doe" then doe_page else roe_page |}.

(** A site that answers no request. *)
Definition silent_site : Web :=
  {| get_page := fun _ => None;
     roster_rows := fun _ => [];
     bio_page := fun _ =>
       {| page_text := ""; page_field_labels := []; page_position_elem := None |} |}.

(** A row whose link leads to a page on which no span follows the
    Hometown label, the record [get_player_data] builds from it, and a
    site that serves both. *)
Definition hale_row : Row :=
  {| row_jersey := None;
     row_name_cell := Some (Some ("Hale, Hal", Some "79"));
     row_bio_href := Some "/sports/baseball/roster/hal-hale/79";
     row_cells := [] |}.

Definition hale_player : gmap string pyval :=
  list_to_map
    [ ("year", VInt 2015); ("position", VStr "Unknown"); ("is_in_state", VBool false);
      ("name", VStr "Hale, Hal"); ("id", VStr "79");
      ("bio_url", VStr "https://ucsbgauchos.com/sports/baseball/roster/hal-hale/79") ].

Definition spanless_site : Web :=
  {| get_page := fun _ => Some "page";
     roster_rows := fun _ => [hale_row];
     bio_page := fun _ =>
       {| page_text := "Hometown"; page_field_labels := [("Hometown", None)];
          page_position_elem := None |} |}.

(** A record without a biography URL. *)
Definition unlinked_player : gmap string pyval :=
  list_to_map [ ("year", VInt 2015); ("position", VStr "Unknown");
                ("is_in_state", VBool false) ].

(** Roe's record as [get_player_data] builds it: his page names a town
    but no state. *)
Definition roe_player : gmap string pyval :=
  list_to_map
    [ ("year", VInt 2015); ("position", VStr "SS"); ("is_in_state", VBool false);
      ("name", VStr "Roe, Rick");
      ("bio_url", VStr "https://ucsbgauchos.com/sports/baseball/roster/rick-roe/78") ].

(** A player table with three positions. *)
Definition example_frame : DataFrame :=
  {| df_columns := {["position"; "is_in_state"; "WAR"]};
     df_rows :=
       [ {| position := Some "SS"; is_in_state := Some true; WAR := 1.0 |};
         {| position := Some "SS"; is_in_state := Some false; WAR := 0.5 |};
         {| position := Some "C"; is_in_state := Some true; WAR := 2.0 |};
         {| position := Some "C"; is_in_state := Some true; WAR := 1.0 |};
         {| position := Some "P"; is_in_state := Some false; WAR := 0.0 |};
         {| position := Some "P"; is_in_state := Some true; WAR := 0.25 |} ] |}.

(** Its summary: SS, then P with an out-of-state mean of 0, then C with
    no out-of-state player. *)
Definition example_table : list PositionStatSummary :=
  [ {| Position := "SS"; In_State_WAR := 1; In_State_Count := 1;
       Out_of_State_WAR := NFloat 0.5; Out_of_State_Count := NFloat 1;
       WAR_Difference := 0.5; Pct_Difference := 100 |};
    {| Position := "P"; In_State_WAR := 0.25; In_State_Count := 1;
       Out_of_State_WAR := NFloat 0; Out_of_State_Count := NFloat 1;
       WAR_Difference := 0.25; Pct_Difference := nan |};
    {| Position := "C"; In_State_WAR := 1.5; In_State_Count := 2;
       Out_of_State_WAR := NFloat nan; Out_of_State_Count := NFloat nan;
       WAR_Difference := nan; Pct_Difference := nan |} ].

End Examples.

(* ===================================================================== *)
(** ** Vocabulary of the further properties *)
(* ===================================================================== *)

Module Observed.
Import Py PyStr Scraper.

(** [s.isascii()]: every character of the text is below 128. *)
Definition isascii_char (c : ascii) : bool := (N_of_ascii c <? 128)%N.

Fixpoint isascii (s : string) : bool :=
  match s with
  | String c r => isascii_char c && isascii r
  | EmptyString => true
  end.

(** The keys [calculate_war] reads from a record: the position, the
    three pitching statistics and the five batting statistics. *)
Definition pitching_inputs : list string :=
  ["pitching_ERA"; "pitching_IP"; "pitching_SV"].

Definition batting_inputs : list string :=
  ["batting_OBP"; "batting_SLG"; "batting_AB"; "batting_BB"; "batting_HBP"].

Definition war_inputs : list string :=
  "position" :: pitching_inputs ++ batting_inputs.

(** What a call of the calculator can end in: a float, or one of the two
    errors of Python arithmetic on numbers and text. *)
Definition float_or_arith_error (outcome : result pyval) : Prop :=
  match outcome with
  | Ok v => exists f, v = VFloat f
  | Raise e => e = TypeError \/ e = OverflowError
  end.

Definition arith_error_only {A} (outcome : result A) : Prop :=
  match outcome with
  | Ok _ => True
  | Raise e => e = TypeError \/ e = OverflowError
  end.

(** The divisors the calculator uses: 9, 100, 600 and 10.0. *)
Definition war_divisor (b : pyval) : Prop :=
  b = VInt 9 \/ b = VInt 100 \/ b = VInt 600 \/ b = VFloat 10.

(** A catcher who never came to the plate. *)
Definition idle_catcher : gmap string pyval :=
  list_to_map [("position", VStr "C"); ("batting_OBP", VFloat 0.4);
               ("batting_SLG", VFloat 0.5); ("batting_AB", VInt 0)].


(** The state and the flag of an enriched record. *)
Definition flag_follows_state (enriched : gmap string pyval) : Prop :=
  exists state,
    enriched !! "state" = Some (VStr state)
    /\ is_empty state = false
    /\ enriched !! "is_in_state" = Some (VBool (is_california_state state)).

Definition enrichment_keys : list string :=
  ["hometown"; "state"; "is_in_state"; "position"].

(** What [get_player_hometown] does to a record [d]. *)
Definition enriched_from (d : gmap string pyval) (outcome : result (gmap string pyval)) : Prop :=
  match outcome with
  | Ok enriched =>
      flag_follows_state enriched
      /\ (forall k, ~ In k enrichment_keys -> enriched !! k = d !! k)
      /\ (enriched !! "position" = d !! "position"
          \/ (d !! "position" = Some (VStr "Unknown")
              /\ exists text,
                   enriched !! "position"
                   = Some (VStr (normalize_position (strip text)))))
  | Raise e =>
      e = AttributeError \/ (e = KeyError "position" /\ d !! "position" = None)
  end.

Section Conversions.
Context `{builtins : Builtins}.

(** Lines 180-191: the value stored for a cell of the statistic
    [metric_key] that is not handled as a stolen-base cell. *)
Definition converted_cell (metric_key value : string) : pyval :=
  if str_in metric_key rate_stats then
    match float_of_text value with Some f => VFloat f | None => VStr value end
  else if str_in metric_key count_stats then
    match int_of_text value with Some z => VInt z | None => VStr value end
  else VStr value.

End Conversions.

(** The keys a record holds before the statistics are read. *)
Definition identity_keys : list string :=
  ["year"; "position"; "is_in_state"; "jersey"; "name"; "id"; "bio_url"].

Definition stolen_base_keys : list string :=
  ["batting_SB_successful"; "batting_SB_attempted"].

(** The position of a record is a result of [normalize_position]. *)
Definition normalised_position (player_data : gmap string pyval) : Prop :=
  exists raw, player_data !! "position" = Some (VStr (normalize_position raw)).

(** A row whose name link has no roster link beside it. *)
Definition linkless_row : Row :=
  {| row_jersey := None;
     row_name_cell := Some (Some ("Poe, Pat", None));
     row_bio_href := None;
     row_cells := [("AB", "10")] |}.

(** A row without a player link, as a totals row. *)
Definition totals_row : Row :=
  {| row_jersey := None;
     row_name_cell := Some None;
     row_bio_href := None;
     row_cells := [("AB", "1800"); ("OB%", ".350"); ("SLG%", ".410"); ("SB", "40-55-1")] |}.

(** A row with an on-base cell and a stolen-base cell whose second
    part is not a number, and the record it gives. *)
Definition walk_on_row : Row :=
  {| row_jersey := None;
     row_name_cell := None;
     row_bio_href := None;
     row_cells := [("OB%", " .400 "); ("SB", "5-x")] |}.

Definition walk_on_record : gmap string pyval :=
  list_to_map
    [ ("year", VInt 2015); ("position", VStr "Unknown"); ("is_in_state", VBool false);
      ("batting_OBP", VFloat 0.4); ("batting_SB_successful", VInt 5);
      ("batting_SB", VStr "5-x") ].

(** A site whose roster of every year is that one row. *)
Definition walk_on_site : Web :=
  {| get_page := fun _ => Some "roster";
     roster_rows := fun _ => [walk_on_row];
     bio_page := fun _ =>
       {| page_text := ""; page_field_labels := []; page_position_elem := None |} |}.

(** What [process_all_years] makes of one player. *)
Definition processed `{web : Web} `{builtins : Builtins}
    (player record : gmap string pyval) : Prop :=
  exists enriched war,
    get_player_hometown player = Ok enriched
    /\ calculate_war enriched = Ok war
    /\ record = <["WAR" := war]> enriched.

(** A record of the year [year] with everything the analysis reads. *)
Definition complete_record (year : Z) (record : gmap string pyval) : Prop :=
  record !! "year" = Some (VInt year)
  /\ normalised_position record
  /\ (exists war, record !! "WAR" = Some (VFloat war))
  /\ flag_follows_state record.

(** The record of [walk_on_row] at the end of the run. *)
Definition walk_on_final : gmap string pyval :=
  <["WAR" := VFloat 0]> (california_default walk_on_record).

(** A table with out-of-state players only. *)
Definition away_frame : DataFrame :=
  {| df_columns := {["position"; "is_in_state"; "WAR"]};
     df_rows :=
       [ {| position := Some "SS"; is_in_state := Some false; WAR := 1.0 |};
         {| position := Some "P"; is_in_state := Some false; WAR := 0.5 |} ] |}.

(** A table with in-state players only, and its summary. *)
Definition home_frame : DataFrame :=
  {| df_columns := {["position"; "is_in_state"; "WAR"]};
     df_rows :=
       [ {| position := Some "SS"; is_in_state := Some true; WAR := 1.0 |};
         {| position := Some "C"; is_in_state := Some true; WAR := 2.0 |} ] |}.

Definition home_table : list PositionStatSummary :=
  [ {| Position := "C"; In_State_WAR := 2; In_State_Count := 1;
       Out_of_State_WAR := NInt 0; Out_of_State_Count := NInt 0;
       WAR_Difference := 2; Pct_Difference := nan |};
    {| Position := "SS"; In_State_WAR := 1; In_State_Count := 1;
       Out_of_State_WAR := NInt 0; Out_of_State_Count := NInt 0;
       WAR_Difference := 1; Pct_Difference := nan |} ].

End Observed.

(* ===================================================================== *)
(** ** Text lemmas *)
(* ===================================================================== *)

Module PyStrFacts.
Import PyStr.

Lemma is_space_upper_char c : is_space (upper_char c) = is_space c.
Proof. destruct c as [[] [] [] [] [] [] [] []]; reflexivity. Qed.

Lemma slash_upper_char c : Ascii.eqb "/" (upper_char c) = Ascii.eqb "/" c.
Proof. destruct c as [[] [] [] [] [] [] [] []]; reflexivity. Qed.

Lemma lstrip_upper s : lstrip (upper s) = upper (lstrip s).
Proof.
  induction s as [|c r IH]; simpl; [reflexivity|].
  rewrite is_space_upper_char. destruct (is_space c); [exact IH | reflexivity].
Qed.

Lemma rstrip_upper s : rstrip (upper s) = upper (rstrip s).
Proof.
  induction s as [|c r IH]; simpl; [reflexivity|].
  rewrite IH, is_space_upper_char.
  destruct (rstrip r); simpl; [destruct (is_space c)|]; reflexivity.
Qed.

Lemma strip_upper s : strip (upper s) = upper (strip s).
Proof. unfold strip. now rewrite lstrip_upper, rstrip_upper. Qed.

Lemma before_first_slash_upper s :
  before_first "/" (upper s) = upper (before_first "/" s).
Proof.
  induction s as [|c r IH]; [reflexivity|].
  cbn [upper before_first]. rewrite slash_upper_char.
  destruct (Ascii.eqb "/" c); [reflexivity|].
  cbn [upper]. now rewrite IH.
Qed.

Lemma has_slash_upper s : has_char "/" (upper s) = has_char "/" s.
Proof.
  induction s as [|c r IH]; [reflexivity|].
  cbn [upper has_char]. now rewrite slash_upper_char, IH.
Qed.

Lemma before_first_absent c s : has_char c s = false -> before_first c s = s.
Proof.
  induction s as [|d r IH]; simpl; [reflexivity|].
  destruct (Ascii.eqb c d); simpl; [discriminate|].
  intros Hr. now rewrite IH.
Qed.

Lemma lstrip_idem s : lstrip (lstrip s) = lstrip s.
Proof.
  induction s as [|c r IH]; simpl; [reflexivity|].
  destruct (is_space c) eqn:E; [exact IH|]. simpl. now rewrite E.
Qed.

Section NonSpace.
Variable c : ascii.
Hypothesis c_not_space : is_space c = false.

Lemma eqb_space_false d : is_space d = true -> Ascii.eqb c d = false.
Proof.
  intros Hd. destruct (Ascii.eqb_spec c d) as [->|]; [congruence | reflexivity].
Qed.

Lemma has_char_lstrip s : has_char c (lstrip s) = has_char c s.
Proof.
  induction s as [|d r IH]; simpl; [reflexivity|].
  destruct (is_space d) eqn:E; [|reflexivity].
  now rewrite IH, (eqb_space_false d E).
Qed.

Lemma before_first_lstrip s : before_first c (lstrip s) = lstrip (before_first c s).
Proof.
  induction s as [|d r IH]; simpl; [reflexivity|].
  destruct (is_space d) eqn:E.
  - rewrite (eqb_space_false d E). simpl. now rewrite E.
  - simpl. destruct (Ascii.eqb c d); simpl; [reflexivity | now rewrite E].
Qed.

Lemma rstrip_keeps s : has_char c s = true -> rstrip s <> EmptyString.
Proof.
  induction s as [|d r IH]; simpl; [discriminate|].
  destruct (Ascii.eqb_spec c d) as [<-|Hne]; simpl.
  - intros _. rewrite c_not_space. destruct (rstrip r); discriminate.
  - intros Hr. specialize (IH Hr). destruct (rstrip r); [contradiction | discriminate].
Qed.

Lemma before_first_rstrip s :
  has_char c s = true -> before_first c (rstrip s) = before_first c s.
Proof.
  induction s as [|d r IH]; simpl; [discriminate|].
  destruct (Ascii.eqb c d) eqn:E; simpl.
  - intros _. apply Ascii.eqb_eq in E. subst d. rewrite c_not_space.
    destruct (rstrip r); simpl; now rewrite Ascii.eqb_refl.
  - intros Hr. specialize (IH Hr). pose proof (rstrip_keeps r Hr) as Hne.
    destruct (rstrip r) eqn:R; [contradiction|].
    simpl. simpl in IH. rewrite E. now rewrite <- IH.
Qed.

Lemma has_char_rstrip s : has_char c (rstrip s) = has_char c s.
Proof.
  induction s as [|d r IH]; simpl; [reflexivity|].
  destruct (rstrip r) eqn:R.
  - simpl in IH. rewrite <- IH.
    destruct (is_space d) eqn:E; simpl.
    + now rewrite (eqb_space_false d E).
    + reflexivity.
  - rewrite <- IH. reflexivity.
Qed.

Lemma strip_before_first_strip s :
  has_char c s = true ->
  strip (before_first c (strip s)) = strip (before_first c s).
Proof.
  intros Hs. unfold strip at 2.
  rewrite before_first_rstrip by now rewrite has_char_lstrip.
  rewrite before_first_lstrip. unfold strip. now rewrite lstrip_idem.
Qed.

End NonSpace.

Lemma has_char_lstrip_rstrip s : has_char "/" (strip s) = has_char "/" s.
Proof.
  unfold strip.
  now rewrite (has_char_rstrip "/" eq_refl), (has_char_lstrip "/" eq_refl).
Qed.

End PyStrFacts.

(* ===================================================================== *)
(** ** State classifier and position normalizer: properties *)
(* ===================================================================== *)

Module Classifiers.
Import Py PyStr PyStrFacts Scraper Claimed.

Lemma str_in_In x l : str_in x l = true <-> In x l.
Proof.
  unfold str_in. rewrite existsb_exists. split.
  - intros [y [Hy E]]. apply String.eqb_eq in E. now subst.
  - intros Hx. exists x. split; [exact Hx | apply String.eqb_refl].
Qed.

(** C6. The state classifier answers true exactly when the trimmed input
    is one of the six California spellings CA, California, Calif., Calif,
    Calf., Calf, compared case-sensitively; so "Calif." is in-state,
    "Texas" is not, and neither is the lower-case "calif.". *)
Theorem is_california_state_membership :
  (forall state : string,
     is_california_state state = true <->
     In (strip state) ["CA"; "California"; "Calif."; "Calif"; "Calf."; "Calf"])
  /\ is_california_state "Calif." = true
  /\ is_california_state "Texas" = false
  /\ is_california_state "  Calif " = true
  /\ is_california_state "calif." = false.
Proof.
  split; [|repeat split; reflexivity].
  intros state. unfold is_california_state. apply str_in_In.
Qed.

(** The text that [normalize_position] hands to its chain of tests. *)
Lemma primary_position_agrees raw :
  (let position_str := upper (strip raw) in
   if has_char "/" position_str
   then strip (before_first "/" position_str)
   else position_str) = primary_position raw.
Proof.
  cbv zeta. unfold primary_position.
  rewrite has_slash_upper, has_char_lstrip_rstrip.
  assert (Hslash : is_space "/" = false) by reflexivity.
  destruct (has_char "/" raw) eqn:E.
  - rewrite before_first_slash_upper, !strip_upper.
    now rewrite (strip_before_first_strip "/" Hslash raw E).
  - now rewrite (before_first_absent "/" raw E), strip_upper.
Qed.

Ltac chain_step :=
  lazymatch goal with
  | |- (if ?a || ?b then _ else _) = _ =>
      destruct a; [reflexivity|]; destruct b; [reflexivity|]; cbn [orb]
  | |- (if ?a then _ else _) = _ => destruct a; [reflexivity|]
  end.

(** The chain of [if]/[elif] tests is the rule list, read first match
    first. *)
Lemma chain_is_first_match raw :
  is_empty raw = false ->
  normalize_position raw = first_match position_rules (primary_position raw).
Proof.
  intros Hne. unfold normalize_position. rewrite Hne.
  rewrite <- (primary_position_agrees raw). cbv zeta.
  set (text := if has_char "/" (upper (strip raw)) then _ else _).
  cbn [first_match position_rules rule_matches].
  repeat chain_step. reflexivity.
Qed.

Lemma first_match_code rules text :
  first_match rules text = "Unknown" \/ In (first_match rules text) (snd <$> rules).
Proof.
  induction rules as [|[r code] rest IH]; [now left|].
  cbn [first_match]. destruct (rule_matches r text).
  - right. now left.
  - destruct IH as [IH|IH]; [now left | right; now right].
Qed.

Lemma normalize_by_rules_canonical raw : In (normalize_by_rules raw) canonical_codes.
Proof.
  unfold normalize_by_rules.
  destruct (first_match_code position_rules (primary_position raw)) as [E|HIn].
  - rewrite E. apply str_in_In. reflexivity.
  - revert HIn. generalize (first_match position_rules (primary_position raw)).
    intros code HIn. apply str_in_In.
    cbn in HIn. repeat (destruct HIn as [<-|HIn]; [reflexivity|]). contradiction.
Qed.

(** C4. For every input text, [normalize_position] is the first-match-wins
    rule list of section 4.1 applied to the part of the input before the
    first slash, upper-cased and trimmed, and its result is one of the
    sixteen canonical codes; "3B/OF" gives 3B, "rhp" gives P and the empty
    text gives Unknown. *)
Theorem normalize_position_rule_list :
  (forall raw : string,
     normalize_position raw = normalize_by_rules raw
     /\ In (normalize_position raw) canonical_codes)
  /\ normalize_position "3B/OF" = "3B"
  /\ normalize_position "rhp" = "P"
  /\ normalize_position "" = "Unknown".
Proof.
  split; [|repeat split; reflexivity].
  intros raw.
  assert (E : normalize_position raw = normalize_by_rules raw).
  { destruct raw as [|c r]; [reflexivity|]. now apply chain_is_first_match. }
  split; [exact E|]. rewrite E. apply normalize_by_rules_canonical.
Qed.

(** More inputs: the trim after the cut at the slash lets the exact
    tests for C and P see a code followed by a blank; the position tests
    come before the generic ones. *)
Example normalize_position_examples :
  normalize_position <$> ["C /1B"; " p / of"; "Catcher"; "INF/OF"; "Outfielder";
                          "RHP/1B"; "Utility"; "  "; "DH"; "Shortstop"]
  = ["C"; "P"; "C"; "IF"; "OF"; "P"; "UTIL"; "Unknown"; "DH"; "Unknown"].
Proof. reflexivity. Qed.

End Classifiers.

(* ===================================================================== *)
(** ** The WAR calculator: properties *)
(* ===================================================================== *)

Module WarCalculator.
Import Py Scraper Claimed Examples.

(** *** Arithmetic on values that are numbers *)

Lemma as_num_of_num n : as_num (of_num n) = Some n.
Proof. now destruct n. Qed.

Lemma py_add_num v w x y :
  as_num v = Some x -> as_num w = Some y -> py_add v w = of_num <$> num_add x y.
Proof. unfold py_add. now intros -> ->. Qed.
Lemma py_sub_num v w x y :
  as_num v = Some x -> as_num w = Some y -> py_sub v w = of_num <$> num_sub x y.
Proof. unfold py_sub. now intros -> ->. Qed.
Lemma py_mul_num v w x y :
  as_num v = Some x -> as_num w = Some y -> py_mul v w = of_num <$> num_mul x y.
Proof. unfold py_mul. intros -> ->. now destruct x. Qed.
Lemma py_truediv_num v w x y :
  as_num v = Some x -> as_num w = Some y -> py_truediv v w = of_num <$> num_truediv x y.
Proof. unfold py_truediv. now intros -> ->. Qed.

Lemma float_add_zero (q : float) : (q + 0)%float = q \/ q = (-0)%float.
Proof.
  destruct (Prim2SF q) eqn:E.
  - destruct s.
    + right. apply Prim2SF_inj. rewrite E. reflexivity.
    + left. apply Prim2SF_inj. rewrite add_spec, E. reflexivity.
  - left. apply Prim2SF_inj. rewrite add_spec, E. reflexivity.
  - left. apply Prim2SF_inj. rewrite add_spec, E. reflexivity.
  - left. apply Prim2SF_inj. rewrite add_spec, E. reflexivity.
Qed.

Lemma adjustment_of_table position : adjustment_of position = of_num (position_adjustment position).
Proof.
  destruct position as [| | | |code]; try reflexivity.
  unfold adjustment_of, position_adjustment.
  repeat (match goal with |- context [String.eqb code ?k] =>
     destruct (String.eqb_spec code k) as [->|]; [reflexivity|] end).
  unfold position_adjustments. cbn [list_to_map foldr uncurry curry fst snd].
  repeat (rewrite lookup_insert; case_decide;
          [first [congruence | reflexivity]|]).
  reflexivity.
Qed.

Lemma truediv_is_float a b r : num_truediv a b = Ok r -> exists f, r = NFloat f.
Proof.
  unfold num_truediv. destruct a, b; simpl.
  - destruct (int_true_div z z0); simpl; [intros [= <-]; eauto | discriminate].
  - destruct (float_of_int z); simpl; [|discriminate].
    destruct (float_div a f); simpl; [intros [= <-]; eauto | discriminate].
  - destruct (float_of_int z); simpl; [|discriminate].
    destruct (float_div f a); simpl; [intros [= <-]; eauto | discriminate].
  - destruct (float_div f f0); simpl; [intros [= <-]; eauto | discriminate].
Qed.

Lemma mul_float_is_float a f r : num_mul a (NFloat f) = Ok r -> exists g, r = NFloat g.
Proof.
  unfold num_mul. destruct a; simpl.
  - destruct (float_of_int z); simpl; [intros [= <-]; eauto | discriminate].
  - intros [= <-]; eauto.
Qed.


Lemma as_num_not_none v n : as_num v = Some n -> is_none v = false.
Proof. destruct v; simpl; congruence. Qed.

Ltac num_fact := first [eassumption | apply as_num_of_num | reflexivity].

Lemma truediv_100 w : num_truediv (NFloat w) (NInt 100) = Ok (NFloat (w / 100)).
Proof. reflexivity. Qed.
Lemma truediv_10 w : num_truediv (NFloat w) (NInt 10) = Ok (NFloat (w / 10)).
Proof. reflexivity. Qed.
Lemma truediv_10f w : num_truediv (NFloat w) (NFloat 10) = Ok (NFloat (w / 10)).
Proof. reflexivity. Qed.

Lemma same_after_zero q : float_same (q + 0) q.
Proof.
  destruct (float_add_zero q) as [->| ->]; [now left | now right].
Qed.

Lemma bonus_after_zero q b :
  (-0 + 0 + b)%float = (-0 + b)%float -> float_same (q + 0 + b) (q + b).
Proof.
  intros Hb. left. destruct (float_add_zero q) as [->| ->]; [reflexivity | exact Hb].
Qed.

Ltac norm := cbn [fmap result_fmap mbind result_bind of_num py_add py_sub py_mul py_truediv as_num num_add num_sub num_mul to_float].

Section Calculator.
Context `{builtins : Builtins}.

Lemma position_player_formula (player_data : gmap string pyval) (obp slg ab bb hbp : num) :
  in_pitcher_family (dict_get player_data "position") = false ->
  as_num (dict_get player_data "batting_OBP") = Some obp ->
  as_num (dict_get player_data "batting_SLG") = Some slg ->
  as_num (dict_get player_data "batting_AB") = Some ab ->
  as_num (dict_get_or player_data "batting_BB" (VInt 0)) = Some bb ->
  as_num (dict_get_or player_data "batting_HBP" (VInt 0)) = Some hbp ->
  war_matches (calculate_war player_data)
    (position_player_war (dict_get player_data "position") obp slg ab bb hbp).
Proof.
  intros Hp Ho Hs Ha Hb Hh. unfold calculate_war. rewrite Hp. cbv zeta.
  rewrite (as_num_not_none _ _ Ho), (as_num_not_none _ _ Hs), (as_num_not_none _ _ Ha).
  cbn [negb andb].
  rewrite adjustment_of_table.
  generalize dependent (dict_get player_data "position"). intros position Hp.
  generalize dependent (dict_get player_data "batting_OBP").
  generalize dependent (dict_get player_data "batting_SLG").
  generalize dependent (dict_get player_data "batting_AB").
  generalize dependent (dict_get_or player_data "batting_BB" (VInt 0)).
  generalize dependent (dict_get_or player_data "batting_HBP" (VInt 0)).
  intros vh Hh vb Hb va Ha vs Hs vo Ho.
  unfold position_player_war, lift2, flt, int.
  cbn [mbind result_bind].
  rewrite (py_mul_num vo (VFloat 1.75) obp (NFloat 1.75) Ho eq_refl).
  destruct (num_mul obp (NFloat 1.75)) as [x1|e] eqn:E1.
  2:{ destruct (flat_bonus position); exact eq_refl. }
  apply mul_float_is_float in E1 as [f1 ->].
  norm.
  rewrite (py_mul_num vs (VFloat 0.7) slg (NFloat 0.7) Hs eq_refl).
  destruct (num_mul slg (NFloat 0.7)) as [x2|e] eqn:E2.
  2:{ destruct (flat_bonus position); exact eq_refl. }
  apply mul_float_is_float in E2 as [f2 ->].
  norm.
  rewrite (py_add_num va vb ab bb Ha Hb).
  destruct (num_add ab bb) as [ab_bb|e] eqn:E3.
  2:{ destruct (flat_bonus position); exact eq_refl. }
  norm.
  rewrite (py_add_num (of_num ab_bb) vh ab_bb hbp (as_num_of_num _) Hh).
  destruct (num_add ab_bb hbp) as [pa|e] eqn:E4.
  2:{ destruct (flat_bonus position); exact eq_refl. }
  norm. rewrite as_num_of_num.
  destruct (to_float pa) as [p|e] eqn:E5.
  2:{ destruct (flat_bonus position); exact eq_refl. }
  norm. rewrite !truediv_100. norm.
  rewrite (py_mul_num _ _ _ _ (as_num_of_num _) (as_num_of_num pa)).
  destruct (num_mul (position_adjustment position) pa) as [adjusted|e] eqn:E6.
  2:{ destruct (flat_bonus position); exact eq_refl. }
  norm.
  rewrite (py_truediv_num _ (VInt 600) _ (NInt 600) (as_num_of_num _) eq_refl).
  destruct (num_truediv adjusted (NInt 600)) as [runs|e] eqn:E7.
  2:{ destruct (flat_bonus position); exact eq_refl. }
  apply truediv_is_float in E7 as [position_runs ->].
  norm. rewrite !truediv_10, truediv_10f. norm.
  set (wins := (_ / 10)%float).
  unfold flat_bonus.
  destruct (eq_str position "C").
  { norm. eexists. split; [reflexivity|]. apply bonus_after_zero. reflexivity. }
  destruct (eq_str position "SS" || eq_str position "2B").
  { norm. eexists. split; [reflexivity|]. apply bonus_after_zero. reflexivity. }
  eexists. split; [reflexivity|]. apply same_after_zero.
Qed.
Lemma innings_value_total v : exists ip, innings_value v = Ok ip.
Proof.
  destruct v; simpl; eauto.
  unfold py_float. destruct (float_of_text s); eauto.
Qed.

Lemma innings_value_text text :
  innings_value (VStr text) =
  Ok (match float_of_text text with Some innings => VFloat innings | None => VInt 0 end).
Proof. unfold innings_value, py_float. now destruct (float_of_text text). Qed.

Lemma pitcher_formula (player_data : gmap string pyval) (ip : pyval) (era innings : num) :
  in_pitcher_family (dict_get player_data "position") = true ->
  innings_value (dict_get_or player_data "pitching_IP" (VInt 0)) = Ok ip ->
  as_num (dict_get player_data "pitching_ERA") = Some era ->
  as_num ip = Some innings ->
  py_gt0 ip = Ok true ->
  war_matches (calculate_war player_data)
    (pitcher_war era innings
       (eq_str (dict_get player_data "position") "RP"
        && truthy (dict_get player_data "pitching_SV"))).
Proof.
  intros Hp Hip He Hi Hgt. unfold calculate_war. rewrite Hp. cbv zeta.
  rewrite Hip. cbn [mbind result_bind].
  change (dict_get_or player_data "pitching_ERA" VNone) with (dict_get player_data "pitching_ERA").
  rewrite (as_num_not_none _ _ He), Hgt. cbn [mbind result_bind].
  generalize (eq_str (dict_get player_data "position") "RP"
              && truthy (dict_get player_data "pitching_SV")). intros boost.
  generalize dependent (dict_get player_data "pitching_ERA"). intros vera He.
  unfold pitcher_war, lift2, flt, int. cbn [mbind result_bind].
  rewrite (py_sub_num (VFloat 4) vera (NFloat 4) era eq_refl He).
  destruct (num_sub (NFloat 4) era) as [d|e] eqn:E1.
  2:{ destruct boost; exact eq_refl. }
  rewrite (py_truediv_num ip (VInt 9) innings (NInt 9) Hi eq_refl).
  destruct (num_truediv innings (NInt 9)) as [q|e] eqn:E2.
  2:{ destruct boost; exact eq_refl. }
  apply truediv_is_float in E2 as [q' ->].
  norm.
  rewrite (py_mul_num (of_num d) (VFloat q') d (NFloat q') (as_num_of_num d) eq_refl).
  destruct (num_mul d (NFloat q')) as [product|e] eqn:E3.
  2:{ destruct boost; exact eq_refl. }
  apply mul_float_is_float in E3 as [product' ->].
  norm. rewrite !truediv_10f. norm.
  destruct boost; norm; eexists; (split; [reflexivity | now left]).
Qed.

Lemma pitcher_without_era (player_data : gmap string pyval) :
  in_pitcher_family (dict_get player_data "position") = true ->
  is_none (dict_get player_data "pitching_ERA") = true ->
  calculate_war player_data = Ok (VFloat 0).
Proof.
  intros Hp He. unfold calculate_war. rewrite Hp. cbv zeta.
  destruct (innings_value_total (dict_get_or player_data "pitching_IP" (VInt 0))) as [ip ->].
  cbn [mbind result_bind].
  change (dict_get_or player_data "pitching_ERA" VNone) with (dict_get player_data "pitching_ERA").
  now rewrite He.
Qed.

Lemma pitcher_without_innings (player_data : gmap string pyval) (ip : pyval) :
  in_pitcher_family (dict_get player_data "position") = true ->
  innings_value (dict_get_or player_data "pitching_IP" (VInt 0)) = Ok ip ->
  py_gt0 ip = Ok false ->
  calculate_war player_data = Ok (VFloat 0).
Proof.
  intros Hp Hip Hgt. unfold calculate_war. rewrite Hp. cbv zeta.
  rewrite Hip. cbn [mbind result_bind]. rewrite Hgt.
  now destruct (is_none _).
Qed.

Lemma position_player_without_inputs (player_data : gmap string pyval) :
  in_pitcher_family (dict_get player_data "position") = false ->
  is_none (dict_get player_data "batting_OBP") = true
  \/ is_none (dict_get player_data "batting_SLG") = true
  \/ is_none (dict_get player_data "batting_AB") = true ->
  calculate_war player_data = Ok (VFloat 0).
Proof.
  intros Hp Habs. unfold calculate_war. rewrite Hp. cbv zeta.
  destruct Habs as [-> | [-> | ->]]; cbn [negb andb]; rewrite ?andb_false_r; reflexivity.
Qed.

Lemma dict_get_insert_ne (d : gmap string pyval) k k' v :
  k <> k' -> dict_get (<[k := v]> d) k' = dict_get d k'.
Proof. intros Hne. unfold dict_get. now rewrite lookup_insert_ne. Qed.

Lemma innings_text_replace (player_data : gmap string pyval) text innings :
  in_pitcher_family (dict_get player_data "position") = true ->
  player_data !! "pitching_IP" = Some (VStr text) ->
  float_of_text text = Some innings ->
  calculate_war player_data = calculate_war (<["pitching_IP" := VFloat innings]> player_data).
Proof.
  intros Hp Hip Hf. unfold calculate_war.
  rewrite !dict_get_insert_ne by discriminate. rewrite Hp. cbv zeta.
  unfold dict_get_or. rewrite !lookup_insert_ne by discriminate.
  rewrite Hip, lookup_insert_eq. cbn [default from_option id].
  rewrite innings_value_text, Hf. reflexivity.
Qed.

Lemma innings_text_unparsed (player_data : gmap string pyval) text :
  in_pitcher_family (dict_get player_data "position") = true ->
  player_data !! "pitching_IP" = Some (VStr text) ->
  float_of_text text = None ->
  calculate_war player_data = Ok (VFloat 0).
Proof.
  intros Hp Hip Hf.
  apply (pitcher_without_innings player_data (VInt 0)); [exact Hp | | reflexivity].
  unfold dict_get_or. rewrite Hip. cbn [default from_option id]. now rewrite innings_value_text, Hf.
Qed.

(** *** The claims about [calculate_war] *)

(** C1. For a record whose position is outside the pitcher family and
    whose OBP, SLG and AB are numbers (BB and HBP numbers too, or absent
    and then 0), [calculate_war] returns
    ((obp*1.75 + slg*0.7 - 0.320) * 1.2 * pa / 100
       + position_adjustment[position] * pa / 600) / 10
    with pa = ab + bb + hbp, plus 0.5 for C and 0.3 for SS or 2B; if one
    of OBP, SLG, AB is absent it returns 0.0; and the shortstop with
    obp 0.400, slg 0.500, ab 200, bb 30, hbp 5 gets 0.79961 within 1e-3. *)
Theorem calculate_war_position_player :
  (forall (player_data : gmap string pyval) (obp slg ab bb hbp : num),
     in_pitcher_family (dict_get player_data "position") = false ->
     as_num (dict_get player_data "batting_OBP") = Some obp ->
     as_num (dict_get player_data "batting_SLG") = Some slg ->
     as_num (dict_get player_data "batting_AB") = Some ab ->
     as_num (dict_get_or player_data "batting_BB" (VInt 0)) = Some bb ->
     as_num (dict_get_or player_data "batting_HBP" (VInt 0)) = Some hbp ->
     war_matches (calculate_war player_data)
       (position_player_war (dict_get player_data "position") obp slg ab bb hbp))
  /\ (forall player_data : gmap string pyval,
        in_pitcher_family (dict_get player_data "position") = false ->
        is_none (dict_get player_data "batting_OBP") = true
        \/ is_none (dict_get player_data "batting_SLG") = true
        \/ is_none (dict_get player_data "batting_AB") = true ->
        calculate_war player_data = Ok (VFloat 0))
  /\ returns_within (1 # 1000) (79961 # 100000) (calculate_war ss_player) = true.
Proof.
  split; [exact position_player_formula|].
  split; [exact position_player_without_inputs|].
  vm_compute. reflexivity.
Qed.

(** C2, where the code departs from it.  For a record whose position is
    P, SP or RP: with an ERA that is a number and innings greater than
    0, [calculate_war] returns (4.0 - era) * (ip / 9) / 10.0, times 1.5
    when the position is RP and the truth value of the pitching_SV field
    holds.  For a save total that is a non-negative int, and for an
    absent field, that test is the claimed one, a recorded save total
    greater than 0; without an ERA, or with innings not greater than 0,
    the result is 0.0; the starter with era 3.0 and 50 innings gets
    0.5556 within 1e-3.  But the scraper keeps a save cell that is not
    an integer as its text, and there the test is not the claimed one:
    the reliever whose cell held a dash has no save total greater than
    0 and is boosted (0.15 for 0.1), as is one whose cell held the text
    0.0, while one whose cell was empty is not. *)
Theorem calculate_war_pitcher :
  (forall (player_data : gmap string pyval) (ip : pyval) (era innings : num),
     in_pitcher_family (dict_get player_data "position") = true ->
     innings_value (dict_get_or player_data "pitching_IP" (VInt 0)) = Ok ip ->
     as_num (dict_get player_data "pitching_ERA") = Some era ->
     as_num ip = Some innings ->
     py_gt0 ip = Ok true ->
     war_matches (calculate_war player_data)
       (pitcher_war era innings
          (eq_str (dict_get player_data "position") "RP"
           && truthy (dict_get player_data "pitching_SV"))))
  /\ (forall (player_data : gmap string pyval) (saves : Z),
        player_data !! "pitching_SV" = Some (VInt saves) -> 0 <= saves ->
        truthy (dict_get player_data "pitching_SV") = recorded_saves_positive player_data)
  /\ (forall player_data : gmap string pyval,
        player_data !! "pitching_SV" = None ->
        truthy (dict_get player_data "pitching_SV") = false)
  /\ (forall player_data : gmap string pyval,
        in_pitcher_family (dict_get player_data "position") = true ->
        is_none (dict_get player_data "pitching_ERA") = true ->
        calculate_war player_data = Ok (VFloat 0))
  /\ (forall (player_data : gmap string pyval) (ip : pyval),
        in_pitcher_family (dict_get player_data "position") = true ->
        innings_value (dict_get_or player_data "pitching_IP" (VInt 0)) = Ok ip ->
        py_gt0 ip = Ok false ->
        calculate_war player_data = Ok (VFloat 0))
  /\ returns_within (1 # 1000) (5556 # 10000) (calculate_war sp_player) = true
  /\ recorded_saves_positive rp_raw_saves = false
  /\ returns_within (1 # 1000) (15 # 100) (calculate_war rp_raw_saves) = true
  /\ returns_within (1 # 1000) (15 # 100)
       (calculate_war (<["pitching_SV" := VStr "0.0"]> rp_raw_saves)) = true
  /\ returns_within (1 # 1000) (10 # 100)
       (calculate_war (<["pitching_SV" := VStr ""]> rp_raw_saves)) = true.
Proof.
  split; [exact pitcher_formula|].
  split.
  { intros player_data saves Hsv Hpos. unfold dict_get, recorded_saves_positive.
    rewrite Hsv. cbn [default from_option id truthy].
    destruct (Z.eqb_spec saves 0) as [->|Hne]; [reflexivity|].
    symmetry. apply Z.ltb_lt. lia. }
  split.
  { intros player_data Hsv. unfold dict_get. now rewrite Hsv. }
  split; [exact pitcher_without_era|].
  split; [exact pitcher_without_innings|].
  repeat (split; [vm_compute; reflexivity|]).
  vm_compute. reflexivity.
Qed.

(** C10. For a pitcher-family record whose pitching_IP holds a text: if
    the text converts to a float, that float is the innings value, the
    WAR is the one of the same record with the float in place of the
    text, and with a numeric ERA and innings above 0 it is the pitcher
    formula at that float; if the text does not convert, the innings
    value is 0 and the WAR is 0.0.  The conversion itself returns in both
    cases: no exception leaves it. *)
Theorem innings_text_is_converted (player_data : gmap string pyval) (text : string) :
  in_pitcher_family (dict_get player_data "position") = true ->
  player_data !! "pitching_IP" = Some (VStr text) ->
  match float_of_text text with
  | Some innings =>
      innings_value (VStr text) = Ok (VFloat innings)
      /\ calculate_war player_data
         = calculate_war (<["pitching_IP" := VFloat innings]> player_data)
      /\ (forall era : num,
            as_num (dict_get player_data "pitching_ERA") = Some era ->
            (0 <? innings)%float = true ->
            war_matches (calculate_war player_data)
              (pitcher_war era (NFloat innings)
                 (eq_str (dict_get player_data "position") "RP"
                  && truthy (dict_get player_data "pitching_SV"))))
  | None =>
      innings_value (VStr text) = Ok (VInt 0)
      /\ calculate_war player_data = Ok (VFloat 0)
  end.
Proof.
  intros Hp Hip. pose proof (innings_value_text text) as Hv.
  destruct (float_of_text text) as [innings|] eqn:Hf.
  - split; [exact Hv|]. split; [now apply (innings_text_replace player_data text)|].
    intros era He Hgt.
    apply (pitcher_formula player_data (VFloat innings)); try assumption.
    + unfold dict_get_or. rewrite Hip. exact Hv.
    + reflexivity.
    + cbn [py_gt0]. now rewrite Hgt.
  - split; [exact Hv|]. now apply (innings_text_unparsed player_data text).
Qed.

End Calculator.

(** C1 at the shortstop of the example. *)
Lemma calculate_war_position_player_witness :
  (in_pitcher_family (dict_get ss_player "position") = false
   /\ as_num (dict_get ss_player "batting_OBP") = Some (NFloat 0.400)
   /\ as_num (dict_get ss_player "batting_SLG") = Some (NFloat 0.500)
   /\ as_num (dict_get ss_player "batting_AB") = Some (NInt 200)
   /\ as_num (dict_get_or ss_player "batting_BB" (VInt 0)) = Some (NInt 30)
   /\ as_num (dict_get_or ss_player "batting_HBP" (VInt 0)) = Some (NInt 5))
  /\ war_matches (calculate_war (builtins := ascii_builtins) ss_player)
       (position_player_war (dict_get ss_player "position")
          (NFloat 0.400) (NFloat 0.500) (NInt 200) (NInt 30) (NInt 5)).
Proof.
  split; [repeat split; vm_compute; reflexivity|].
  apply (proj1 (@calculate_war_position_player ascii_builtins)); vm_compute; reflexivity.
Defined.

(** C2 at the starter of the example. *)
Lemma calculate_war_pitcher_witness :
  (in_pitcher_family (dict_get sp_player "position") = true
   /\ innings_value (builtins := ascii_builtins) (dict_get_or sp_player "pitching_IP" (VInt 0))
      = Ok (VInt 50)
   /\ as_num (dict_get sp_player "pitching_ERA") = Some (NFloat 3.0)
   /\ py_gt0 (VInt 50) = Ok true)
  /\ war_matches (calculate_war (builtins := ascii_builtins) sp_player)
       (pitcher_war (NFloat 3.0) (NInt 50)
          (eq_str (dict_get sp_player "position") "RP"
           && truthy (dict_get sp_player "pitching_SV"))).
Proof.
  split; [repeat split; vm_compute; reflexivity|].
  apply (proj1 (@calculate_war_pitcher ascii_builtins) sp_player (VInt 50));
    vm_compute; reflexivity.
Defined.

Lemma float_same_refuted (x y : float) :
  (PrimFloat.Leibniz.eqb x y || (x =? y)%float) = false -> ~ float_same x y.
Proof.
  intros Hxy [E|E]; apply orb_false_elim in Hxy as [Hl He].
  - apply Leibniz.eqb_spec in E. congruence.
  - congruence.
Qed.

(** C2 fails at the reliever whose save cell held a dash: the record
    has no recorded save total greater than 0, yet the boost is
    applied, and the calculator returns 0.15 where the formula without
    boost gives 0.1. *)
Lemma reliever_boost_without_save_total :
  recorded_saves_positive rp_raw_saves = false
  /\ ~ war_matches (calculate_war (builtins := ascii_builtins) rp_raw_saves)
        (pitcher_war (NFloat 3.0) (NInt 9)
           (eq_str (dict_get rp_raw_saves "position") "RP"
            && recorded_saves_positive rp_raw_saves)).
Proof.
  split; [reflexivity|]. intros W.
  remember (calculate_war rp_raw_saves) as returned eqn:Hr. vm_compute in Hr.
  remember (pitcher_war _ _ _) as formula eqn:Hf. vm_compute in Hf.
  subst. cbn [war_matches] in W. destruct W as [war [[= <-] Hsame]].
  revert Hsame. apply float_same_refuted. vm_compute. reflexivity.
Qed.

(** C10 at a starter whose innings cell held "50.1". *)
Lemma innings_text_is_converted_witness :
  (in_pitcher_family (dict_get sp_raw_innings "position") = true
   /\ sp_raw_innings !! "pitching_IP" = Some (VStr "50.1"))
  /\ match float_of_text (Builtins := ascii_builtins) "50.1" with
     | Some innings =>
         innings_value (builtins := ascii_builtins) (VStr "50.1") = Ok (VFloat innings)
         /\ calculate_war (builtins := ascii_builtins) sp_raw_innings
            = calculate_war (builtins := ascii_builtins)
                (<["pitching_IP" := VFloat innings]> sp_raw_innings)
         /\ (forall era : num,
               as_num (dict_get sp_raw_innings "pitching_ERA") = Some era ->
               (0 <? innings)%float = true ->
               war_matches (calculate_war (builtins := ascii_builtins) sp_raw_innings)
                 (pitcher_war era (NFloat innings)
                    (eq_str (dict_get sp_raw_innings "position") "RP"
                     && truthy (dict_get sp_raw_innings "pitching_SV"))))
     | None =>
         innings_value (builtins := ascii_builtins) (VStr "50.1") = Ok (VInt 0)
         /\ calculate_war (builtins := ascii_builtins) sp_raw_innings = Ok (VFloat 0)
     end.
Proof.
  split; [split; vm_compute; reflexivity|].
  apply (@innings_text_is_converted ascii_builtins sp_raw_innings "50.1");
    vm_compute; reflexivity.
Defined.

(** The innings of that starter are read as the float 50.1, and the
    text of a dash as no innings at all. *)
Example innings_text_examples :
  innings_value (builtins := ascii_builtins) (VStr "50.1") = Ok (VFloat 50.1)
  /\ innings_value (builtins := ascii_builtins) (VStr "-") = Ok (VInt 0)
  /\ returns_within (1 # 1000) (5567 # 10000)
       (calculate_war (builtins := ascii_builtins) sp_raw_innings) = true.
Proof. repeat split; vm_compute; reflexivity. Qed.

End WarCalculator.

(* ===================================================================== *)
(** ** Extraction, enrichment and the run over all years: properties *)
(* ===================================================================== *)

Module Pipeline.
Import Py Scraper Claimed Examples.

(** Closes a conjunction of equations between closed terms. *)
Ltac by_computation :=
  repeat match goal with |- _ /\ _ => split end; vm_compute; reflexivity.

Section Extraction.
Context `{builtins : Builtins} `{web : Web}.

(** *** What the extraction loop leaves untouched *)

Lemma store_converted_lookup {A} (conv : string -> result A) inj k value
    (d d' : gmap string pyval) k' :
  store_converted conv inj k value d = Ok d' -> k <> k' -> d' !! k' = d !! k'.
Proof.
  unfold store_converted. intros Hs Hne.
  destruct (conv value) as [a|[]]; inversion Hs; subst; now rewrite lookup_insert_ne.
Qed.

Lemma store_stolen_bases_lookup k value (d d' : gmap string pyval) k' :
  store_stolen_bases k value d = Ok d' ->
  k <> k' -> "batting_SB_successful" <> k' -> "batting_SB_attempted" <> k' ->
  d' !! k' = d !! k'.
Proof.
  unfold store_stolen_bases. intros Hs Hne H1 H2.
  destruct (PyStr.split "-" value) as [|first [|second [|]]];
    try (inversion Hs; subst; reflexivity).
  destruct (py_int first) as [a|[]]; try discriminate;
    try (inversion Hs; subst; now rewrite lookup_insert_ne).
  destruct (py_int second) as [b|[]]; try discriminate;
    inversion Hs; subst; now rewrite !lookup_insert_ne.
Qed.

Lemma extract_metric_lookup row entry (d d' : gmap string pyval) k' :
  extract_metric row entry d = Ok d' ->
  key (snd entry) <> k' -> "batting_SB_successful" <> k' -> "batting_SB_attempted" <> k' ->
  d' !! k' = d !! k'.
Proof.
  destruct entry as [metric_key info]. unfold extract_metric. cbn [snd].
  intros Hs Hne H1 H2.
  destruct (find_cell (data_label info) (row_cells row)) as [text|];
    [|inversion Hs; subst; reflexivity].
  destruct (_ && _).
  { eapply store_stolen_bases_lookup; eauto. }
  destruct (str_in metric_key rate_stats).
  { eapply store_converted_lookup; eauto. }
  destruct (str_in metric_key count_stats).
  { eapply store_converted_lookup; eauto. }
  inversion Hs; subst. now rewrite lookup_insert_ne.
Qed.

Lemma extract_metrics_lookup row entries (d d' : gmap string pyval) k' :
  extract_metrics row entries d = Ok d' ->
  Forall (fun entry => key (snd entry) <> k') entries ->
  "batting_SB_successful" <> k' -> "batting_SB_attempted" <> k' ->
  d' !! k' = d !! k'.
Proof.
  intros Hs Hall H1 H2. revert d Hs.
  induction Hall as [|entry rest Hk Hrest IH]; intros d Hs.
  - inversion Hs. reflexivity.
  - cbn [extract_metrics mbind result_bind] in Hs.
    destruct (extract_metric row entry d) as [d1|e] eqn:E; [|discriminate].
    cbn in Hs. rewrite (IH _ Hs). eapply extract_metric_lookup; eauto.
Qed.

Lemma position_from_labels_lookup labels (d d' : gmap string pyval) k' :
  position_from_labels labels d = Ok d' -> "position" <> k' -> d' !! k' = d !! k'.
Proof.
  intros Hs Hne. induction labels as [|[text next] rest IH]; cbn in Hs.
  - inversion Hs. reflexivity.
  - destruct (String.eqb _ _); [|auto].
    destruct next; inversion Hs; subst. now rewrite lookup_insert_ne.
Qed.

Lemma read_identity_lookup row (d d' : gmap string pyval) k' :
  read_identity row d = Ok d' ->
  "name" <> k' -> "id" <> k' -> "bio_url" <> k' -> "position" <> k' ->
  d' !! k' = d !! k'.
Proof.
  unfold read_identity. intros Hs Hn Hi Hb Hp.
  destruct (row_name_cell row) as [[[text player_id]|]|];
    try (inversion Hs; subst; reflexivity).
  cbv zeta in Hs.
  match type of Hs with context [dict_item ?m _] => set (d1 := m) in * end.
  assert (Hd1 : d1 !! k' = d !! k').
  { subst d1. destruct (row_bio_href row) as [href|].
    - destruct (_ && _); now rewrite !lookup_insert_ne.
    - now rewrite !lookup_insert_ne. }
  destruct (dict_item d1 "bio_url") as [bio_url|]; [|discriminate].
  cbn [mbind result_bind] in Hs.
  destruct (self_get_page bio_url); [|discriminate].
  rewrite <- Hd1. eapply position_from_labels_lookup; eauto.
Qed.

Lemma metrics_keys_not_shared k' :
  In k' shared_batting_keys ->
  Forall (fun entry : string * MetricInfo => key (snd entry) <> k') metrics.
Proof.
  intros Hk.
  assert (Hall : Forall (fun e : string * MetricInfo =>
                           ~ In (key (snd e)) shared_batting_keys) metrics).
  { vm_compute. repeat constructor; intuition discriminate. }
  induction Hall as [|entry rest Hentry _ IH]; constructor; [|exact IH].
  intros Heq. apply Hentry. now rewrite Heq.
Qed.

Lemma player_of_row_no_shared_batting_key year row (d : gmap string pyval) k' :
  player_of_row year row = Ok d -> In k' shared_batting_keys -> d !! k' = None.
Proof.
  unfold player_of_row. intros Hs Hk. cbv zeta in Hs.
  match type of Hs with context [read_identity row ?m] => set (d0 := m) in * end.
  assert (Hne : forall k, In k ["name"; "id"; "bio_url"; "position";
                               "batting_SB_successful"; "batting_SB_attempted";
                               "year"; "is_in_state"; "jersey"] -> k <> k').
  { intros k Hin ->. cbn in Hin, Hk. intuition congruence. }
  assert (Hd0 : d0 !! k' = None).
  { subst d0. destruct (row_jersey row);
      rewrite !lookup_insert_ne by (apply Hne; cbn; tauto); apply lookup_empty. }
  destruct (read_identity row d0) as [d1|] eqn:E1; [|discriminate].
  cbn [mbind result_bind] in Hs.
  rewrite (extract_metrics_lookup row metrics d1 d k' Hs (metrics_keys_not_shared k' Hk))
    by (apply Hne; cbn; tauto).
  rewrite <- Hd0. apply (read_identity_lookup row d0 d1 k' E1); apply Hne; cbn; tauto.
Qed.


(** *** The records [get_player_data] builds *)

Lemma metrics_keys_other k' :
  ~ In k' (map (fun entry : string * MetricInfo => key (snd entry)) metrics) ->
  Forall (fun entry : string * MetricInfo => key (snd entry) <> k') metrics.
Proof.
  intros Hk. apply List.Forall_forall. intros entry Hin Heq. apply Hk.
  rewrite <- Heq. now apply (in_map (fun entry : string * MetricInfo => key (snd entry))).
Qed.

Lemma player_of_row_state_unset year row (d : gmap string pyval) :
  player_of_row year row = Ok d -> d !! "state" = None.
Proof.
  unfold player_of_row. intros Hs. cbv zeta in Hs.
  match type of Hs with context [read_identity row ?m] => set (d0 := m) in * end.
  assert (Hd0 : d0 !! "state" = None).
  { subst d0. destruct (row_jersey row);
      rewrite !lookup_insert_ne by discriminate; apply lookup_empty. }
  destruct (read_identity row d0) as [d1|] eqn:E1; [|discriminate].
  cbn [mbind result_bind] in Hs.
  rewrite (extract_metrics_lookup row metrics d1 d "state" Hs); try discriminate.
  - rewrite <- Hd0. apply (read_identity_lookup row d0 d1 "state" E1); discriminate.
  - apply metrics_keys_other. vm_compute. intuition discriminate.
Qed.

Lemma position_from_labels_keeps_position labels (d d' : gmap string pyval) :
  position_from_labels labels d = Ok d' ->
  is_Some (d !! "position") -> is_Some (d' !! "position").
Proof.
  intros Hs Hd. induction labels as [|[text next] rest IH]; cbn in Hs.
  - now inversion Hs; subst.
  - destruct (String.eqb _ _); [|auto].
    destruct next; inversion Hs; subst. rewrite lookup_insert_eq. eauto.
Qed.

Lemma read_identity_keeps_position row (d d' : gmap string pyval) :
  read_identity row d = Ok d' ->
  is_Some (d !! "position") -> is_Some (d' !! "position").
Proof.
  unfold read_identity. intros Hs Hd.
  destruct (row_name_cell row) as [[[text player_id]|]|];
    try (inversion Hs; subst; exact Hd).
  cbv zeta in Hs.
  match type of Hs with context [dict_item ?m _] => set (d1 := m) in * end.
  assert (Hd1 : is_Some (d1 !! "position")).
  { subst d1. destruct (row_bio_href row) as [href|].
    - destruct (_ && _); now rewrite !lookup_insert_ne by discriminate.
    - now rewrite !lookup_insert_ne by discriminate. }
  destruct (dict_item d1 "bio_url") as [bio_url|]; [|discriminate].
  cbn [mbind result_bind] in Hs.
  destruct (self_get_page bio_url); [|discriminate].
  eapply position_from_labels_keeps_position; eauto.
Qed.

Lemma player_of_row_has_position year row (d : gmap string pyval) :
  player_of_row year row = Ok d -> is_Some (d !! "position").
Proof.
  unfold player_of_row. intros Hs. cbv zeta in Hs.
  match type of Hs with context [read_identity row ?m] => set (d0 := m) in * end.
  assert (Hd0 : is_Some (d0 !! "position")).
  { subst d0. destruct (row_jersey row);
      rewrite !lookup_insert_ne by discriminate; rewrite lookup_insert_eq; eauto. }
  destruct (read_identity row d0) as [d1|] eqn:E1; [|discriminate].
  cbn [mbind result_bind] in Hs.
  rewrite (extract_metrics_lookup row metrics d1 d "position" Hs); try discriminate.
  - eapply read_identity_keeps_position; eauto.
  - apply metrics_keys_other. vm_compute. intuition discriminate.
Qed.

Lemma get_player_data_records year (player_data : gmap string pyval) :
  In player_data (get_player_data year) ->
  is_Some (player_data !! "position") /\ player_data !! "state" = None.
Proof.
  unfold get_player_data.
  destruct (get_page _) as [html_content|]; [|intros []].
  destruct (PyStr.is_empty html_content); [intros []|].
  generalize (roster_rows html_content). intros player_rows.
  induction player_rows as [|row rest IH]; [intros []|].
  cbn [players_of_rows].
  destruct (player_of_row year row) as [d|] eqn:E; [|exact IH].
  intros [<-|Hin]; [|auto].
  split; [eapply player_of_row_has_position | eapply player_of_row_state_unset]; eauto.
Qed.
(** *** Which rows and players stop the run *)

Lemma players_of_rows_skips_failures year player_rows :
  players_of_rows year player_rows = omap (fun row => kept_record (player_of_row year row)) player_rows.
Proof.
  induction player_rows as [|row rest IH]; [reflexivity|].
  cbn [players_of_rows omap list_omap]. rewrite IH.
  now destruct (player_of_row year row).
Qed.

Lemma process_players_needs_every_player players all_players collected :
  process_players players all_players = Ok collected ->
  Forall (fun player =>
            exists enriched war,
              get_player_hometown player = Ok enriched
              /\ calculate_war enriched = Ok war) players.
Proof.
  revert all_players. induction players as [|player rest IH]; intros all_players Hs.
  - constructor.
  - cbn [process_players] in Hs.
    destruct (get_player_hometown player) as [enriched|] eqn:E1; [|discriminate].
    cbn [mbind result_bind] in Hs.
    destruct (calculate_war enriched) as [war|] eqn:E2; [|discriminate].
    cbn [mbind result_bind] in Hs. constructor; [eauto | eapply IH; eauto].
Qed.

(** *** The assume-local fallback *)

Lemma california_default_local (d : gmap string pyval) : assumed_local (california_default d).
Proof.
  unfold assumed_local, california_default. split.
  - rewrite lookup_insert_ne by discriminate. apply lookup_insert_eq.
  - apply lookup_insert_eq.
Qed.

Lemma text_or_empty state fallback : text_or state "" = "" -> text_or state fallback = fallback.
Proof.
  destruct state as [[|c s]|]; cbn; [reflexivity | discriminate | reflexivity].
Qed.

(** The last steps of [get_player_hometown], from the position lookup on. *)
Lemma hometown_tail_local (d : gmap string pyval) soup :
  is_Some (d !! "position") ->
  (truthy (dict_get d "state") = false \/ d !! "state" = Some (VStr "California")) ->
  returns_local
    (position ← dict_item d "position";
     let player_data :=
       if eq_str position "Unknown" then
         match page_position_elem soup with
         | Some text =>
             <["position" := VStr (normalize_position (PyStr.strip text))]> d
         | None => d
         end
       else d in
     if truthy (dict_get player_data "state") then
       state ← dict_item player_data "state";
       match state with
       | VStr state =>
           Ok (<["is_in_state" := VBool (is_california_state state)]> player_data)
       | _ => Raise AttributeError
       end
     else
       Ok (<["state" := VStr "California"]>
             (<["is_in_state" := VBool true]> player_data))).
Proof.
  intros [position Hpos] Hstate. unfold dict_item. rewrite Hpos.
  cbn [mbind result_bind]. cbv zeta.
  set (d1 := if eq_str position "Unknown" then _ else d).
  assert (Hd1 : d1 !! "state" = d !! "state").
  { subst d1. destruct (eq_str position "Unknown"); [|reflexivity].
    destruct (page_position_elem soup); [|reflexivity].
    now rewrite lookup_insert_ne. }
  assert (Hg : dict_get d1 "state" = dict_get d "state").
  { unfold dict_get. now rewrite Hd1. }
  rewrite Hg. destruct Hstate as [Hfalse|Hcal].
  - rewrite Hfalse. split.
    + apply lookup_insert_eq.
    + rewrite lookup_insert_ne by discriminate. apply lookup_insert_eq.
  - unfold dict_get at 1. rewrite Hcal. cbn [default from_option id truthy PyStr.is_empty negb].
    rewrite Hd1, Hcal. cbn [mbind result_bind]. split.
    + now rewrite lookup_insert_ne, Hd1 by discriminate.
    + rewrite lookup_insert_eq. reflexivity.
Qed.

(** On a page that names no state and whose Hometown labels all have
    their span, the extraction returns, and without a state. *)
Lemma no_state_extracted soup :
  page_names_no_state soup ->
  hometown_labels_have_spans soup ->
  exists hometown state,
    extract_hometown_state (page_field_labels soup) = Ok (hometown, state)
    /\ text_or state "" = "".
Proof.
  unfold page_names_no_state, hometown_labels_have_spans.
  induction (page_field_labels soup) as [|[text next_span] rest IH]; intros Hnone Hspans.
  - exists None, None. split; reflexivity.
  - apply Forall_cons in Hnone as [Hfield Hnone].
    apply Forall_cons in Hspans as [Hspan Hspans].
    cbn [extract_hometown_state]. unfold field_names_state in Hfield.
    cbn [fst snd] in Hfield, Hspan.
    destruct (String.eqb (PyStr.strip text) "Hometown"); [|now apply IH].
    destruct (Hspan eq_refl) as [span_text ->]. cbn [andb] in Hfield.
    destruct (PyStr.has_char "," (PyStr.strip span_text)); [|now apply IH].
    cbn [andb] in Hfield. apply negb_false_iff in Hfield.
    eexists _, _. split; [reflexivity|]. cbn [text_or]. now rewrite Hfield.
Qed.

Lemma get_player_hometown_returns_local (player_data : gmap string pyval) :
  state_undetermined player_data ->
  hometown_fields_complete player_data ->
  returns_local (get_player_hometown player_data).
Proof.
  unfold state_undetermined, hometown_fields_complete, get_player_hometown. cbv zeta.
  intros [Hno | Hrest] Hspans.
  { rewrite Hno. apply california_default_local. }
  destruct (truthy (dict_get player_data "bio_url")); cbn [negb];
    [|apply california_default_local].
  destruct Hrest as [Hfail | [Hempty | [html [Hpage [Hpos Hstate]]]]].
  { rewrite Hfail. apply california_default_local. }
  { rewrite Hempty. apply california_default_local. }
  rewrite Hpage. destruct (PyStr.is_empty html); [apply california_default_local|].
  destruct (PyStr.is_empty (page_text (bio_page html))); cbn [negb mbind result_bind].
  - apply hometown_tail_local; [exact Hpos | now left].
  - destruct (no_state_extracted _ Hstate (Hspans html Hpage))
      as [hometown [state [Hext Hnone]]]. rewrite Hext.
    cbn [mbind result_bind]. rewrite (text_or_empty _ _ Hnone).
    apply hometown_tail_local.
    + destruct Hpos as [p Hp]. exists p. now rewrite !lookup_insert_ne by discriminate.
    + right. apply lookup_insert_eq.
Qed.

Lemma get_player_hometown_defines_both (player_data enriched : gmap string pyval) :
  get_player_hometown player_data = Ok enriched ->
  is_Some (enriched !! "state") /\ is_Some (enriched !! "is_in_state").
Proof.
  assert (Hdef : forall d, is_Some (california_default d !! "state")
                           /\ is_Some (california_default d !! "is_in_state")).
  { intros d. destruct (california_default_local d) as [-> ->]. split; eauto. }
  unfold get_player_hometown. cbv zeta. intros Hs.
  destruct (negb _); [inversion Hs; subst; apply Hdef|].
  destruct (self_get_page _) as [html|]; [|inversion Hs; subst; apply Hdef].
  destruct (PyStr.is_empty html); [inversion Hs; subst; apply Hdef|].
  match type of Hs with (?m ≫= _) = _ => destruct m as [d1|] eqn:E1; [|discriminate] end.
  cbn [mbind result_bind] in Hs.
  destruct (dict_item d1 "position") as [position|]; [|discriminate].
  cbn [mbind result_bind] in Hs. cbv zeta in Hs.
  match type of Hs with context [dict_get ?m "state"] => set (d2 := m) in * end.
  destruct (truthy (dict_get d2 "state")) eqn:Ht.
  - unfold dict_item in Hs. destruct (d2 !! "state") as [state|] eqn:Est; [|discriminate].
    cbn [mbind result_bind] in Hs. destruct state; inversion Hs; subst.
    split; [|rewrite lookup_insert_eq; eauto].
    rewrite lookup_insert_ne by discriminate. rewrite Est. eauto.
  - inversion Hs; subst. split; [rewrite lookup_insert_eq; eauto|].
    rewrite lookup_insert_ne by discriminate. rewrite lookup_insert_eq. eauto.
Qed.


(** C7, where the code departs from it.  For a record whose state
    cannot be determined (no biography URL, the page cannot be fetched
    or is empty, or the page names no state) and whose page has a span
    after every Hometown label, [get_player_hometown] returns the record
    with state "California" and is_in_state true; whenever it returns,
    the record it returns has both fields; and the records it is called
    on, those of [get_player_data], carry a position and no state yet.
    But a page on which no span follows the Hometown label names no
    state either, and there the default is not applied: for the record
    that [get_player_data] builds from the row of Hale,
    [get_player_hometown] raises [AttributeError], and the run of
    [process_all_years] ends with it. *)
Theorem get_player_hometown_assumes_local :
  (forall player_data : gmap string pyval,
     state_undetermined player_data ->
     hometown_fields_complete player_data ->
     exists enriched,
       get_player_hometown player_data = Ok enriched
       /\ enriched !! "state" = Some (VStr "California")
       /\ enriched !! "is_in_state" = Some (VBool true))
  /\ (forall player_data enriched : gmap string pyval,
        get_player_hometown player_data = Ok enriched ->
        is_Some (enriched !! "state") /\ is_Some (enriched !! "is_in_state"))
  /\ (forall (year : Z) (player_data : gmap string pyval),
        In player_data (get_player_data year) ->
        is_Some (player_data !! "position") /\ player_data !! "state" = None)
  /\ get_player_data (builtins := ascii_builtins) (web := spanless_site) 2015 = [hale_player]
  /\ state_undetermined (web := spanless_site) hale_player
  /\ get_player_hometown (web := spanless_site) hale_player = Raise AttributeError
  /\ collect_all_years (builtins := ascii_builtins) (web := spanless_site) 2015 2015
     = Raise AttributeError.
Proof.
  split; [|split; [exact get_player_hometown_defines_both|split]].
  - intros player_data Hu Hspans.
    pose proof (get_player_hometown_returns_local player_data Hu Hspans) as Hlocal.
    destruct (get_player_hometown player_data) as [enriched|]; [|contradiction].
    destruct Hlocal as [Hstate Hflag]. eauto.
  - intros year player_data. apply get_player_data_records.
  - split; [reflexivity|]. split; [|split; vm_compute; reflexivity].
    right. right. right. exists "page".
    split; [reflexivity|]. split; [eexists; reflexivity|].
    cbn. repeat constructor.
Qed.

End Extraction.

(** C7 at a record without a biography URL. *)
Lemma get_player_hometown_assumes_local_witness :
  (state_undetermined (web := example_site) unlinked_player
   /\ hometown_fields_complete (web := example_site) unlinked_player)
  /\ exists enriched,
       get_player_hometown (web := example_site) unlinked_player = Ok enriched
       /\ enriched !! "state" = Some (VStr "California")
       /\ enriched !! "is_in_state" = Some (VBool true).
Proof.
  assert (Hu : state_undetermined (web := example_site) unlinked_player).
  { left. vm_compute. reflexivity. }
  assert (Hspans : hometown_fields_complete (web := example_site) unlinked_player).
  { intros html_content Hpage. vm_compute in Hpage. discriminate. }
  split; [split; [exact Hu | exact Hspans]|].
  exact (proj1 (@get_player_hometown_assumes_local ascii_builtins example_site)
           unlinked_player Hu Hspans).
Defined.

(** The two other ways of not finding a state: the request fails, or
    the page names a town without a state. *)
Example assumed_local_examples :
  returns_local (get_player_hometown (web := silent_site) roe_player)
  /\ returns_local (get_player_hometown (web := example_site) roe_player).
Proof.
  split.
  - apply get_player_hometown_returns_local; [right; left; reflexivity|].
    intros html_content Hpage. discriminate.
  - apply get_player_hometown_returns_local.
    + right. right. right.
      exists "bio roe". split; [reflexivity|]. split; [eexists; reflexivity|].
      cbn. repeat constructor.
    + intros html_content _. unfold hometown_labels_have_spans. cbn.
      destruct (String.eqb html_content "bio doe"); repeat constructor; cbn; eauto.
Qed.

(** C3, where the code departs from it.  The labels H, R, BB, SO, 2B, 3B
    and HR are written twice in the [metrics] display, so the dict keeps
    only the pitching entry of each: no record ever gets one of the
    batting keys, and the first cell with the label is stored under the
    pitching key.  For the two-way row, whose first H cell (60) is the
    batting one and whose second (44) the pitching one, the record has
    pitching_H = 60 and no batting_H. *)
Theorem shared_labels_lose_the_batting_key :
  (forall (builtins : Builtins) (web : Web) (year : Z) (row : Row)
          (player_data : gmap string pyval) (k : string),
     player_of_row year row = Ok player_data ->
     In k shared_batting_keys ->
     player_data !! k = None)
  /\ (fun player_data : gmap string pyval =>
        (player_data !! "batting_H", player_data !! "pitching_H",
         player_data !! "batting_BB", player_data !! "pitching_BB"))
       <$> player_of_row (builtins := ascii_builtins) (web := example_site) 2015 two_way_row
     = Ok (None, Some (VInt 60), None, Some (VInt 30)).
Proof.
  split.
  - intros builtins web year row player_data k.
    apply player_of_row_no_shared_batting_key.
  - vm_compute. reflexivity.
Qed.

(** C5, where the code departs from it.  A row that raises during
    extraction is skipped and the others are kept; but nothing catches
    an exception of the enrichment or of the WAR calculation, so the run
    returns only if every player passes both.  On the example site both
    rows are extracted, Roe's on-base cell is kept as the text of a dash,
    multiplying it raises a TypeError, and the whole run ends with that
    exception although Doe's record alone is processed without one. *)
Theorem one_bad_record_aborts_the_run :
  (forall (builtins : Builtins) (web : Web) (year : Z) (player_rows : list Row),
     players_of_rows year player_rows
     = omap (fun row => kept_record (player_of_row year row)) player_rows)
  /\ (forall (builtins : Builtins) (web : Web)
             (players all_players collected : list (gmap string pyval)),
        process_players players all_players = Ok collected ->
        Forall (fun player =>
                  exists enriched war,
                    get_player_hometown player = Ok enriched
                    /\ calculate_war enriched = Ok war) players)
  /\ length (get_player_data (builtins := ascii_builtins) (web := example_site) 2015) = 2%nat
  /\ collect_all_years (builtins := ascii_builtins) (web := example_site) 2015 2015
     = Raise TypeError
  /\ is_ok (process_all_years (builtins := ascii_builtins) (web := example_site) 2015 2015)
     = false
  /\ is_ok (process_players (builtins := ascii_builtins) (web := example_site)
              (drop 1 (get_player_data (builtins := ascii_builtins) (web := example_site) 2015))
              [])
     = true.
Proof.
  split; [intros; apply players_of_rows_skips_failures|].
  split; [intros builtins web players all_players collected;
          apply process_players_needs_every_player|].
  by_computation.
Qed.

End Pipeline.

(* ===================================================================== *)
(** ** The aggregation: properties *)
(* ===================================================================== *)

Module Aggregation.
Import Py Scraper Claimed Examples.

Lemma float_div_nan (x : float) : (x / nan)%float = nan.
Proof.
  apply Prim2SF_inj. rewrite div_spec.
  change (Prim2SF nan) with S754_nan.
  destruct (Prim2SF x) as [[]|[]| |[] m e]; reflexivity.
Qed.

Lemma replace_zero_when_zero out :
  (cell_float out =? 0)%float = true -> replace_zero_with_nan out = nan.
Proof. unfold replace_zero_with_nan. now intros ->. Qed.

Lemma replace_zero_when_nonzero out :
  (cell_float out =? 0)%float = false -> replace_zero_with_nan out = cell_float out.
Proof. unfold replace_zero_with_nan. now intros ->. Qed.

Lemma pct_difference_zero d out :
  (cell_float out =? 0)%float = true -> pct_difference d out = nan.
Proof.
  intros Hz. unfold pct_difference. rewrite (replace_zero_when_zero out Hz).
  apply float_div_nan.
Qed.

Lemma pct_difference_nonzero d out :
  (cell_float out =? 0)%float = false ->
  pct_difference d out = (100 * d / cell_float out)%float.
Proof.
  intros Hz. unfold pct_difference. now rewrite (replace_zero_when_nonzero out Hz).
Qed.

Lemma pct_difference_missing d : pct_difference d (NFloat nan) = nan.
Proof. apply float_div_nan. Qed.

Lemma In_insert_sorted {A} (before : A -> A -> bool) x y l :
  In y (insert_sorted before x l) -> y = x \/ In y l.
Proof.
  induction l as [|z rest IH]; cbn.
  - intros [<-|[]]. now left.
  - destruct (before x z); cbn.
    + intros [<-|Hin]; [now left | now right].
    + intros [<-|Hin]; [right; now left|].
      destruct (IH Hin) as [->|Hr]; [now left | right; now right].
Qed.

Lemma In_sort_by {A} (before : A -> A -> bool) y l :
  In y (sort_by before l) -> In y l.
Proof.
  unfold sort_by. induction l as [|x rest IH]; cbn; [tauto|].
  intros Hin. apply In_insert_sorted in Hin as [->|Hin]; [now left | right; auto].
Qed.

Section Rows.
Variable mean : list float -> float.

Lemma group_stat_in_stats rows g :
  In g (position_stats mean rows) ->
  group_stat mean rows (g_position g) (g_in_state g) = Some g.
Proof.
  unfold position_stats. intros Hin.
  apply list_elem_of_In, list_elem_of_join in Hin as [groups [Hg Hgroups]].
  apply list_elem_of_fmap in Hgroups as [pos [-> _]].
  apply list_elem_of_omap in Hg as [flag [_ Hg]].
  unfold group_stat in Hg |- *.
  destruct (List.filter (same_group pos flag) rows) eqn:E; [discriminate|].
  inversion Hg; subst; cbn. now rewrite E.
Qed.

Lemma pivot_lookup_none rows pos flag :
  List.filter (same_group pos flag) rows = [] ->
  pivot_lookup (position_stats mean rows) pos flag = None.
Proof.
  intros Hnone. unfold pivot_lookup.
  destruct (List.find _ _) as [g|] eqn:E; [|reflexivity].
  apply List.find_some in E as [Hin Hmatch].
  apply andb_prop in Hmatch as [Hp Hf].
  apply String.eqb_eq in Hp. apply Bool.eqb_prop in Hf.
  apply group_stat_in_stats in Hin. rewrite Hp, Hf in Hin.
  unfold group_stat in Hin. rewrite Hnone in Hin. discriminate.
Qed.

Lemma summary_row_difference stats pos :
  let row := summary_row stats pos in
  Position row = pos
  /\ WAR_Difference row
     = (In_State_WAR row - cell_float (Out_of_State_WAR row))%float
  /\ Pct_Difference row = pct_difference (WAR_Difference row) (Out_of_State_WAR row).
Proof. cbv zeta. unfold summary_row. cbn. repeat split. Qed.

Lemma pivot_mean_missing rows pos flag :
  List.filter (same_group pos flag) rows = [] ->
  pivot_mean (position_stats mean rows) flag pos = nan.
Proof.
  intros Hnone. unfold pivot_mean. now rewrite (pivot_lookup_none rows pos flag Hnone).
Qed.

Lemma summary_row_no_members rows pos :
  List.filter (same_group pos false) rows = [] ->
  Pct_Difference (summary_row (position_stats mean rows) pos) = nan.
Proof.
  intros Hnone. unfold summary_row. cbn [Pct_Difference].
  destruct (has_mean_column _ false).
  - rewrite (pivot_mean_missing rows pos false Hnone). apply pct_difference_missing.
  - apply pct_difference_zero. reflexivity.
Qed.

Lemma analyze_rows (data : DataFrame) table row :
  analyze_war_by_position mean data = Ok table -> In row table ->
  row = summary_row
          (position_stats mean (rows_with_war_and_position (ensure_is_in_state data)))
          (Position row).
Proof.
  unfold analyze_war_by_position. cbv zeta. intros Hs Hin.
  destruct (require_column _ "WAR"); [|discriminate].
  destruct (require_column _ "position"); [|discriminate].
  cbn [mbind result_bind] in Hs.
  destruct (has_mean_column _ true); [|discriminate].
  destruct (has_count_column _ true); [|discriminate].
  cbn [mbind result_bind] in Hs. inversion Hs; subst. clear Hs.
  apply In_sort_by in Hin. apply in_map_iff in Hin as [pos [<- _]]. reflexivity.
Qed.


(** C8. For every row of the summary table: the WAR difference is the
    in-state mean minus the out-of-state mean; if the out-of-state mean is
    zero, or the position has no out-of-state player at all, the percent
    difference is NaN, not a number; and if the out-of-state mean is not
    zero, the percent difference is 100 times the WAR difference divided
    by the out-of-state mean. *)
Theorem pct_difference_undefined_on_zero
    (data : DataFrame) (table : list PositionStatSummary) (row : PositionStatSummary) :
  analyze_war_by_position mean data = Ok table ->
  In row table ->
  let out_of_state_mean := cell_float (Out_of_State_WAR row) in
  WAR_Difference row = (In_State_WAR row - out_of_state_mean)%float
  /\ ((out_of_state_mean =? 0)%float = true -> Pct_Difference row = nan)
  /\ (out_of_state_members data (Position row) = [] -> Pct_Difference row = nan)
  /\ ((out_of_state_mean =? 0)%float = false ->
      Pct_Difference row = (100 * WAR_Difference row / out_of_state_mean)%float).
Proof.
  intros Hs Hin. cbv zeta. pose proof (analyze_rows data table row Hs Hin) as Hrow.
  set (stats := position_stats mean _) in Hrow.
  destruct (summary_row_difference stats (Position row)) as [_ [Hdiff Hpct]].
  rewrite <- Hrow in Hdiff, Hpct.
  split; [exact Hdiff|]. split; [|split].
  - intros Hz. rewrite Hpct. now apply pct_difference_zero.
  - intros Hnone. rewrite Hrow. now apply summary_row_no_members.
  - intros Hnz. rewrite Hpct. now apply pct_difference_nonzero.
Qed.

(** C9, where the code departs from it.  A table without rows makes the
    aggregation raise a KeyError: an empty collection of records has no
    WAR column at all, and a table that has the columns but no rows has
    no in-state column in its pivot table, which the code selects
    unguarded.  So a run over a site that answers no request builds its
    (empty) table and then fails in the aggregation. *)
Theorem empty_collection_raises_key_error :
  analyze_war_by_position mean (frame_of_records []) = Raise (KeyError "WAR")
  /\ (forall data : DataFrame,
        df_rows data = [] ->
        exists label, analyze_war_by_position mean data = Raise (KeyError label))
  /\ is_ok (process_all_years (builtins := ascii_builtins) (web := silent_site) 2015 2025)
     = true
  /\ (process_all_years (builtins := ascii_builtins) (web := silent_site) 2015 2025
      ≫= analyze_war_by_position mean) = Raise (KeyError "WAR").
Proof.
  split; [vm_compute; reflexivity|]. split.
  - intros data Hrows. unfold analyze_war_by_position. cbv zeta.
    assert (Hempty : rows_with_war_and_position (ensure_is_in_state data) = []).
    { unfold rows_with_war_and_position, ensure_is_in_state.
      destruct (bool_decide _); cbn [df_rows]; now rewrite Hrows. }
    rewrite Hempty.
    unfold require_column.
    destruct (bool_decide ("WAR" ∈ _)); [|eexists; reflexivity].
    destruct (bool_decide ("position" ∈ _)); [|eexists; reflexivity].
    eexists. reflexivity.
  - split; vm_compute; reflexivity.
Qed.

End Rows.

(** C8 at the row of position P of the example table, whose out-of-state
    players have a mean WAR of 0. *)
Lemma pct_difference_undefined_on_zero_witness :
  (analyze_war_by_position plain_mean example_frame = Ok example_table
   /\ In (nth 1 example_table (summary_row [] "")) example_table)
  /\ let row := nth 1 example_table (summary_row [] "") in
     let out_of_state_mean := cell_float (Out_of_State_WAR row) in
     WAR_Difference row = (In_State_WAR row - out_of_state_mean)%float
     /\ ((out_of_state_mean =? 0)%float = true -> Pct_Difference row = nan)
     /\ (out_of_state_members example_frame (Position row) = [] -> Pct_Difference row = nan)
     /\ ((out_of_state_mean =? 0)%float = false ->
         Pct_Difference row = (100 * WAR_Difference row / out_of_state_mean)%float).
Proof.
  assert (Hs : analyze_war_by_position plain_mean example_frame = Ok example_table)
    by (vm_compute; reflexivity).
  assert (Hin : In (nth 1 example_table (summary_row [] "")) example_table)
    by (right; left; reflexivity).
  split; [split; assumption|].
  exact (pct_difference_undefined_on_zero plain_mean example_frame example_table _ Hs Hin).
Defined.

(** The three rows of the example: a percent difference of 100 for SS,
    and NaN both for P (out-of-state mean 0) and for C (no out-of-state
    player). *)
Example example_table_percentages :
  Pct_Difference <$> example_table = [100%float; nan; nan]
  /\ out_of_state_members example_frame "C" = [].
Proof. split; vm_compute; reflexivity. Qed.

End Aggregation.

(* ===================================================================== *)
(** ** Further properties of [normalize_position] *)
(* ===================================================================== *)

Module NormalizerFacts.
Import Py PyStr PyStrFacts Scraper Claimed Observed Classifiers.

Lemma normalize_position_is_rules raw : normalize_position raw = normalize_by_rules raw.
Proof. destruct raw as [|c r]; [reflexivity|]. now apply chain_is_first_match. Qed.

Lemma normalize_position_canonical raw : In (normalize_position raw) canonical_codes.
Proof. rewrite normalize_position_is_rules. apply normalize_by_rules_canonical. Qed.

Lemma upper_char_idem c : upper_char (upper_char c) = upper_char c.
Proof. destruct c as [[] [] [] [] [] [] [] []]; reflexivity. Qed.

Lemma upper_lower_char c : upper_char (lower_char c) = upper_char c.
Proof. destruct c as [[] [] [] [] [] [] [] []]; reflexivity. Qed.

Lemma slash_lower_char c : Ascii.eqb "/" (lower_char c) = Ascii.eqb "/" c.
Proof. destruct c as [[] [] [] [] [] [] [] []]; reflexivity. Qed.

Lemma upper_idem s : upper (upper s) = upper s.
Proof. induction s as [|c r IH]; [reflexivity|]. cbn [upper]. now rewrite upper_char_idem, IH. Qed.

Lemma upper_lower s : upper (lower s) = upper s.
Proof. induction s as [|c r IH]; [reflexivity|]. cbn [upper lower]. now rewrite upper_lower_char, IH. Qed.

Lemma before_first_slash_lower s :
  before_first "/" (lower s) = lower (before_first "/" s).
Proof.
  induction s as [|c r IH]; [reflexivity|].
  cbn [lower before_first]. rewrite slash_lower_char.
  destruct (Ascii.eqb "/" c); [reflexivity|]. cbn [lower]. now rewrite IH.
Qed.

Lemma rstrip_cons c s :
  rstrip (String c s)
  = match rstrip s with
    | EmptyString => if is_space c then EmptyString else String c EmptyString
    | r' => String c r'
    end.
Proof. reflexivity. Qed.

Lemma rstrip_idem s : rstrip (rstrip s) = rstrip s.
Proof.
  induction s as [|c r IH]; [reflexivity|]. rewrite rstrip_cons.
  destruct (rstrip r) as [|d r'] eqn:R.
  - destruct (is_space c) eqn:E; [reflexivity|]. cbn [rstrip]. now rewrite E.
  - rewrite rstrip_cons, IH. reflexivity.
Qed.

Lemma lstrip_rstrip_lstrip s : lstrip (rstrip (lstrip s)) = rstrip (lstrip s).
Proof.
  induction s as [|c r IH]; [reflexivity|]. cbn [lstrip].
  destruct (is_space c) eqn:E; [exact IH|].
  rewrite rstrip_cons. destruct (rstrip r); [rewrite E|]; cbn [lstrip]; now rewrite E.
Qed.

Lemma strip_idem s : strip (strip s) = strip s.
Proof. unfold strip. now rewrite lstrip_rstrip_lstrip, rstrip_idem. Qed.

Lemma primary_position_strip s : primary_position (strip s) = primary_position s.
Proof.
  unfold primary_position. rewrite !strip_upper. f_equal.
  assert (Hslash : is_space "/" = false) by reflexivity.
  destruct (has_char "/" s) eqn:E.
  - now apply strip_before_first_strip.
  - rewrite !before_first_absent; [apply strip_idem | exact E |].
    now rewrite has_char_lstrip_rstrip.
Qed.

(** X2. [normalize_position] gives the same code when the label is
    upper-cased first or stripped first, and, for a label of ASCII
    characters, when it is lower-cased first: on such labels it ignores
    the letter case and the white space around them. *)
Theorem normalize_position_ignores_case_and_blanks (raw : string) :
  normalize_position (upper raw) = normalize_position raw
  /\ normalize_position (strip raw) = normalize_position raw
  /\ (isascii raw = true -> normalize_position (lower raw) = normalize_position raw).
Proof.
  rewrite !normalize_position_is_rules. unfold normalize_by_rules.
  split; [|split].
  - f_equal. unfold primary_position.
    now rewrite before_first_slash_upper, upper_idem.
  - now rewrite primary_position_strip.
  - intros _. f_equal. unfold primary_position.
    now rewrite before_first_slash_lower, upper_lower.
Qed.

Lemma before_first_app c s t :
  before_first c (before_first c s ++ String c t) = before_first c s.
Proof.
  induction s as [|d r IH].
  - change (before_first c (String c t) = ""). cbn [before_first].
    now rewrite Ascii.eqb_refl.
  - cbn [before_first]. destruct (Ascii.eqb c d) eqn:E.
    + change (before_first c (String c t) = ""). cbn [before_first].
      now rewrite Ascii.eqb_refl.
    + change (before_first c (String d (before_first c r ++ String c t))
              = String d (before_first c r)).
      cbn [before_first]. now rewrite E, IH.
Qed.

Lemma before_first_idem c s : before_first c (before_first c s) = before_first c s.
Proof.
  induction s as [|d r IH]; cbn [before_first]; [reflexivity|].
  destruct (Ascii.eqb c d) eqn:E; cbn [before_first]; [reflexivity|]. now rewrite E, IH.
Qed.

(** X3. [normalize_position] reads the primary position only: the
    text from the first slash on does not change the result. *)
Theorem normalize_position_reads_primary_only (raw rest : string) :
  normalize_position (before_first "/" raw) = normalize_position raw
  /\ normalize_position (before_first "/" raw ++ String "/" rest) = normalize_position raw.
Proof.
  rewrite !normalize_position_is_rules. unfold normalize_by_rules, primary_position.
  now rewrite before_first_idem, before_first_app.
Qed.

(** X1. Normalising a normalised label gives it back, with one
    exception: the code IF, which the function returns for infield
    labels, is itself sent to Unknown. *)
Theorem normalize_position_twice (raw : string) :
  normalize_position (normalize_position raw)
  = if String.eqb (normalize_position raw) "IF" then "Unknown" else normalize_position raw.
Proof.
  pose proof (normalize_position_canonical raw) as Hc.
  generalize dependent (normalize_position raw). intros code Hc.
  cbn in Hc. repeat (destruct Hc as [<-|Hc]; [reflexivity|]). contradiction.
Qed.

(** X23. Every code that [normalize_position] returns has an entry in
    the table of position adjustments built by the constructor, so the
    default of the table lookup is never used for a normalised
    position; and the entries UTL, INF and OF/IF of the table are never
    reached by one. *)
Theorem normalized_positions_have_adjustments (raw : string) :
  is_Some (position_adjustments !! normalize_position raw)
  /\ ~ In (normalize_position raw) ["UTL"; "INF"; "OF/IF"].
Proof.
  pose proof (normalize_position_canonical raw) as Hc.
  generalize dependent (normalize_position raw). intros code Hc.
  cbn in Hc.
  repeat (destruct Hc as [<-|Hc];
          [split; [eexists; reflexivity | cbn; intuition discriminate]|]).
  contradiction.
Qed.

Lemma normalize_position_ignores_case_and_blanks_witness :
  isascii "Rhp/Of" = true
  /\ normalize_position (lower "Rhp/Of") = normalize_position "Rhp/Of".
Proof.
  split; [reflexivity|].
  apply (proj2 (proj2 (normalize_position_ignores_case_and_blanks "Rhp/Of"))).
  reflexivity.
Defined.

End NormalizerFacts.

(* ===================================================================== *)
(** ** Further properties of [calculate_war] *)
(* ===================================================================== *)

Module CalculatorFacts.
Import Py Scraper Claimed Examples Observed WarCalculator.

Lemma finite_times_zero (x : float) :
  PrimFloat.is_finite x = true -> (x * 0)%float = 0%float \/ (x * 0)%float = (-0)%float.
Proof.
  intros Hfin.
  assert (Hz : exists s, Prim2SF (x * 0) = S754_zero s).
  { rewrite mul_spec. change (Prim2SF 0) with (S754_zero false).
    unfold PrimFloat.is_finite, PrimFloat.is_nan, PrimFloat.is_infinity in Hfin.
    rewrite !FloatAxioms.eqb_spec, abs_spec in Hfin.
    change (Prim2SF infinity) with (S754_infinity false) in Hfin.
    destruct (Prim2SF x) as [s|s| |s m e]; cbn in Hfin; try discriminate.
    - exists (xorb s false). reflexivity.
    - destruct s; discriminate.
    - exists (xorb s false). reflexivity. }
  destruct Hz as [[] Hs]; [right | left]; apply Prim2SF_inj; rewrite Hs; reflexivity.
Qed.

Lemma unbounded_times_zero (x : float) :
  PrimFloat.is_finite x = false -> (x * 0)%float = nan.
Proof.
  intros Hfin. apply Prim2SF_inj. rewrite mul_spec.
  change (Prim2SF 0) with (S754_zero false). change (Prim2SF nan) with S754_nan.
  unfold PrimFloat.is_finite, PrimFloat.is_nan, PrimFloat.is_infinity in Hfin.
  rewrite !FloatAxioms.eqb_spec, abs_spec in Hfin.
  change (Prim2SF infinity) with (S754_infinity false) in Hfin.
  destruct (Prim2SF x) as [s|s| |s m e] eqn:E; try reflexivity; exfalso.
  - destruct s; discriminate.
  - cbn in Hfin. rewrite Pos.compare_refl, Z.compare_refl in Hfin.
    destruct s; cbn in Hfin; rewrite ?Pos.compare_refl in Hfin; discriminate.
Qed.

Lemma position_runs_without_appearances (position : pyval) :
  exists a,
    (py_mul (of_num (position_adjustment position)) (VInt 0)
       ≫= fun adjusted => py_truediv adjusted (VInt 600)) = Ok (VFloat a)
    /\ (a = 0%float \/ a = (-0)%float).
Proof.
  unfold position_adjustment. destruct position as [| | | |code];
    try (exists 0%float; split; [reflexivity | now left]).
  repeat (match goal with |- context [String.eqb code ?k] =>
            destruct (String.eqb code k) end;
          [eexists; split; [vm_compute; reflexivity | tauto] |]).
  exists 0%float; split; [reflexivity | now left].
Qed.

Section Facts.
Context `{builtins : Builtins}.

Lemma dict_get_or_insert_ne (d : gmap string pyval) k k' v dflt :
  k <> k' -> dict_get_or (<[k := v]> d) k' dflt = dict_get_or d k' dflt.
Proof. intros Hne. unfold dict_get_or. now rewrite lookup_insert_ne. Qed.

Ltac other_key :=
  match goal with
  | H : ~ In _ _ |- _ <> _ => intros ->; apply H; cbn; tauto
  | H : In _ _ |- _ <> _ => intros ->; cbn in H; intuition discriminate
  end.

(** X4. [calculate_war] reads the position and the statistics of the
    player's own family only: changing any other key of the record, a
    batting statistic of a pitcher or a pitching statistic of a position
    player, changes neither the value nor the error of the call. *)
Theorem calculate_war_reads_its_family_only
    (player_data : gmap string pyval) (k : string) (v : pyval) :
  (~ In k war_inputs ->
   calculate_war (<[k := v]> player_data) = calculate_war player_data)
  /\ (in_pitcher_family (dict_get player_data "position") = true ->
      In k batting_inputs ->
      calculate_war (<[k := v]> player_data) = calculate_war player_data)
  /\ (in_pitcher_family (dict_get player_data "position") = false ->
      In k pitching_inputs ->
      calculate_war (<[k := v]> player_data) = calculate_war player_data).
Proof.
  split; [|split].
  - intros Hk. unfold calculate_war.
    rewrite !dict_get_insert_ne, !dict_get_or_insert_ne by other_key. reflexivity.
  - intros Hp Hk. unfold calculate_war.
    rewrite (dict_get_insert_ne player_data k "position") by other_key.
    rewrite Hp. cbv zeta.
    rewrite !dict_get_insert_ne, !dict_get_or_insert_ne by other_key. reflexivity.
  - intros Hp Hk. unfold calculate_war.
    rewrite (dict_get_insert_ne player_data k "position") by other_key.
    rewrite Hp. cbv zeta.
    rewrite !dict_get_insert_ne, !dict_get_or_insert_ne by other_key. reflexivity.
Qed.

(** X5. A statistic that the scraper left as raw text makes the
    calculator raise [TypeError]: on-base percentage as text for a
    position player with the other two required statistics present,
    earned-run average as text for a pitcher with positive innings. *)
Theorem raw_text_in_required_field_raises (player_data : gmap string pyval) (text : string) :
  (in_pitcher_family (dict_get player_data "position") = false ->
   player_data !! "batting_OBP" = Some (VStr text) ->
   is_none (dict_get player_data "batting_SLG") = false ->
   is_none (dict_get player_data "batting_AB") = false ->
   calculate_war player_data = Raise TypeError)
  /\ (forall ip : pyval,
        in_pitcher_family (dict_get player_data "position") = true ->
        player_data !! "pitching_ERA" = Some (VStr text) ->
        innings_value (dict_get_or player_data "pitching_IP" (VInt 0)) = Ok ip ->
        py_gt0 ip = Ok true ->
        calculate_war player_data = Raise TypeError).
Proof.
  split.
  - intros Hp Ho Hs Ha. unfold calculate_war. rewrite Hp. cbv zeta.
    assert (Hobp : dict_get player_data "batting_OBP" = VStr text)
      by (unfold dict_get; now rewrite Ho).
    rewrite Hs, Ha, Hobp. reflexivity.
  - intros ip Hp He Hip Hgt. unfold calculate_war. rewrite Hp. cbv zeta.
    assert (Hera : dict_get_or player_data "pitching_ERA" VNone = VStr text)
      by (unfold dict_get_or; now rewrite He).
    rewrite Hip, Hera. cbn [mbind result_bind is_none]. rewrite Hgt. reflexivity.
Qed.

Lemma to_float_overflow n : arith_error_only (to_float n).
Proof.
  destruct n as [z|f]; cbn; [|exact I]. unfold float_of_int.
  destruct (PrimFloat.is_infinity _); cbn; auto.
Qed.

Lemma float_op_errors (op : float -> float -> float) a b :
  arith_error_only (x ← to_float a; y ← to_float b; Ok (NFloat (op x y))).
Proof.
  pose proof (to_float_overflow a) as Ha. pose proof (to_float_overflow b) as Hb.
  destruct (to_float a); cbn in *; [|exact Ha].
  destruct (to_float b); cbn in *; [exact I | exact Hb].
Qed.

Lemma num_add_errors a b : arith_error_only (num_add a b).
Proof. destruct a, b; try exact I; apply (float_op_errors PrimFloat.add). Qed.

Lemma num_sub_errors a b : arith_error_only (num_sub a b).
Proof. destruct a, b; try exact I; apply (float_op_errors PrimFloat.sub). Qed.

Lemma num_mul_errors a b : arith_error_only (num_mul a b).
Proof. destruct a, b; try exact I; apply (float_op_errors PrimFloat.mul). Qed.

Lemma fmap_errors {A B} (g : A -> B) (m : result A) :
  arith_error_only m -> arith_error_only (g <$> m).
Proof. now destruct m. Qed.

Lemma py_add_errors a b : arith_error_only (py_add a b).
Proof.
  unfold py_add. destruct (as_num a), (as_num b);
    try (apply fmap_errors, num_add_errors); destruct a, b; cbn; auto.
Qed.

Lemma py_sub_errors a b : arith_error_only (py_sub a b).
Proof.
  unfold py_sub. destruct (as_num a), (as_num b);
    try (apply fmap_errors, num_sub_errors); cbn; auto.
Qed.

Lemma py_mul_errors a b : arith_error_only (py_mul a b).
Proof.
  unfold py_mul. destruct (as_num a) as [[]|], (as_num b) as [[]|];
    try (apply fmap_errors, num_mul_errors); destruct a, b; cbn; auto.
Qed.

Lemma int_true_div_errors z c : c <> 0 -> arith_error_only (int_true_div z c).
Proof.
  intros Hc. unfold int_true_div. destruct (Z.eqb_spec c 0); [contradiction|].
  destruct (z =? 0); [exact I|]. destruct (PrimFloat.is_infinity _); cbn; auto.
Qed.

Lemma num_truediv_divisor x y :
  y = NInt 9 \/ y = NInt 100 \/ y = NInt 600 \/ y = NFloat 10 ->
  arith_error_only (num_truediv x y).
Proof.
  intros [->|[->|[->| ->]]]; destruct x as [z|f].
  - apply (fmap_errors NFloat), int_true_div_errors. lia.
  - exact I.
  - apply (fmap_errors NFloat), int_true_div_errors. lia.
  - exact I.
  - apply (fmap_errors NFloat), int_true_div_errors. lia.
  - exact I.
  - pose proof (to_float_overflow (NInt z)) as Hz. cbn [to_float] in Hz.
    cbn [num_truediv to_float]. destruct (float_of_int z); [exact I | exact Hz].
  - exact I.
Qed.

Lemma py_truediv_divisor a b :
  war_divisor b -> float_or_arith_error (py_truediv a b).
Proof.
  intros Hb. unfold py_truediv.
  destruct (as_num a) as [x|] eqn:Ha; [|destruct Hb as [->|[->|[->| ->]]]; cbn; auto].
  assert (Hy : exists y, as_num b = Some y
                         /\ (y = NInt 9 \/ y = NInt 100 \/ y = NInt 600 \/ y = NFloat 10)).
  { destruct Hb as [->|[->|[->| ->]]]; eexists; (split; [reflexivity|]); tauto. }
  destruct Hy as [y [-> Hy]].
  pose proof (num_truediv_divisor x y Hy) as Herr.
  destruct (num_truediv x y) as [r|e] eqn:E; cbn; [|exact Herr].
  apply truediv_is_float in E as [f ->]. eauto.
Qed.

Lemma innings_value_returns ip : exists v, innings_value ip = Ok v.
Proof.
  destruct ip; cbn; eauto. unfold py_float. destruct (float_of_text s); eauto.
Qed.

Ltac run_step L :=
  lazymatch goal with
  | |- float_or_arith_error (?m ≫= _) =>
      let H := fresh "Hstep" in
      pose proof L as H; destruct m eqn:?; cbn [mbind result_bind] in *; [|exact H]
  end.

Lemma calculate_war_outcome (player_data : gmap string pyval) :
  float_or_arith_error (calculate_war player_data).
Proof.
  unfold calculate_war. cbv zeta.
  destruct (in_pitcher_family _).
  - destruct (innings_value_returns (dict_get_or player_data "pitching_IP" (VInt 0)))
      as [ip ->]. cbn [mbind result_bind].
    assert (Htest : arith_error_only
                      (if is_none (dict_get_or player_data "pitching_ERA" VNone)
                       then Ok false else py_gt0 ip)).
    { destruct (is_none _); [exact I|]. destruct ip; cbn; auto. }
    destruct (if is_none _ then _ else _) as [[]|e]; cbn [mbind result_bind];
      [|cbn; eauto|exact Htest].
    run_step (py_sub_errors (VFloat 4) (dict_get_or player_data "pitching_ERA" VNone)).
    run_step (py_truediv_divisor ip (VInt 9) ltac:(unfold war_divisor; auto)).
    run_step (py_mul_errors a a0).
    pose proof (py_truediv_divisor a1 (VFloat 10) ltac:(unfold war_divisor; auto)) as Hq.
    destruct (py_truediv a1 (VFloat 10)) as [q|e]; cbn [mbind result_bind]; [|exact Hq].
    destruct Hq as [f ->]. destruct (_ && _); cbn; eauto.
  - destruct (_ && _); [|cbn; eauto].
    run_step (py_mul_errors (dict_get player_data "batting_OBP") (VFloat 1.75)).
    run_step (py_mul_errors (dict_get player_data "batting_SLG") (VFloat 0.7)).
    run_step (py_add_errors a a0).
    run_step (py_add_errors (dict_get player_data "batting_AB")
                (dict_get_or player_data "batting_BB" (VInt 0))).
    run_step (py_add_errors a2 (dict_get_or player_data "batting_HBP" (VInt 0))).
    run_step (py_sub_errors a1 (VFloat 0.32)).
    run_step (py_mul_errors a4 (VFloat 1.2)).
    run_step (py_mul_errors a5 a3).
    pose proof (py_truediv_divisor a6 (VInt 100) ltac:(unfold war_divisor; auto)) as Ho.
    destruct (py_truediv a6 (VInt 100)) as [o|e]; cbn [mbind result_bind]; [|exact Ho].
    destruct Ho as [off ->].
    run_step (py_mul_errors (adjustment_of (dict_get player_data "position")) a3).
    pose proof (py_truediv_divisor a7 (VInt 600) ltac:(unfold war_divisor; auto)) as Hr.
    destruct (py_truediv a7 (VInt 600)) as [pr|e]; cbn [mbind result_bind]; [|exact Hr].
    destruct Hr as [runs ->]. cbn [py_add as_num num_add to_float mbind result_bind fmap result_fmap of_num].
    change (py_truediv (VFloat (off + runs)) (VFloat 10))
      with (Ok (VFloat ((off + runs) / 10)) : result pyval).
    cbn [mbind result_bind].
    destruct (eq_str _ "C"); [cbn; eauto|].
    destruct (_ || _); cbn; eauto.
Qed.

(** X6. Whatever the record holds, [calculate_war] returns a float or
    raises [TypeError] or [OverflowError]: it never returns [None] or an
    integer and never raises [KeyError] or [ZeroDivisionError]. *)
Theorem calculate_war_float_or_arith_error (player_data : gmap string pyval) :
  (forall v, calculate_war player_data = Ok v -> exists f, v = VFloat f)
  /\ (forall e, calculate_war player_data = Raise e -> e = TypeError \/ e = OverflowError).
Proof.
  pose proof (calculate_war_outcome player_data) as H.
  split; intros x Hrun; rewrite Hrun in H; exact H.
Qed.

(** X7. A position player without a plate appearance (no at-bat, and
    no walk or hit-by-pitch recorded) gets exactly the flat bonus of
    the position (0.5 for a catcher, 0.3 for a shortstop or second
    baseman, 0.0 otherwise) whenever the offensive term
    (obp * 1.75 + slg * 0.7 - 0.32) * 1.2 is a finite float; when
    the term overflows or is NaN the result is NaN. *)
Theorem no_plate_appearances_leaves_the_bonus
    (player_data : gmap string pyval) (obp slg : float) :
  let position := dict_get player_data "position" in
  in_pitcher_family position = false ->
  player_data !! "batting_OBP" = Some (VFloat obp) ->
  player_data !! "batting_SLG" = Some (VFloat slg) ->
  player_data !! "batting_AB" = Some (VInt 0) ->
  player_data !! "batting_BB" = None ->
  player_data !! "batting_HBP" = None ->
  calculate_war player_data
  = Ok (VFloat (if PrimFloat.is_finite ((obp * 1.75 + slg * 0.7 - 0.32) * 1.2)
                then if eq_str position "C" then 0.5
                     else if eq_str position "SS" || eq_str position "2B" then 0.3
                     else 0
                else nan)).
Proof.
  intros position Hp Ho Hs Ha Hb Hh. subst position.
  unfold calculate_war. rewrite Hp. cbv zeta.
  rewrite adjustment_of_table.
  unfold dict_get_or. rewrite Hb, Hh.
  assert (E1 : dict_get player_data "batting_OBP" = VFloat obp) by (unfold dict_get; now rewrite Ho).
  assert (E2 : dict_get player_data "batting_SLG" = VFloat slg) by (unfold dict_get; now rewrite Hs).
  assert (E3 : dict_get player_data "batting_AB" = VInt 0) by (unfold dict_get; now rewrite Ha).
  rewrite E1, E2, E3.
  generalize dependent (dict_get player_data "position"). intros position Hp.
  cbn [is_none negb andb default from_option id].
  norm. change (0 + 0 + 0) with 0.
  change (float_of_int 0) with (Ok 0%float : result float). norm.
  destruct (position_runs_without_appearances position) as [a [Ea Ha0]].
  destruct (py_mul (of_num (position_adjustment position)) (VInt 0)) as [adjusted|e];
    [|discriminate].
  cbn [mbind result_bind] in Ea |- *. rewrite Ea. cbn [mbind result_bind].
  destruct (PrimFloat.is_finite _) eqn:Hfin.
  - destruct (finite_times_zero _ Hfin) as [-> | ->], Ha0 as [-> | ->];
      destruct (eq_str position "C"), (eq_str position "SS" || eq_str position "2B");
      reflexivity.
  - rewrite (unbounded_times_zero _ Hfin).
    destruct Ha0 as [-> | ->];
      destruct (eq_str position "C"), (eq_str position "SS" || eq_str position "2B");
      reflexivity.
Qed.

End Facts.

Lemma calculate_war_reads_its_family_only_witness :
  @calculate_war ascii_builtins (<["name" := VStr "A"]> ss_player)
  = @calculate_war ascii_builtins ss_player
  /\ @calculate_war ascii_builtins (<["batting_OBP" := VStr "-"]> sp_player)
     = @calculate_war ascii_builtins sp_player
  /\ @calculate_war ascii_builtins (<["pitching_ERA" := VStr "-"]> ss_player)
     = @calculate_war ascii_builtins ss_player.
Proof.
  split; [|split].
  - apply (proj1 (@calculate_war_reads_its_family_only ascii_builtins
                      ss_player "name" (VStr "A"))).
    cbn. intuition discriminate.
  - apply (proj1 (proj2 (@calculate_war_reads_its_family_only ascii_builtins
                           sp_player "batting_OBP" (VStr "-"))));
      [vm_compute; reflexivity | cbn; tauto].
  - apply (proj2 (proj2 (@calculate_war_reads_its_family_only ascii_builtins
                           ss_player "pitching_ERA" (VStr "-"))));
      [vm_compute; reflexivity | cbn; tauto].
Defined.

Lemma raw_text_in_required_field_raises_witness :
  @calculate_war ascii_builtins (<["batting_OBP" := VStr "-"]> ss_player) = Raise TypeError
  /\ @calculate_war ascii_builtins (<["pitching_ERA" := VStr "-"]> sp_player) = Raise TypeError.
Proof.
  split.
  - apply (proj1 (@raw_text_in_required_field_raises ascii_builtins
                      (<["batting_OBP" := VStr "-"]> ss_player) "-"));
      vm_compute; reflexivity.
  - apply (proj2 (@raw_text_in_required_field_raises ascii_builtins
             (<["pitching_ERA" := VStr "-"]> sp_player) "-")
             (VInt 50)); vm_compute; reflexivity.
Defined.

Lemma calculate_war_float_or_arith_error_witness :
  (exists f, VFloat 0.5 = VFloat f)
  /\ (TypeError = TypeError \/ TypeError = OverflowError).
Proof.
  split.
  - apply (proj1 (@calculate_war_float_or_arith_error ascii_builtins idle_catcher)).
    vm_compute. reflexivity.
  - apply (proj2 (@calculate_war_float_or_arith_error ascii_builtins
                    (<["batting_OBP" := VStr "-"]> ss_player))).
    vm_compute. reflexivity.
Defined.

Lemma no_plate_appearances_leaves_the_bonus_witness :
  @calculate_war ascii_builtins idle_catcher = Ok (VFloat 0.5)
  /\ @calculate_war ascii_builtins (<["batting_OBP" := VFloat 1e308]> idle_catcher)
     = Ok (VFloat nan).
Proof.
  split.
  - refine (eq_trans (@no_plate_appearances_leaves_the_bonus ascii_builtins
                        idle_catcher 0.4%float 0.5%float _ _ _ _ _ _) _);
      vm_compute; reflexivity.
  - refine (eq_trans (@no_plate_appearances_leaves_the_bonus ascii_builtins
                        (<["batting_OBP" := VFloat 1e308]> idle_catcher)
                        1e308%float 0.5%float _ _ _ _ _ _) _);
      vm_compute; reflexivity.
Defined.

End CalculatorFacts.

(* ===================================================================== *)
(** ** Further properties of [get_player_hometown] *)
(* ===================================================================== *)

Module EnrichmentFacts.
Import Py PyStr Scraper Claimed Examples Observed.
Import PyStrFacts NormalizerFacts Pipeline.



Lemma comma_not_space : is_space "," = false.
Proof. reflexivity. Qed.

Lemma has_comma_strip s : has_char "," (strip s) = has_char "," s.
Proof.
  unfold strip.
  now rewrite (has_char_rstrip "," comma_not_space), (has_char_lstrip "," comma_not_space).
Qed.

Lemma lookup_other_4 (d : gmap string pyval) k k1 v1 :
  k1 <> k -> (<[k1 := v1]> d) !! k = d !! k.
Proof. intros. now rewrite lookup_insert_ne. Qed.

Section Facts.
Context `{builtins : Builtins} `{web : Web}.

Lemma hometown_state_errors labels e :
  extract_hometown_state labels = Raise e -> e = AttributeError.
Proof.
  induction labels as [|[text next_span] rest IH]; cbn [extract_hometown_state];
    [discriminate|].
  destruct (String.eqb (strip text) "Hometown"); [|exact IH].
  destruct next_span as [span_text|]; [|congruence].
  destruct (has_char "," (strip span_text)); [discriminate | exact IH].
Qed.

Ltac look :=
  repeat first [rewrite lookup_insert_eq | rewrite lookup_insert_ne by discriminate];
  try reflexivity.

Ltac other_keys :=
  let k := fresh "k" in let Hk := fresh "Hk" in
  intros k Hk;
  rewrite ?lookup_insert_ne by (intros <-; apply Hk; cbn; tauto);
  try reflexivity.

Lemma california_default_enriched (d : gmap string pyval) :
  enriched_from d (Ok (california_default d)).
Proof.
  unfold california_default. split; [|split].
  - exists "California". split; [|split]; look.
  - other_keys.
  - left. look.
Qed.

Lemma eq_str_true v s : eq_str v s = true -> v = VStr s.
Proof. destruct v; cbn; try discriminate. now intros ->%String.eqb_eq. Qed.

(** The steps after the page has been read, from the record [d1]. *)
Lemma enrichment_tail (d d1 : gmap string pyval) soup :
  (forall k, ~ In k ["hometown"; "state"] -> d1 !! k = d !! k) ->
  enriched_from d
    (position ← dict_item d1 "position";
     let player_data :=
       if eq_str position "Unknown" then
         match page_position_elem soup with
         | Some text =>
             <["position" := VStr (normalize_position (PyStr.strip text))]> d1
         | None => d1
         end
       else d1 in
     if truthy (dict_get player_data "state") then
       state ← dict_item player_data "state";
       match state with
       | VStr state =>
           Ok (<["is_in_state" := VBool (is_california_state state)]> player_data)
       | _ => Raise AttributeError
       end
     else
       Ok (<["state" := VStr "California"]>
             (<["is_in_state" := VBool true]> player_data))).
Proof.
  intros Hd1.
  assert (Hpos : d1 !! "position" = d !! "position")
    by (apply Hd1; cbn; intuition discriminate).
  unfold dict_item. rewrite Hpos.
  destruct (d !! "position") as [position|] eqn:Ep; cbn [mbind result_bind];
    [|right; auto].
  cbv zeta.
  set (d2 := if eq_str position "Unknown" then _ else d1).
  assert (Hd2 : (forall k, ~ In k enrichment_keys -> d2 !! k = d !! k)
                /\ d2 !! "state" = d1 !! "state"
                /\ (d2 !! "position" = Some position
                    \/ (position = VStr "Unknown"
                        /\ exists text,
                             d2 !! "position"
                             = Some (VStr (normalize_position (strip text)))))).
  { subst d2. destruct (eq_str position "Unknown") eqn:Eu.
    - apply eq_str_true in Eu as ->. destruct (page_position_elem soup) as [text|].
      + split; [|split].
        * intros k Hk. rewrite lookup_insert_ne by (intros <-; apply Hk; cbn; tauto).
          apply Hd1. cbn in *. tauto.
        * look.
        * right. split; [reflexivity|]. exists text. look.
      + split; [|split]; [| reflexivity | left; congruence].
        intros k Hk. apply Hd1. cbn in *. tauto.
    - split; [|split]; [| reflexivity | left; congruence].
      intros k Hk. apply Hd1. cbn in *. tauto. }
  clearbody d2. destruct Hd2 as (Hframe & Hstate & Hposition).
  unfold dict_get.
  destruct (d2 !! "state") as [state|] eqn:Es; cbn [default from_option id truthy].
  - destruct (truthy state) eqn:Et; cbn [mbind result_bind].
    + destruct state as [| | | |state]; try (left; reflexivity).
      split; [|split].
      * exists state. split; [|split]; [| |look].
        -- rewrite lookup_insert_ne by discriminate. exact Es.
        -- cbn in Et. now destruct (is_empty state).
      * intros k Hk. rewrite lookup_insert_ne by (intros <-; apply Hk; cbn; tauto).
        now apply Hframe.
      * rewrite lookup_insert_ne by discriminate.
        destruct Hposition as [Hq|[-> Hn]];
          [left; congruence | right; split; [exact Ep | exact Hn]].
    + split; [|split].
      * exists "California". split; [|split]; look.
      * intros k Hk. rewrite !lookup_insert_ne by (intros <-; apply Hk; cbn; tauto).
        now apply Hframe.
      * rewrite !lookup_insert_ne by discriminate.
        destruct Hposition as [Hq|[-> Hn]];
          [left; congruence | right; split; [exact Ep | exact Hn]].
  - split; [|split].
    * exists "California". split; [|split]; look.
    * intros k Hk. rewrite !lookup_insert_ne by (intros <-; apply Hk; cbn; tauto).
      now apply Hframe.
    * rewrite !lookup_insert_ne by discriminate.
      destruct Hposition as [Hq|[-> Hn]];
          [left; congruence | right; split; [exact Ep | exact Hn]].
Qed.

Lemma get_player_hometown_enriched (d : gmap string pyval) :
  enriched_from d (get_player_hometown d).
Proof.
  unfold get_player_hometown. cbv zeta.
  destruct (negb (truthy (dict_get d "bio_url"))); [apply california_default_enriched|].
  destruct (self_get_page (dict_get d "bio_url")) as [html_content|];
    [|apply california_default_enriched].
  destruct (is_empty html_content); [apply california_default_enriched|].
  destruct (negb (is_empty (page_text (bio_page html_content)))).
  - destruct (extract_hometown_state (page_field_labels (bio_page html_content)))
      as [[hometown state]|e] eqn:Eh; cbn [mbind result_bind].
    + apply enrichment_tail. intros k Hk.
      rewrite !lookup_insert_ne by (intros <-; apply Hk; cbn; tauto). reflexivity.
    + left. now apply hometown_state_errors in Eh.
  - cbn [mbind result_bind]. apply enrichment_tail. reflexivity.
Qed.


(** X9. Whenever [get_player_hometown] returns, the record holds a
    state that is a non-empty text and the flag [is_in_state] is
    [is_california_state] of that very state, also on the paths that
    fall back to California. *)
Theorem get_player_hometown_flag_follows_state (player_data enriched : gmap string pyval) :
  get_player_hometown player_data = Ok enriched ->
  exists state,
    enriched !! "state" = Some (VStr state)
    /\ is_empty state = false
    /\ enriched !! "is_in_state" = Some (VBool (is_california_state state)).
Proof.
  intros Hrun. pose proof (get_player_hometown_enriched player_data) as H.
  rewrite Hrun in H. apply H.
Qed.

(** X10. [get_player_hometown] changes at most the keys hometown, state,
    is_in_state and position; the position is replaced only when it was
    Unknown, and then by a normalised label. *)
Theorem get_player_hometown_changes_four_keys (player_data enriched : gmap string pyval) :
  get_player_hometown player_data = Ok enriched ->
  (forall k, ~ In k enrichment_keys -> enriched !! k = player_data !! k)
  /\ (enriched !! "position" = player_data !! "position"
      \/ (player_data !! "position" = Some (VStr "Unknown")
          /\ exists text,
               enriched !! "position" = Some (VStr (normalize_position (strip text))))).
Proof.
  intros Hrun. pose proof (get_player_hometown_enriched player_data) as H.
  rewrite Hrun in H. apply H.
Qed.

(** X11. [get_player_hometown] raises only [AttributeError], or
    [KeyError] for a record without a position; on a record produced by
    [get_player_data] it can raise [AttributeError] only. *)
Theorem get_player_hometown_raises_attribute_error (player_data : gmap string pyval) (e : exn) :
  get_player_hometown player_data = Raise e ->
  (e = AttributeError \/ (e = KeyError "position" /\ player_data !! "position" = None))
  /\ (forall year : Z, In player_data (get_player_data year) -> e = AttributeError).
Proof.
  intros Hrun. pose proof (get_player_hometown_enriched player_data) as H.
  rewrite Hrun in H. split; [exact H|].
  intros year Hin. apply get_player_data_records in Hin as [[v Hv] _].
  destruct H as [|[_ Hnone]]; congruence.
Qed.

End Facts.


Lemma get_player_hometown_flag_follows_state_witness :
  get_player_hometown (web := example_site) roe_player = Ok (california_default roe_player)
  /\ exists state,
       california_default roe_player !! "state" = Some (VStr state)
       /\ is_empty state = false
       /\ california_default roe_player !! "is_in_state"
          = Some (VBool (is_california_state state)).
Proof.
  assert (E : get_player_hometown (web := example_site) roe_player
              = Ok (california_default roe_player)) by reflexivity.
  split; [exact E|].
  exact (get_player_hometown_flag_follows_state (web := example_site)
           roe_player (california_default roe_player) E).
Defined.

Lemma get_player_hometown_changes_four_keys_witness :
  get_player_hometown (web := example_site) roe_player = Ok (california_default roe_player)
  /\ (forall k, ~ In k enrichment_keys -> california_default roe_player !! k = roe_player !! k)
  /\ (california_default roe_player !! "position" = roe_player !! "position"
      \/ (roe_player !! "position" = Some (VStr "Unknown")
          /\ exists text,
               california_default roe_player !! "position"
               = Some (VStr (normalize_position (strip text))))).
Proof.
  assert (E : get_player_hometown (web := example_site) roe_player
              = Ok (california_default roe_player)) by reflexivity.
  split; [exact E|].
  exact (get_player_hometown_changes_four_keys (web := example_site)
           roe_player (california_default roe_player) E).
Defined.

Lemma get_player_hometown_raises_attribute_error_witness :
  get_player_hometown (web := spanless_site) roe_player
  = Raise AttributeError
  /\ (AttributeError = AttributeError
      \/ (AttributeError = KeyError "position" /\ roe_player !! "position" = None)).
Proof.
  assert (E : get_player_hometown (web := spanless_site) roe_player
              = Raise AttributeError) by (vm_compute; reflexivity).
  split; [exact E|].
  exact (proj1 (get_player_hometown_raises_attribute_error (builtins := ascii_builtins)
                  (web := spanless_site) roe_player AttributeError E)).
Defined.

End EnrichmentFacts.

(* ===================================================================== *)
(** ** Further properties of [get_player_data] *)
(* ===================================================================== *)

Module ExtractionFacts.
Import Py PyStr Scraper Claimed Examples Observed.
Import PyStrFacts Pipeline.

Section Facts.
Context `{builtins : Builtins} `{web : Web}.

Lemma store_converted_returns {A} (conv : string -> result A) inj k value
    (d : gmap string pyval) :
  (forall e, conv value = Raise e -> e = ValueError) ->
  exists d', store_converted conv inj k value d = Ok d'.
Proof.
  intros Hconv. unfold store_converted.
  destruct (conv value) as [a|e] eqn:E; [eauto|].
  rewrite (Hconv e eq_refl). eauto.
Qed.

Lemma py_int_errors value e : py_int value = Raise e -> e = ValueError.
Proof. unfold py_int. destruct (int_of_text value); congruence. Qed.

Lemma py_float_errors value e : py_float value = Raise e -> e = ValueError.
Proof. unfold py_float. destruct (float_of_text value); congruence. Qed.

Lemma store_stolen_bases_returns k value (d : gmap string pyval) :
  exists d', store_stolen_bases k value d = Ok d'.
Proof.
  unfold store_stolen_bases, py_int.
  destruct (split "-" value) as [|first [|second [|]]]; eauto.
  destruct (int_of_text first); eauto. destruct (int_of_text second); eauto.
Qed.

Lemma extract_metric_returns row entry (d : gmap string pyval) :
  exists d', extract_metric row entry d = Ok d'.
Proof.
  destruct entry as [metric_key info]. unfold extract_metric.
  destruct (find_cell _ _) as [text|]; [|eauto].
  destruct (_ && _); [apply store_stolen_bases_returns|].
  destruct (str_in metric_key rate_stats);
    [apply store_converted_returns, py_float_errors|].
  destruct (str_in metric_key count_stats);
    [apply store_converted_returns, py_int_errors | eauto].
Qed.

Lemma extract_metrics_returns row entries (d : gmap string pyval) :
  exists d', extract_metrics row entries d = Ok d'.
Proof.
  revert d. induction entries as [|entry rest IH]; intros d; cbn [extract_metrics]; [eauto|].
  destruct (extract_metric_returns row entry d) as [d1 ->]. cbn [mbind result_bind]. apply IH.
Qed.

Lemma extract_metrics_app row pre post (d : gmap string pyval) :
  extract_metrics row (pre ++ post) d
  = (d1 ← extract_metrics row pre d; extract_metrics row post d1).
Proof.
  revert d. induction pre as [|entry pre IH]; intros d; cbn [app extract_metrics]; [reflexivity|].
  destruct (extract_metric row entry d) as [d1|e]; cbn [mbind result_bind]; [apply IH | reflexivity].
Qed.

(** A statistic other than SB writes its own key only. *)
Lemma extract_metric_plain row entry (d d' : gmap string pyval) k' :
  extract_metric row entry d = Ok d' ->
  fst entry <> "SB" -> key (snd entry) <> k' -> d' !! k' = d !! k'.
Proof.
  destruct entry as [metric_key info]. unfold extract_metric. cbn [fst snd].
  intros Hs Hsb Hne.
  destruct (find_cell (data_label info) (row_cells row)) as [text|];
    [|inversion Hs; subst; reflexivity].
  destruct (String.eqb_spec metric_key "SB") as [|_]; [contradiction|].
  cbn [andb] in Hs.
  destruct (str_in metric_key rate_stats).
  { eapply store_converted_lookup; eauto. }
  destruct (str_in metric_key count_stats).
  { eapply store_converted_lookup; eauto. }
  inversion Hs; subst. now rewrite lookup_insert_ne.
Qed.

Lemma extract_metrics_plain row entries (d d' : gmap string pyval) k' :
  extract_metrics row entries d = Ok d' ->
  Forall (fun entry => fst entry <> "SB" /\ key (snd entry) <> k') entries ->
  d' !! k' = d !! k'.
Proof.
  intros Hs Hall. revert d Hs.
  induction Hall as [|entry rest [Hsb Hk] Hrest IH]; intros d Hs.
  - inversion Hs. reflexivity.
  - cbn [extract_metrics mbind result_bind] in Hs.
    destruct (extract_metric row entry d) as [d1|e] eqn:E; [|discriminate].
    cbn in Hs. rewrite (IH _ Hs). eapply extract_metric_plain; eauto.
Qed.

Lemma store_converted_own {A} (conv : string -> result A) inj k value
    (d d' : gmap string pyval) :
  store_converted conv inj k value d = Ok d' ->
  d' !! k = Some (match conv value with Ok a => inj a | Raise _ => VStr value end).
Proof.
  unfold store_converted.
  destruct (conv value) as [a|[]]; intros [= <-]; now rewrite lookup_insert_eq.
Qed.

Lemma extract_metric_own row metric_key info (d d' : gmap string pyval) :
  extract_metric row (metric_key, info) d = Ok d' ->
  metric_key <> "SB" ->
  d' !! key info
  = match find_cell (data_label info) (row_cells row) with
    | Some text => Some (converted_cell metric_key (strip text))
    | None => d !! key info
    end.
Proof.
  unfold extract_metric, converted_cell. intros Hs Hsb.
  destruct (find_cell (data_label info) (row_cells row)) as [text|];
    [|inversion Hs; subst; reflexivity].
  destruct (String.eqb_spec metric_key "SB") as [|_]; [contradiction|].
  cbn [andb] in Hs.
  destruct (str_in metric_key rate_stats).
  { rewrite (store_converted_own _ _ _ _ _ _ Hs). unfold py_float.
    now destruct (float_of_text (strip text)). }
  destruct (str_in metric_key count_stats).
  { rewrite (store_converted_own _ _ _ _ _ _ Hs). unfold py_int.
    now destruct (int_of_text (strip text)). }
  inversion Hs; subst. now rewrite lookup_insert_eq.
Qed.

Lemma extract_metrics_own row entries metric_key info (d d' : gmap string pyval) :
  extract_metrics row entries d = Ok d' ->
  In (metric_key, info) entries ->
  NoDup (map (fun entry : string * MetricInfo => key (snd entry)) entries) ->
  metric_key <> "SB" ->
  ~ In (key info) stolen_base_keys ->
  d' !! key info
  = match find_cell (data_label info) (row_cells row) with
    | Some text => Some (converted_cell metric_key (strip text))
    | None => d !! key info
    end.
Proof.
  intros Hs Hin Hnd Hsb Hk. revert d Hs.
  induction entries as [|entry rest IH]; intros d Hs; [destruct Hin|].
  cbn [extract_metrics mbind result_bind] in Hs.
  destruct (extract_metric row entry d) as [d1|e] eqn:E; [|discriminate].
  cbn [mbind result_bind] in Hs.
  cbn [map] in Hnd. apply NoDup_cons in Hnd as [Hfresh Hnd].
  destruct Hin as [->|Hin].
  - rewrite (extract_metrics_lookup row rest d1 d' (key info) Hs).
    + now apply extract_metric_own.
    + apply List.Forall_forall. intros other Hother Heq. apply Hfresh.
      cbn [snd]. apply list_elem_of_In. rewrite <- Heq.
      exact (in_map (fun entry : string * MetricInfo => key (snd entry)) rest other Hother).
    + intros Heq. apply Hk. rewrite <- Heq. cbn. tauto.
    + intros Heq. apply Hk. rewrite <- Heq. cbn. tauto.
  - rewrite (IH Hin Hnd d1 Hs).
    destruct (find_cell (data_label info) (row_cells row)); [reflexivity|].
    eapply extract_metric_lookup; [exact E | | |].
    + intros Heq. apply Hfresh. apply list_elem_of_In. rewrite Heq.
      exact (in_map (fun entry : string * MetricInfo => key (snd entry)) rest
               (metric_key, info) Hin).
    + intros Heq. apply Hk. rewrite <- Heq. cbn. tauto.
    + intros Heq. apply Hk. rewrite <- Heq. cbn. tauto.
Qed.

Lemma metrics_keys_distinct :
  NoDup (map (fun entry : string * MetricInfo => key (snd entry)) metrics).
Proof. apply (bool_decide_unpack _). vm_compute. reflexivity. Qed.

Lemma metrics_keys_are_statistics :
  Forall (fun entry : string * MetricInfo =>
            key (snd entry) ∉ (identity_keys ++ stolen_base_keys)%list) metrics.
Proof. apply (bool_decide_unpack _). vm_compute. reflexivity. Qed.

Lemma metric_key_is_statistic metric_key info :
  In (metric_key, info) metrics ->
  ~ In (key info) identity_keys /\ ~ In (key info) stolen_base_keys.
Proof.
  intros Hin. pose proof metrics_keys_are_statistics as Hall.
  rewrite List.Forall_forall in Hall. specialize (Hall _ Hin). cbn [snd] in Hall.
  rewrite list_elem_of_In, in_app_iff in Hall. tauto.
Qed.

(** The record a row starts from (lines 81-90). *)
Lemma first_keys_lookup year row (d0 : gmap string pyval) k :
  read_identity row
    (match row_jersey row with
     | Some text => <["jersey" := VStr (strip text)]>
                      (<["is_in_state" := VBool false]>
                         (<["position" := VStr "Unknown"]> (<["year" := VInt year]> ∅)))
     | None => <["is_in_state" := VBool false]>
                 (<["position" := VStr "Unknown"]> (<["year" := VInt year]> ∅))
     end) = Ok d0 ->
  ~ In k identity_keys -> d0 !! k = None.
Proof.
  intros Hs Hk.
  rewrite (read_identity_lookup _ _ _ k Hs) by (intros <-; apply Hk; cbn; tauto).
  destruct (row_jersey row);
    rewrite !lookup_insert_ne by (intros <-; apply Hk; cbn; tauto); apply lookup_empty.
Qed.

(** X12. In a record built from a table row, every statistic other
    than SB is absent when the row has no cell with its label, and is
    otherwise the stripped text of the first such cell, converted: a
    float for a rate statistic, an int for a count statistic, and the
    text itself when the conversion fails or the statistic has no
    numeric type. *)
Theorem statistics_are_converted_cells year row (player_data : gmap string pyval)
    metric_key info :
  player_of_row year row = Ok player_data ->
  In (metric_key, info) metrics ->
  metric_key <> "SB" ->
  player_data !! key info
  = (fun text => converted_cell metric_key (strip text))
      <$> find_cell (data_label info) (row_cells row).
Proof.
  unfold player_of_row. cbv zeta. intros Hs Hin Hsb.
  destruct (read_identity row _) as [d0|e] eqn:E0; [|discriminate].
  cbn [mbind result_bind] in Hs.
  destruct (metric_key_is_statistic _ _ Hin) as [Hid Hst].
  rewrite (extract_metrics_own row metrics metric_key info d0 player_data Hs Hin
             metrics_keys_distinct Hsb Hst).
  destruct (find_cell (data_label info) (row_cells row)); [reflexivity|].
  exact (first_keys_lookup year row d0 (key info) E0 Hid).
Qed.

Lemma metrics_around_stolen_bases :
  metrics
  = (take 13 metrics
       ++ ("SB", {| data_label := "SB"; key := "batting_SB" |}) :: drop 14 metrics)%list.
Proof. vm_compute. reflexivity. Qed.

Lemma metrics_other_than_stolen_bases :
  Forall (fun entry : string * MetricInfo =>
            fst entry <> "SB"
            /\ key (snd entry) ∉ "batting_SB" :: stolen_base_keys)
    (take 13 metrics ++ drop 14 metrics)%list.
Proof. apply (bool_decide_unpack _). vm_compute. reflexivity. Qed.

Lemma stolen_base_key_untouched row entries (d d' : gmap string pyval) k :
  extract_metrics row entries d = Ok d' ->
  Forall (fun entry : string * MetricInfo =>
            fst entry <> "SB"
            /\ key (snd entry) ∉ "batting_SB" :: stolen_base_keys) entries ->
  In k ("batting_SB" :: stolen_base_keys) ->
  d' !! k = d !! k.
Proof.
  intros Hs Hall Hk. apply (extract_metrics_plain row entries d d' k Hs).
  eapply Forall_impl; [exact Hall|]. intros entry [Hsb Hnot]. split; [exact Hsb|].
  intros Heq. apply Hnot. rewrite Heq. now apply list_elem_of_In.
Qed.

(** X13. The stolen-base cell, when it holds a dash.  With exactly two
    parts the text is kept under batting_SB, the first part is stored
    as the successful steals when it is an integer, and the second as
    the attempts only when both are; with any other number of parts
    nothing is stored for the cell, not even its text. *)
Theorem stolen_base_cell_is_split year row (player_data : gmap string pyval) text :
  player_of_row year row = Ok player_data ->
  find_cell "SB" (row_cells row) = Some text ->
  has_char "-" (strip text) = true ->
  match split "-" (strip text) with
  | [first; second] =>
      player_data !! "batting_SB" = Some (VStr (strip text))
      /\ player_data !! "batting_SB_successful" = VInt <$> int_of_text first
      /\ player_data !! "batting_SB_attempted"
         = match int_of_text first with
           | Some _ => VInt <$> int_of_text second
           | None => None
           end
  | _ =>
      player_data !! "batting_SB" = None
      /\ player_data !! "batting_SB_successful" = None
      /\ player_data !! "batting_SB_attempted" = None
  end.
Proof.
  unfold player_of_row. cbv zeta. intros Hs Hcell Hdash.
  destruct (read_identity row _) as [d0|e] eqn:E0; [|discriminate].
  cbn [mbind result_bind] in Hs.
  rewrite metrics_around_stolen_bases, extract_metrics_app in Hs.
  destruct (extract_metrics row (take 13 metrics) d0) as [d1|e] eqn:E1; [|discriminate].
  cbn [mbind result_bind extract_metrics] in Hs.
  destruct (extract_metric row _ d1) as [d2|e] eqn:E2; [|discriminate].
  cbn [mbind result_bind] in Hs.
  pose proof metrics_other_than_stolen_bases as Hall.
  apply Forall_app in Hall as [Hpre Hpost].
  assert (Hstart : forall k, In k ("batting_SB" :: stolen_base_keys) -> d1 !! k = None).
  { intros k Hk. rewrite (stolen_base_key_untouched row _ d0 d1 k E1 Hpre Hk).
    apply (first_keys_lookup year row d0 k E0).
    cbn in Hk |- *. intuition (subst; discriminate). }
  assert (Hend : forall k, In k ("batting_SB" :: stolen_base_keys) ->
                           player_data !! k = d2 !! k).
  { intros k Hk. exact (stolen_base_key_untouched row _ d2 player_data k Hs Hpost Hk). }
  rewrite !Hend by (cbn; tauto).
  pose proof (Hstart "batting_SB" ltac:(cbn; tauto)) as H0.
  pose proof (Hstart "batting_SB_successful" ltac:(cbn; tauto)) as H1.
  pose proof (Hstart "batting_SB_attempted" ltac:(cbn; tauto)) as H2.
  unfold extract_metric in E2. cbn [data_label key] in E2.
  rewrite Hcell, Hdash in E2. cbn [String.eqb Ascii.eqb andb] in E2.
  change (("SB" =? "SB")%string) with true in E2. cbn [andb] in E2.
  unfold store_stolen_bases, py_int in E2.
  destruct (split "-" (strip text)) as [|first [|second [|]]];
    try (injection E2 as <-; auto).
  destruct (int_of_text first) as [a|]; [destruct (int_of_text second) as [b|]|];
    injection E2 as <-; cbn [fmap option_fmap option_map];
    repeat first [rewrite lookup_insert_eq | rewrite lookup_insert_ne by discriminate];
    auto.
Qed.

Lemma position_from_labels_errors labels (d : gmap string pyval) e :
  position_from_labels labels d = Raise e -> e = AttributeError.
Proof.
  induction labels as [|[text next_span] rest IH]; cbn [position_from_labels];
    [discriminate|].
  destruct (String.eqb (strip text) "Position"); [|exact IH].
  destruct next_span; [discriminate | congruence].
Qed.

(** X14. A row is dropped by [get_player_data] only because of its
    player link: every failing row has a name link, and fails with
    [KeyError] when no roster link stands beside it, with [TypeError]
    when the biography page cannot be fetched, or with [AttributeError]
    when a Position label has no following span.  Reading the
    statistics never drops a row, and a name link without a roster link
    always does. *)
Theorem row_is_dropped_by_its_link year row :
  (forall e, player_of_row year row = Raise e ->
     (exists text player_id, row_name_cell row = Some (Some (text, player_id)))
     /\ ((e = KeyError "bio_url" /\ row_bio_href row = None)
         \/ (e = TypeError /\ is_Some (row_bio_href row))
         \/ (e = AttributeError /\ is_Some (row_bio_href row))))
  /\ (forall text player_id,
        row_name_cell row = Some (Some (text, player_id)) ->
        row_bio_href row = None ->
        player_of_row year row = Raise (KeyError "bio_url")).
Proof.
  unfold player_of_row. cbv zeta.
  set (d0 := match row_jersey row with Some _ => _ | None => _ end).
  assert (Hd0 : d0 !! "bio_url" = None).
  { subst d0. destruct (row_jersey row);
      rewrite !lookup_insert_ne by discriminate; apply lookup_empty. }
  clearbody d0. split.
  - intros e Hs.
    destruct (read_identity row d0) as [d1|e1] eqn:E1; cbn [mbind result_bind] in Hs.
    { destruct (extract_metrics_returns row metrics d1) as [d' Hd']. congruence. }
    injection Hs as ->. unfold read_identity in E1.
    destruct (row_name_cell row) as [[[text player_id]|]|]; try discriminate.
    split; [eauto|]. cbv zeta in E1.
    destruct (row_bio_href row) as [href|].
    + right.
      assert (Hurl : exists url d2,
                 (bio_url ← Ok (VStr url);
                  match self_get_page bio_url with
                  | Some html_content =>
                      position_from_labels (page_field_labels (bio_page html_content)) d2
                  | None => Raise TypeError
                  end) = Raise e).
      { destruct (_ && _); unfold dict_item in E1; rewrite lookup_insert_eq in E1; eauto. }
      destruct Hurl as (url & d2 & Hurl). cbn [mbind result_bind] in Hurl.
      destruct (self_get_page (VStr url)).
      * right. apply position_from_labels_errors in Hurl. eauto.
      * left. injection Hurl as <-. eauto.
    + left. unfold dict_item in E1.
      rewrite !lookup_insert_ne, Hd0 in E1 by discriminate.
      cbn [mbind result_bind] in E1. injection E1 as <-. auto.
  - intros text player_id Hname Href. unfold read_identity. rewrite Hname, Href.
    cbv zeta. unfold dict_item. rewrite !lookup_insert_ne, Hd0 by discriminate.
    reflexivity.
Qed.

Lemma get_player_data_rows year (player_data : gmap string pyval) :
  In player_data (get_player_data year) ->
  exists row, player_of_row year row = Ok player_data.
Proof.
  unfold get_player_data.
  destruct (get_page _) as [html_content|]; [|intros []].
  destruct (PyStr.is_empty html_content); [intros []|].
  generalize (roster_rows html_content). intros player_rows.
  induction player_rows as [|row rest IH]; [intros []|].
  cbn [players_of_rows].
  destruct (player_of_row year row) as [d|] eqn:E; [|exact IH].
  intros [<-|Hin]; eauto.
Qed.

Lemma position_from_labels_normalised labels (d d' : gmap string pyval) :
  position_from_labels labels d = Ok d' ->
  normalised_position d -> normalised_position d'.
Proof.
  intros Hs Hd. induction labels as [|[text next_span] rest IH]; cbn in Hs.
  - now inversion Hs; subst.
  - destruct (String.eqb _ _); [|auto].
    destruct next_span as [position|]; inversion Hs; subst.
    exists (strip position). now rewrite lookup_insert_eq.
Qed.

Lemma read_identity_normalised row (d d' : gmap string pyval) :
  read_identity row d = Ok d' ->
  normalised_position d -> normalised_position d'.
Proof.
  unfold read_identity. intros Hs Hd.
  destruct (row_name_cell row) as [[[text player_id]|]|];
    try (inversion Hs; subst; exact Hd).
  cbv zeta in Hs.
  match type of Hs with context [dict_item ?m _] => set (d1 := m) in * end.
  assert (Hd1 : normalised_position d1).
  { destruct Hd as [raw Hraw]. exists raw. subst d1.
    destruct (row_bio_href row) as [href|].
    - destruct (_ && _); now rewrite !lookup_insert_ne by discriminate.
    - now rewrite !lookup_insert_ne by discriminate. }
  destruct (dict_item d1 "bio_url") as [bio_url|]; [|discriminate].
  cbn [mbind result_bind] in Hs.
  destruct (self_get_page bio_url); [|discriminate].
  eapply position_from_labels_normalised; eauto.
Qed.

Lemma identity_key_untouched row (d d' : gmap string pyval) k :
  extract_metrics row metrics d = Ok d' -> In k identity_keys -> d' !! k = d !! k.
Proof.
  intros Hs Hk. apply (extract_metrics_lookup row metrics d d' k Hs).
  - apply List.Forall_forall. intros [metric_key info] Hin Heq.
    destruct (metric_key_is_statistic _ _ Hin) as [Hid _]. apply Hid.
    cbn [snd] in Heq. now rewrite Heq.
  - intros <-. cbn in Hk. intuition discriminate.
  - intros <-. cbn in Hk. intuition discriminate.
Qed.

Lemma player_of_row_defaults year row (player_data : gmap string pyval) :
  player_of_row year row = Ok player_data ->
  player_data !! "year" = Some (VInt year)
  /\ player_data !! "is_in_state" = Some (VBool false)
  /\ normalised_position player_data.
Proof.
  unfold player_of_row. cbv zeta. intros Hs.
  set (d0 := match row_jersey row with Some _ => _ | None => _ end) in Hs.
  assert (Hd0 : d0 !! "year" = Some (VInt year)
                /\ d0 !! "is_in_state" = Some (VBool false)
                /\ normalised_position d0).
  { subst d0. split; [|split]; [| |exists ""];
      destruct (row_jersey row);
      repeat first [rewrite lookup_insert_eq | rewrite lookup_insert_ne by discriminate];
      reflexivity. }
  clearbody d0. destruct Hd0 as (Hyear & Hflag & Hpos).
  destruct (read_identity row d0) as [d1|e] eqn:E1; [|discriminate].
  cbn [mbind result_bind] in Hs.
  pose proof (read_identity_normalised row d0 d1 E1 Hpos) as [raw Hraw].
  split; [|split]; [| |exists raw];
    rewrite (identity_key_untouched row d1 player_data _ Hs) by (cbn; tauto);
    [ rewrite <- Hyear | rewrite <- Hflag | exact Hraw ];
    apply (read_identity_lookup row d0 d1 _ E1); discriminate.
Qed.

(** X15. Every record of [get_player_data] carries the requested year,
    the flag [is_in_state] set to [False], and a position that is a
    result of [normalize_position]. *)
Theorem get_player_data_record_defaults year (player_data : gmap string pyval) :
  In player_data (get_player_data year) ->
  player_data !! "year" = Some (VInt year)
  /\ player_data !! "is_in_state" = Some (VBool false)
  /\ exists raw, player_data !! "position" = Some (VStr (normalize_position raw)).
Proof.
  intros [row Hrow]%get_player_data_rows. now apply player_of_row_defaults in Hrow.
Qed.

(** X16. A row without a player link, such as a totals row, is kept:
    its record has no name, the position Unknown, and
    [get_player_hometown] turns it into an in-state record by the
    California default. *)
Theorem row_without_player_link_is_kept year row :
  row_name_cell row = None \/ row_name_cell row = Some None ->
  exists player_data,
    player_of_row year row = Ok player_data
    /\ player_data !! "name" = None
    /\ player_data !! "position" = Some (VStr "Unknown")
    /\ get_player_hometown player_data = Ok (california_default player_data).
Proof.
  intros Hname. unfold player_of_row. cbv zeta.
  set (d0 := match row_jersey row with Some _ => _ | None => _ end).
  assert (Hd0 : d0 !! "name" = None /\ d0 !! "bio_url" = None
                /\ d0 !! "position" = Some (VStr "Unknown")).
  { subst d0. split; [|split]; destruct (row_jersey row);
      repeat first [rewrite lookup_insert_eq | rewrite lookup_insert_ne by discriminate];
      first [reflexivity | apply lookup_empty]. }
  clearbody d0. destruct Hd0 as (Hn & Hb & Hp).
  assert (Hid : read_identity row d0 = Ok d0)
    by (unfold read_identity; destruct Hname as [-> | ->]; reflexivity).
  rewrite Hid. cbn [mbind result_bind].
  destruct (extract_metrics_returns row metrics d0) as [d Hd]. exists d.
  split; [exact Hd|].
  rewrite <- Hn, <- Hp.
  split; [|split]; try (apply (identity_key_untouched row d0 d _ Hd); cbn; tauto).
  unfold get_player_hometown, dict_get.
  rewrite (identity_key_untouched row d0 d "bio_url" Hd) by (cbn; tauto).
  rewrite Hb. reflexivity.
Qed.

End Facts.

Lemma walk_on_row_record :
  player_of_row (builtins := ascii_builtins) (web := silent_site) 2015 walk_on_row
  = Ok walk_on_record.
Proof. reflexivity. Qed.

Lemma statistics_are_converted_cells_witness :
  walk_on_record !! "batting_OBP"
  = (fun text => converted_cell (builtins := ascii_builtins) "OBP" (strip text))
      <$> find_cell "OB%" (row_cells walk_on_row).
Proof.
  apply (statistics_are_converted_cells (builtins := ascii_builtins) (web := silent_site)
           2015 walk_on_row walk_on_record "OBP"
           {| data_label := "OB%"; key := "batting_OBP" |}).
  - exact walk_on_row_record.
  - vm_compute. tauto.
  - discriminate.
Defined.

Lemma stolen_base_cell_is_split_witness :
  walk_on_record !! "batting_SB" = Some (VStr "5-x")
  /\ walk_on_record !! "batting_SB_successful" = Some (VInt 5)
  /\ walk_on_record !! "batting_SB_attempted" = None.
Proof.
  exact (stolen_base_cell_is_split (builtins := ascii_builtins) (web := silent_site)
           2015 walk_on_row walk_on_record "5-x" walk_on_row_record eq_refl eq_refl).
Defined.

Lemma walk_on_site_data :
  get_player_data (builtins := ascii_builtins) (web := walk_on_site) 2015 = [walk_on_record].
Proof. reflexivity. Qed.

Lemma get_player_data_record_defaults_witness :
  walk_on_record !! "year" = Some (VInt 2015)
  /\ walk_on_record !! "is_in_state" = Some (VBool false)
  /\ exists raw, walk_on_record !! "position" = Some (VStr (normalize_position raw)).
Proof.
  apply (get_player_data_record_defaults (builtins := ascii_builtins) (web := walk_on_site)
           2015 walk_on_record).
  rewrite walk_on_site_data. left. reflexivity.
Defined.

Lemma row_is_dropped_by_its_link_witness :
  player_of_row (builtins := ascii_builtins) (web := example_site) 2015 linkless_row
  = Raise (KeyError "bio_url").
Proof.
  apply (proj2 (row_is_dropped_by_its_link (builtins := ascii_builtins)
                  (web := example_site) 2015 linkless_row) "Poe, Pat" None);
    reflexivity.
Defined.

Lemma row_without_player_link_is_kept_witness :
  exists player_data,
    player_of_row (builtins := ascii_builtins) (web := example_site) 2015 totals_row
    = Ok player_data
    /\ player_data !! "name" = None
    /\ player_data !! "position" = Some (VStr "Unknown")
    /\ get_player_hometown (web := example_site) player_data
       = Ok (california_default player_data).
Proof.
  apply (row_without_player_link_is_kept (builtins := ascii_builtins)
           (web := example_site) 2015 totals_row).
  right. reflexivity.
Defined.

End ExtractionFacts.

(* ===================================================================== *)
(** ** Further properties of [process_all_years] *)
(* ===================================================================== *)

Module RunFacts.
Import Py PyStr Scraper Claimed Examples Observed.
Import PyStrFacts Pipeline CalculatorFacts EnrichmentFacts ExtractionFacts.

Section Facts.
Context `{builtins : Builtins} `{web : Web}.

Lemma process_players_appends players all_players collected :
  process_players players all_players = Ok collected ->
  exists records,
    collected = (all_players ++ records)%list
    /\ Forall2 processed players records.
Proof.
  revert all_players. induction players as [|player rest IH]; intros all_players Hs.
  - injection Hs as <-. exists []. split; [now rewrite app_nil_r | constructor].
  - cbn [process_players] in Hs.
    destruct (get_player_hometown player) as [enriched|] eqn:E1; [|discriminate].
    cbn [mbind result_bind] in Hs.
    destruct (calculate_war enriched) as [war|] eqn:E2; [|discriminate].
    cbn [mbind result_bind] in Hs.
    destruct (IH _ Hs) as (records & -> & Hall).
    exists (<["WAR" := war]> enriched :: records). split.
    + now rewrite <- app_assoc.
    + constructor; [|exact Hall]. exists enriched, war. auto.
Qed.

Lemma processed_complete year (player record : gmap string pyval) :
  player !! "year" = Some (VInt year) ->
  normalised_position player ->
  processed player record ->
  complete_record year record.
Proof.
  intros Hyear [raw Hraw] (enriched & war & Hh & Hw & ->).
  pose proof (get_player_hometown_enriched player) as He. rewrite Hh in He.
  destruct He as (Hflag & Hframe & Hpos).
  pose proof (calculate_war_outcome enriched) as Hf. rewrite Hw in Hf.
  destruct Hf as [f ->].
  split; [|split; [|split]].
  - rewrite lookup_insert_ne by discriminate.
    rewrite Hframe by (cbn; intuition discriminate). exact Hyear.
  - destruct Hpos as [Hsame|[_ [text Htext]]].
    + exists raw. rewrite lookup_insert_ne by discriminate. congruence.
    + exists (strip text). now rewrite lookup_insert_ne by discriminate.
  - exists f. now rewrite lookup_insert_eq.
  - destruct Hflag as (state & Hs & Hne & Hb). exists state.
    now rewrite !lookup_insert_ne by discriminate.
Qed.

Lemma process_years_records years all_players collected :
  process_years years all_players = Ok collected ->
  exists records,
    collected = (all_players ++ records)%list
    /\ Forall (fun record => exists year, In year years /\ complete_record year record)
         records.
Proof.
  revert all_players. induction years as [|year rest IH]; intros all_players Hs.
  - injection Hs as <-. exists []. split; [now rewrite app_nil_r | constructor].
  - cbn [process_years] in Hs.
    destruct (process_players (get_player_data year) all_players) as [mid|] eqn:E;
      [|discriminate].
    cbn [mbind result_bind] in Hs.
    apply process_players_appends in E as (first & -> & Hfirst).
    destruct (IH _ Hs) as (later & -> & Hlater).
    exists (first ++ later)%list. split; [now rewrite <- app_assoc|].
    apply Forall_app. split.
    + assert (Hdata : Forall (fun player => player !! "year" = Some (VInt year)
                                            /\ normalised_position player)
                        (get_player_data year)).
      { apply List.Forall_forall. intros player Hin.
        apply get_player_data_rows in Hin as [row Hrow].
        apply player_of_row_defaults in Hrow. tauto. }
      clear Hs IH Hlater. revert Hdata.
      induction Hfirst as [|player record players records Hp _ IHf]; intros Hdata;
        [constructor|].
      apply Forall_cons in Hdata as [[Hy Hn] Hdata].
      constructor; [|now apply IHf].
      exists year. split; [now left|]. eapply processed_complete; eauto.
    + eapply Forall_impl; [exact Hlater|].
      intros record (y & Hy & Hc). exists y. split; [now right | exact Hc].
Qed.

Lemma collected_records_are_complete_aux start_year end_year collected record :
  collect_all_years start_year end_year = Ok collected ->
  In record collected ->
  exists year,
    start_year <= year <= end_year /\ complete_record year record.
Proof.
  unfold collect_all_years. intros Hs Hin.
  apply process_years_records in Hs as (records & -> & Hall).
  rewrite app_nil_l in Hin. rewrite List.Forall_forall in Hall.
  destruct (Hall _ Hin) as (year & Hyear & Hc).
  exists year. split; [|exact Hc].
  apply list_elem_of_In, elem_of_seqZ in Hyear. lia.
Qed.

(** X17. [process_players] succeeds exactly when every player can be
    enriched and rated, and then returns the records it was given
    followed by one record per player, in the players' order: the
    enriched record with its WAR. *)
Theorem process_players_appends_in_order players all_players collected :
  process_players players all_players = Ok collected
  <-> exists records,
        collected = (all_players ++ records)%list
        /\ Forall2 processed players records.
Proof.
  split; [apply process_players_appends|].
  intros (records & -> & Hall). revert all_players.
  induction Hall as [|player record players records (enriched & war & Hh & Hw & ->) _ IH];
    intros all_players.
  - now rewrite app_nil_r.
  - cbn [process_players]. rewrite Hh. cbn [mbind result_bind].
    rewrite Hw. cbn [mbind result_bind]. rewrite IH. now rewrite <- app_assoc.
Qed.

(** X18. Every record collected by a successful run has a year of the
    requested range, a position that is a result of
    [normalize_position], a WAR that is a float, and a non-empty state
    with [is_in_state] computed from it. *)
Theorem collected_records_are_complete start_year end_year collected record :
  collect_all_years start_year end_year = Ok collected ->
  In record collected ->
  exists year,
    start_year <= year <= end_year
    /\ record !! "year" = Some (VInt year)
    /\ (exists raw, record !! "position" = Some (VStr (normalize_position raw)))
    /\ (exists war, record !! "WAR" = Some (VFloat war))
    /\ (exists state,
          record !! "state" = Some (VStr state)
          /\ is_empty state = false
          /\ record !! "is_in_state" = Some (VBool (is_california_state state))).
Proof.
  unfold collect_all_years. intros Hs Hin.
  apply process_years_records in Hs as (records & -> & Hall).
  rewrite app_nil_l in Hin. rewrite List.Forall_forall in Hall.
  destruct (Hall _ Hin) as (year & Hyear & Hy & Hp & Hw & Hf).
  exists year. split; [|auto].
  apply list_elem_of_In, elem_of_seqZ in Hyear. lia.
Qed.

(** X19. The table of a successful run that collected at least one
    player has the columns WAR and position, is left as it is by the
    check for the is_in_state column, and has a position and a flag in
    every row. *)
Theorem process_all_years_table_is_ready start_year end_year (data : DataFrame) :
  process_all_years start_year end_year = Ok data ->
  df_rows data <> [] ->
  require_column data "WAR" = Ok tt
  /\ require_column data "position" = Ok tt
  /\ ensure_is_in_state data = data
  /\ Forall (fun row => is_Some (position row) /\ is_Some (is_in_state row)) (df_rows data).
Proof.
  unfold process_all_years. intros Hs Hrows.
  destruct (collect_all_years start_year end_year) as [collected|] eqn:E; [|discriminate].
  cbn [mbind result_bind] in Hs. injection Hs as <-.
  assert (Hall : Forall (fun record : gmap string pyval =>
                           (exists s, record !! "position" = Some (VStr s))
                           /\ (exists b, record !! "is_in_state" = Some (VBool b))
                           /\ is_Some (record !! "WAR")) collected).
  { apply List.Forall_forall. intros record Hin.
    destruct (collected_records_are_complete_aux _ _ _ _ E Hin)
      as (_ & _ & _ & [raw Hraw] & [war Hwar] & (state & _ & _ & Hflag)).
    rewrite Hwar. eauto. }
  assert (Hcols : forall k, Forall (fun record : gmap string pyval => is_Some (record !! k)) collected ->
                            collected <> [] ->
                            k ∈ df_columns (frame_of_records collected)).
  { intros k Hk Hne. destruct collected as [|record rest]; [contradiction|].
    apply Forall_cons in Hk as [Hk _]. cbn. apply elem_of_union_l, elem_of_dom, Hk. }
  assert (Hne : collected <> []).
  { intros ->. apply Hrows. reflexivity. }
  assert (Hflagcol : "is_in_state" ∈ df_columns (frame_of_records collected)).
  { apply Hcols; [|exact Hne]. eapply Forall_impl; [exact Hall|].
    intros record (_ & [b ->] & _). eauto. }
  assert (Hsame : ensure_is_in_state (frame_of_records collected) = frame_of_records collected).
  { unfold ensure_is_in_state. now rewrite bool_decide_eq_true_2. }
  rewrite Hsame. unfold require_column.
  rewrite !bool_decide_eq_true_2.
  - split; [reflexivity|]. split; [reflexivity|]. split; [exact Hsame|].
    cbn [frame_of_records df_rows]. apply Forall_fmap.
    eapply Forall_impl; [exact Hall|].
    intros record ([s Hs] & [b Hb] & _). unfold row_of_record. cbn.
    rewrite Hs, Hb. eauto.
  - apply Hcols; [|exact Hne]. eapply Forall_impl; [exact Hall|].
    intros record ([s ->] & _). eauto.
  - apply Hcols; [|exact Hne]. eapply Forall_impl; [exact Hall|].
    intros record (_ & _ & Hwar). exact Hwar.
Qed.

End Facts.

Lemma walk_on_site_run :
  collect_all_years (builtins := ascii_builtins) (web := walk_on_site) 2015 2015
  = Ok [walk_on_final].
Proof. reflexivity. Qed.

Lemma process_players_appends_in_order_witness :
  exists records,
    [walk_on_final] = ([] ++ records)%list
    /\ Forall2 (processed (web := walk_on_site) (builtins := ascii_builtins))
         [walk_on_record] records.
Proof.
  apply (proj1 (process_players_appends_in_order (builtins := ascii_builtins)
                  (web := walk_on_site) [walk_on_record] [] [walk_on_final])).
  reflexivity.
Defined.

Lemma collected_records_are_complete_witness :
  exists year,
    2015 <= year <= 2015
    /\ walk_on_final !! "year" = Some (VInt year)
    /\ (exists raw, walk_on_final !! "position" = Some (VStr (normalize_position raw)))
    /\ (exists war, walk_on_final !! "WAR" = Some (VFloat war))
    /\ (exists state,
          walk_on_final !! "state" = Some (VStr state)
          /\ PyStr.is_empty state = false
          /\ walk_on_final !! "is_in_state" = Some (VBool (is_california_state state))).
Proof.
  apply (collected_records_are_complete (builtins := ascii_builtins) (web := walk_on_site)
           2015 2015 [walk_on_final] walk_on_final walk_on_site_run).
  left. reflexivity.
Defined.

Lemma process_all_years_table_is_ready_witness :
  let data := ensure_is_in_state (frame_of_records [walk_on_final]) in
  require_column data "WAR" = Ok tt
  /\ require_column data "position" = Ok tt
  /\ ensure_is_in_state data = data
  /\ Forall (fun row => is_Some (position row) /\ is_Some (is_in_state row)) (df_rows data).
Proof.
  apply (process_all_years_table_is_ready (builtins := ascii_builtins) (web := walk_on_site)
           2015 2015).
  - unfold process_all_years. rewrite walk_on_site_run. reflexivity.
  - vm_compute. discriminate.
Defined.

End RunFacts.

(* ===================================================================== *)
(** ** Further properties of [analyze_war_by_position] *)
(* ===================================================================== *)

Module SummaryFacts.
Import Py Scraper Claimed Examples Observed.
Import Aggregation.

Lemma float_sub_zero (x : float) : (x - 0)%float = x.
Proof.
  apply Prim2SF_inj. rewrite sub_spec. change (Prim2SF 0) with (S754_zero false).
  destruct (Prim2SF x) as [[]|[]| |[] m e] eqn:E; try reflexivity.
Qed.

Lemma insert_sorted_perm {A} (before : A -> A -> bool) x l :
  insert_sorted before x l ≡ₚ x :: l.
Proof.
  induction l as [|y rest IH]; cbn; [reflexivity|].
  destruct (before x y); [reflexivity|].
  rewrite IH. apply Permutation_swap.
Qed.

Lemma sort_by_perm {A} (before : A -> A -> bool) l : sort_by before l ≡ₚ l.
Proof.
  unfold sort_by. induction l as [|x rest IH]; cbn; [reflexivity|].
  now rewrite insert_sorted_perm, IH.
Qed.

Lemma str_in_elem x l : str_in x l = true <-> x ∈ l.
Proof.
  unfold str_in. rewrite existsb_exists. split.
  - intros (y & Hy & ->%String.eqb_eq). now apply list_elem_of_In.
  - intros Hin. exists x. split; [now apply list_elem_of_In | apply String.eqb_refl].
Qed.

Lemma dedup_str_elem x l : x ∈ dedup_str l <-> x ∈ l.
Proof.
  induction l as [|y rest IH]; cbn; [reflexivity|].
  destruct (str_in y rest) eqn:E.
  - rewrite IH, elem_of_cons. apply str_in_elem in E. split; [auto|]. now intros [->|].
  - now rewrite !elem_of_cons, IH.
Qed.

Lemma dedup_str_NoDup l : NoDup (dedup_str l).
Proof.
  induction l as [|y rest IH]; cbn; [constructor|].
  destruct (str_in y rest) eqn:E; [exact IH|].
  constructor; [|exact IH]. rewrite dedup_str_elem, <- str_in_elem. congruence.
Qed.

Section Rows.
Variable mean : list float -> float.

(** The positions that have a group. *)
Lemma group_positions rows pos :
  pos ∈ (g_position <$> position_stats mean rows)
  <-> exists row flag,
        row ∈ rows /\ position row = Some pos /\ is_in_state row = Some flag.
Proof.
  unfold position_stats. split.
  - intros (g & -> & Hg)%list_elem_of_fmap.
    apply list_elem_of_In, group_stat_in_stats in Hg. unfold group_stat in Hg.
    destruct (List.filter _ rows) as [|row members] eqn:E; [discriminate|].
    assert (Hrow : In row (List.filter (same_group (g_position g) (g_in_state g)) rows))
      by (rewrite E; now left).
    apply filter_In in Hrow as [Hin Hsame]. unfold same_group in Hsame.
    destruct (position row) as [p|] eqn:Ep; [|discriminate].
    destruct (is_in_state row) as [b|] eqn:Eb; [|discriminate].
    apply andb_prop in Hsame as [->%String.eqb_eq _].
    exists row, b. split; [now apply list_elem_of_In | auto].
  - intros (row & flag & Hin & Hp & Hf).
    assert (Hmember : In row (List.filter (same_group pos flag) rows)).
    { apply filter_In. split; [now apply list_elem_of_In|].
      unfold same_group. rewrite Hp, Hf, String.eqb_refl. now destruct flag. }
    remember (List.filter (same_group pos flag) rows) as found eqn:E.
    destruct found as [|r members]; [contradiction|]. symmetry in E.
    apply list_elem_of_fmap.
    eexists {| g_position := pos; g_in_state := flag;
               g_mean := mean (WAR <$> r :: members);
               g_count := Z.of_nat (length (r :: members)) |}.
    split; [reflexivity|].
    apply list_elem_of_join. exists (omap (group_stat mean rows pos) [false; true]). split.
    + apply list_elem_of_omap. exists flag. split; [apply list_elem_of_In; destruct flag; cbn; tauto|].
      unfold group_stat. now rewrite E.
    + apply list_elem_of_fmap. exists pos. split; [reflexivity|].
      rewrite sort_by_perm, dedup_str_elem. apply list_elem_of_omap. eauto.
Qed.

Lemma flags_of_groups rows g :
  In g (position_stats mean rows) ->
  exists row, In row rows /\ is_in_state row = Some (g_in_state g).
Proof.
  intros Hg. apply group_stat_in_stats in Hg. unfold group_stat in Hg.
  destruct (List.filter _ rows) as [|row members] eqn:E; [discriminate|].
  assert (Hrow : In row (List.filter (same_group (g_position g) (g_in_state g)) rows))
    by (rewrite E; now left).
  apply filter_In in Hrow as [Hin Hsame]. unfold same_group in Hsame.
  destruct (position row); [|discriminate].
  destruct (is_in_state row) as [b|] eqn:Eb; [|discriminate].
  apply andb_prop in Hsame as [_ Hb%Bool.eqb_prop].
  exists row. split; [exact Hin | now rewrite Eb, Hb].
Qed.

Lemma no_column_without_flag rows flag :
  Forall (fun row => is_in_state row <> Some flag) rows ->
  has_mean_column (position_stats mean rows) flag = false
  /\ has_count_column (position_stats mean rows) flag = false.
Proof.
  intros Hall. rewrite List.Forall_forall in Hall.
  assert (Hnone : forall g, In g (position_stats mean rows) ->
                            Bool.eqb (g_in_state g) flag = false).
  { intros g Hg. destruct (flags_of_groups rows g Hg) as (row & Hin & Hf).
    destruct (Bool.eqb (g_in_state g) flag) eqn:E; [|reflexivity].
    apply Bool.eqb_prop in E. subst flag. destruct (Hall row Hin Hf). }
  unfold has_mean_column, has_count_column. split.
  - apply not_true_is_false. intros (g & Hg & Ht)%existsb_exists.
    rewrite (Hnone g Hg) in Ht. discriminate.
  - apply not_true_is_false. intros (g & Hg & Ht)%existsb_exists.
    rewrite (Hnone g Hg) in Ht. discriminate.
Qed.

Lemma filtered_rows_flags (data : DataFrame) flag :
  Forall (fun row => is_in_state row <> Some flag) (df_rows data) ->
  Forall (fun row => is_in_state row <> Some flag) (rows_with_war_and_position data).
Proof.
  unfold rows_with_war_and_position. rewrite !List.Forall_forall.
  intros Hall row Hin. apply filter_In in Hin as [Hin _]. auto.
Qed.

(** X20. A table in which no player is in state makes the analysis
    raise [KeyError] for the in-state mean column, however many
    out-of-state players it holds. *)
Theorem analysis_needs_an_in_state_player (data : DataFrame) :
  "WAR" ∈ df_columns data ->
  "position" ∈ df_columns data ->
  "is_in_state" ∈ df_columns data ->
  Forall (fun row => is_in_state row <> Some true) (df_rows data) ->
  analyze_war_by_position mean data = Raise (KeyError "('mean', True)").
Proof.
  intros Hwar Hpos Hflag Hall. unfold analyze_war_by_position. cbv zeta.
  assert (Hsame : ensure_is_in_state data = data)
    by (unfold ensure_is_in_state; now rewrite bool_decide_eq_true_2).
  rewrite Hsame. unfold require_column. rewrite !bool_decide_eq_true_2 by assumption.
  cbn [mbind result_bind].
  destruct (no_column_without_flag (rows_with_war_and_position data) true
              (filtered_rows_flags data true Hall)) as [-> _].
  reflexivity.
Qed.

(** X21. When no player of the table is out of state, every row of the
    summary has the integer 0 as out-of-state mean and count, a WAR
    difference equal to the in-state mean, and NaN as percent
    difference. *)
Theorem summary_without_out_of_state_players
    (data : DataFrame) (table : list PositionStatSummary) (row : PositionStatSummary) :
  Forall (fun r => is_in_state r <> Some false) (df_rows (ensure_is_in_state data)) ->
  analyze_war_by_position mean data = Ok table ->
  In row table ->
  Out_of_State_WAR row = NInt 0
  /\ Out_of_State_Count row = NInt 0
  /\ WAR_Difference row = In_State_WAR row
  /\ Pct_Difference row = nan.
Proof.
  intros Hall Hs Hin. rewrite (analyze_rows mean data table row Hs Hin).
  destruct (no_column_without_flag (rows_with_war_and_position (ensure_is_in_state data))
              false (filtered_rows_flags _ false Hall)) as [Hm Hc].
  unfold summary_row. cbn. rewrite Hm, Hc.
  split; [reflexivity|]. split; [reflexivity|]. split.
  - unfold war_difference. change (cell_float (NInt 0)) with 0%float.
    apply float_sub_zero.
  - apply pct_difference_zero. reflexivity.
Qed.

(** X22. The summary has exactly one row for each position that has a
    rated player with a known flag: no position twice, none left out,
    none made up. *)
Theorem summary_has_one_row_per_position
    (data : DataFrame) (table : list PositionStatSummary) :
  analyze_war_by_position mean data = Ok table ->
  NoDup (Position <$> table)
  /\ forall pos,
       pos ∈ (Position <$> table)
       <-> exists r flag,
             r ∈ rows_with_war_and_position (ensure_is_in_state data)
             /\ position r = Some pos /\ is_in_state r = Some flag.
Proof.
  unfold analyze_war_by_position. cbv zeta. intros Hs.
  destruct (require_column _ "WAR"); [|discriminate].
  destruct (require_column _ "position"); [|discriminate].
  cbn [mbind result_bind] in Hs.
  destruct (has_mean_column _ true); [|discriminate].
  destruct (has_count_column _ true); [|discriminate].
  cbn [mbind result_bind] in Hs. injection Hs as <-.
  set (rows := rows_with_war_and_position (ensure_is_in_state data)).
  set (stats := position_stats mean rows).
  assert (Hperm : Position <$> sort_by difference_before
                    (summary_row stats <$>
                       sort_by String.leb (dedup_str (g_position <$> stats)))
                  ≡ₚ dedup_str (g_position <$> stats)).
  { rewrite sort_by_perm, <- list_fmap_compose.
    rewrite (list_fmap_ext (Position ∘ summary_row stats) id) by reflexivity.
    rewrite list_fmap_id. apply sort_by_perm. }
  split.
  - rewrite Hperm. apply dedup_str_NoDup.
  - intros pos. rewrite Hperm, dedup_str_elem. apply group_positions.
Qed.

End Rows.

Lemma home_frame_summary : analyze_war_by_position plain_mean home_frame = Ok home_table.
Proof. vm_compute. reflexivity. Qed.

Lemma analysis_needs_an_in_state_player_witness :
  analyze_war_by_position plain_mean away_frame = Raise (KeyError "('mean', True)").
Proof.
  apply (analysis_needs_an_in_state_player plain_mean away_frame).
  - apply (bool_decide_unpack _). vm_compute. reflexivity.
  - apply (bool_decide_unpack _). vm_compute. reflexivity.
  - apply (bool_decide_unpack _). vm_compute. reflexivity.
  - repeat constructor; discriminate.
Defined.

Lemma summary_without_out_of_state_players_witness :
  let row := {| Position := "SS"; In_State_WAR := 1; In_State_Count := 1;
                Out_of_State_WAR := NInt 0; Out_of_State_Count := NInt 0;
                WAR_Difference := 1; Pct_Difference := nan |} in
  Out_of_State_WAR row = NInt 0
  /\ Out_of_State_Count row = NInt 0
  /\ WAR_Difference row = In_State_WAR row
  /\ Pct_Difference row = nan.
Proof.
  apply (summary_without_out_of_state_players plain_mean home_frame home_table).
  - unfold ensure_is_in_state.
    rewrite bool_decide_eq_true_2 by (apply (bool_decide_unpack _); vm_compute; reflexivity).
    repeat constructor; discriminate.
  - exact home_frame_summary.
  - right. left. reflexivity.
Defined.

Lemma summary_has_one_row_per_position_witness :
  NoDup (Position <$> home_table)
  /\ forall pos,
       pos ∈ (Position <$> home_table)
       <-> exists r flag,
             r ∈ rows_with_war_and_position (ensure_is_in_state home_frame)
             /\ position r = Some pos /\ is_in_state r = Some flag.
Proof.
  exact (summary_has_one_row_per_position plain_mean home_frame home_table
           home_frame_summary).
Defined.

End SummaryFacts.
